(** * asyncorm field descriptors: a shallow embedding of [asyncorm/fields/fields.py]

    The development follows the layout of the Python module: first the
    fragment of the Python object model the field classes compute with
    (values, truthiness, [isinstance], [str.format]), then the standard
    library [json] functions the JSON field calls, then the [Field] class
    hierarchy method by method, and finally the properties of the
    descriptors. *)

From Stdlib Require Import String Ascii List ZArith QArith Bool Lia.
From Stdlib Require Import Decimal DecimalString DecimalZ DecimalPos DecimalN DecimalFacts.
Import ListNotations.

Local Open Scope string_scope.
Local Open Scope Z_scope.

(** ** Python values *)

(** The values a field descriptor can meet.  A [str] is a sequence of code
    points below 256; a finite [float] and a [Decimal] carry their numeric
    value together with the text [str()] gives for them, a naive [datetime]
    is known by the text of [str()], a callable by a name standing for its
    identity and the value a call without arguments returns. *)
#[local] Unset Elimination Schemes.
Inductive PyVal : Type :=
| VNone
| VBool (b : bool)
| VInt (z : Z)
| VFloat (q : Q) (repr : string)
| VDecimal (q : Q) (repr : string)
| VStr (s : string)
| VDatetime (iso : string)
| VList (l : list PyVal)
| VTuple (l : list PyVal)
| VDict (d : list (PyVal * PyVal))
| VCallable (name : string) (ret : PyVal).
#[local] Set Elimination Schemes.

(** Structural induction on values, through the lists and the dictionaries. *)
Section PyVal_induction.

Variable P : PyVal -> Prop.
Hypothesis HNone : P VNone.
Hypothesis HBool : forall b, P (VBool b).
Hypothesis HInt : forall z, P (VInt z).
Hypothesis HFloat : forall q r, P (VFloat q r).
Hypothesis HDecimal : forall q r, P (VDecimal q r).
Hypothesis HStr : forall s, P (VStr s).
Hypothesis HDatetime : forall iso, P (VDatetime iso).
Hypothesis HList : forall l, Forall P l -> P (VList l).
Hypothesis HTuple : forall l, Forall P l -> P (VTuple l).
Hypothesis HDict : forall d, Forall (fun kv => P (fst kv) /\ P (snd kv)) d -> P (VDict d).
Hypothesis HCallable : forall name ret, P ret -> P (VCallable name ret).

Fixpoint PyVal_ind (v : PyVal) : P v :=
  match v with
  | VNone => HNone
  | VBool b => HBool b
  | VInt z => HInt z
  | VFloat q r => HFloat q r
  | VDecimal q r => HDecimal q r
  | VStr s => HStr s
  | VDatetime iso => HDatetime iso
  | VList l =>
      HList l ((fix all (l : list PyVal) : Forall P l :=
                  match l with
                  | [] => Forall_nil P
                  | x :: l' => Forall_cons x (PyVal_ind x) (all l')
                  end) l)
  | VTuple l =>
      HTuple l ((fix all (l : list PyVal) : Forall P l :=
                   match l with
                   | [] => Forall_nil P
                   | x :: l' => Forall_cons x (PyVal_ind x) (all l')
                   end) l)
  | VDict d =>
      HDict d ((fix all (d : list (PyVal * PyVal))
                  : Forall (fun kv => P (fst kv) /\ P (snd kv)) d :=
                  match d with
                  | [] => Forall_nil _
                  | kv :: d' =>
                      Forall_cons kv (conj (PyVal_ind (fst kv)) (PyVal_ind (snd kv)))
                        (all d')
                  end) d)
  | VCallable name ret => HCallable name ret (PyVal_ind ret)
  end.

End PyVal_induction.

(** The classes named in [KWARGS_TYPES] and in the [internal_type]
    attributes. *)
Inductive PyType : Type :=
| TObject | TBool | TInt | TFloat | TDecimal | TStr | TDatetime
| TList | TTuple | TDict.

(** Messages of [FieldError], one constructor per [raise FieldError(...)] of
    the module; the arguments are the values the message is formatted
    with. *)
Inductive FieldErrorMsg : Type :=
| MsgRequires (class_name kw : string)
| MsgWrongValue (k : string)
| MsgColumnContains
| MsgColumnStart
| MsgColumnEnd
| MsgNullInNotNull
| MsgNotInChoices (value : PyVal)
| MsgWrongDatatype (value : PyVal) (class_name : string)
| MsgTooLong (max_length : PyVal)
| MsgNotJson
| MsgNotEmail (value : PyVal).

(** Exceptions.  [Unmodelled] marks the places where Python goes on with a
    value outside [PyVal] (a code point above 255, [repr] of a container,
    a format specification, a non-finite float). *)
Inductive PyExc : Type :=
| FieldError (m : FieldErrorMsg)
| AttributeError (attr : string)
| KeyError (key : string)
| TypeError
| ValueError
| IndexError
| JSONDecodeError
| Unmodelled.

Inductive Result (A : Type) : Type :=
| Ok (a : A)
| Raise (e : PyExc).
Arguments Ok {A} a.
Arguments Raise {A} e.

Definition bind {A B : Type} (r : Result A) (k : A -> Result B) : Result B :=
  match r with
  | Ok a => k a
  | Raise e => Raise e
  end.

Notation "x <- r ;; k" := (bind r (fun x => k))
  (at level 61, r at next level, right associativity).
Notation "r ;;; k" := (bind r (fun _ => k))
  (at level 61, right associativity).

Definition is_ok {A : Type} (r : Result A) : bool :=
  match r with Ok _ => true | Raise _ => false end.

(** [for x in xs: body(x)], stopping at the first exception. *)
Fixpoint for_each {A : Type} (body : A -> Result unit) (xs : list A) : Result unit :=
  match xs with
  | [] => Ok tt
  | x :: xs' => body x ;;; for_each body xs'
  end.

(** *** Truthiness, types, equality of keys *)

Definition is_None (v : PyVal) : bool :=
  match v with VNone => true | _ => false end.

Definition Q_nonzero (q : Q) : bool := negb (Qeq_bool q (inject_Z 0)).

(** [bool(v)]. *)
Definition truthy (v : PyVal) : bool :=
  match v with
  | VNone => false
  | VBool b => b
  | VInt z => negb (z =? 0)
  | VFloat q _ => Q_nonzero q
  | VDecimal q _ => Q_nonzero q
  | VStr s => negb (String.eqb s "")
  | VDatetime _ => true
  | VList l => match l with [] => false | _ => true end
  | VTuple l => match l with [] => false | _ => true end
  | VDict d => match d with [] => false | _ => true end
  | VCallable _ _ => true
  end.

(** [isinstance(v, t)] for one class; [bool] is a subclass of [int]. *)
Definition instance_of (v : PyVal) (t : PyType) : bool :=
  match t, v with
  | TObject, _ => true
  | TBool, VBool _ => true
  | TInt, VInt _ => true
  | TInt, VBool _ => true
  | TFloat, VFloat _ _ => true
  | TDecimal, VDecimal _ _ => true
  | TStr, VStr _ => true
  | TDatetime, VDatetime _ => true
  | TList, VList _ => true
  | TTuple, VTuple _ => true
  | TDict, VDict _ => true
  | _, _ => false
  end.

(** [isinstance(v, (t1, ..., tn))]. *)
Definition isinstance (v : PyVal) (ts : list PyType) : bool :=
  existsb (instance_of v) ts.

Definition callable (v : PyVal) : bool :=
  match v with VCallable _ _ => true | _ => false end.

(** [v()] for a callable [v]. *)
Definition call (v : PyVal) : Result PyVal :=
  match v with VCallable _ ret => Ok ret | _ => Raise TypeError end.

(** Whether [hash(v)] is defined. *)
Fixpoint hashable (v : PyVal) : bool :=
  match v with
  | VList _ | VDict _ => false
  | VTuple l => (fix all (l : list PyVal) : bool :=
                   match l with [] => true | x :: l' => hashable x && all l' end) l
  | _ => true
  end.

(** The number a [bool], [int], [float] or [Decimal] stands for. *)
Definition numeric (v : PyVal) : option Q :=
  match v with
  | VBool b => Some (inject_Z (if b then 1 else 0))
  | VInt z => Some (inject_Z z)
  | VFloat q _ => Some q
  | VDecimal q _ => Some q
  | _ => None
  end.

(** [a == b] on hashable values, which is what a dictionary lookup compares:
    numbers by value across the numeric classes, strings and datetimes by
    content, tuples element by element, callables by identity. *)
Fixpoint key_eq (a b : PyVal) : bool :=
  match a, b with
  | VNone, VNone => true
  | VStr s, VStr t => String.eqb s t
  | VDatetime s, VDatetime t => String.eqb s t
  | VCallable n _, VCallable m _ => String.eqb n m
  | VTuple l, VTuple m =>
      (fix all2 (l m : list PyVal) : bool :=
         match l, m with
         | [], [] => true
         | x :: l', y :: m' => key_eq x y && all2 l' m'
         | _, _ => false
         end) l m
  | _, _ =>
      match numeric a, numeric b with
      | Some p, Some q => Qeq_bool p q
      | _, _ => false
      end
  end.

(** [value in keys] where [keys] are the keys of a dictionary. *)
Definition py_in_keys (value : PyVal) (keys : list PyVal) : Result bool :=
  if hashable value then Ok (existsb (key_eq value) keys) else Raise TypeError.

(** [d[k] = v] on a dictionary kept in insertion order. *)
Fixpoint dict_set (d : list (PyVal * PyVal)) (k v : PyVal) : list (PyVal * PyVal) :=
  match d with
  | [] => [(k, v)]
  | (k', v') :: d' => if key_eq k' k then (k', v) :: d' else (k', v') :: dict_set d' k v
  end.

(** *** Text *)

Definition dquote : ascii := "034"%char.
Definition newline : ascii := "010"%char.

(** Decimal text of an integer, as [str(z)]. *)
Definition str_of_Z (z : Z) : string := NilZero.string_of_int (Z.to_int z).

(** [str(v)], which is also ['{}'.format(v)]. *)
Definition py_str (v : PyVal) : Result string :=
  match v with
  | VNone => Ok "None"
  | VBool true => Ok "True"
  | VBool false => Ok "False"
  | VInt z => Ok (str_of_Z z)
  | VFloat _ r => Ok r
  | VDecimal _ r => Ok r
  | VStr s => Ok s
  | VDatetime iso => Ok iso
  | VList _ | VTuple _ | VDict _ | VCallable _ _ => Raise Unmodelled
  end.

(** [len(v)]. *)
Definition py_len (v : PyVal) : Result Z :=
  match v with
  | VStr s => Ok (Z.of_nat (String.length s))
  | VList l => Ok (Z.of_nat (List.length l))
  | VTuple l => Ok (Z.of_nat (List.length l))
  | VDict d => Ok (Z.of_nat (List.length d))
  | _ => Raise TypeError
  end.

(** [n > m] for an integer [n] and any value [m]. *)
Definition int_gt (n : Z) (m : PyVal) : Result bool :=
  match numeric m with
  | Some q => Ok (negb (Qle_bool (inject_Z n) q))
  | None => Raise TypeError
  end.

(** [needle in s] on strings. *)
Fixpoint str_contains (needle s : string) : bool :=
  String.prefix needle s ||
  match s with
  | EmptyString => false
  | String _ s' => str_contains needle s'
  end.

Definition startswith (s p : string) : bool := String.prefix p s.

Fixpoint endswith (s p : string) : bool :=
  String.eqb s p ||
  match s with
  | EmptyString => false
  | String _ s' => endswith s' p
  end.

(** *** [str.format] with keyword arguments *)

Fixpoint dict_get (d : list (string * PyVal)) (k : string) : option PyVal :=
  match d with
  | [] => None
  | (k', v) :: d' => if String.eqb k' k then Some v else dict_get d' k
  end.

Fixpoint dict_put (d : list (string * PyVal)) (k : string) (v : PyVal)
  : list (string * PyVal) :=
  match d with
  | [] => [(k, v)]
  | (k', v') :: d' =>
      if String.eqb k' k then (k', v) :: d' else (k', v') :: dict_put d' k v
  end.

Definition is_digit (c : ascii) : bool :=
  let n := nat_of_ascii c in (48 <=? n)%nat && (n <=? 57)%nat.

Fixpoint all_chars (p : ascii -> bool) (s : string) : bool :=
  match s with
  | EmptyString => true
  | String c s' => p c && all_chars p s'
  end.

Fixpoint any_char (p : ascii -> bool) (s : string) : bool :=
  match s with
  | EmptyString => false
  | String c s' => p c || any_char p s'
  end.

(** The characters that open an attribute, an index, a conversion, a format
    specification or a nested field inside a replacement field. *)
Definition field_syntax_char (c : ascii) : bool :=
  Ascii.eqb c "." || Ascii.eqb c "[" || Ascii.eqb c "!" || Ascii.eqb c ":"
  || Ascii.eqb c "{".

(** The text put in place of [{name}] by [format] called with the keywords [kw]: an empty or
    numeric name asks for a positional argument, of which there is none. *)
Definition format_field (kw : list (string * PyVal)) (name : string) : Result string :=
  if any_char field_syntax_char name then Raise Unmodelled
  else if all_chars is_digit name then Raise IndexError
  else match dict_get kw name with
       | Some v => py_str v
       | None => Raise (KeyError name)
       end.

(** [template.format] with the keywords [kw], read left to right; [field] is the name of the
    replacement field being read, if any. *)
Fixpoint format_from (kw : list (string * PyVal)) (field : option string)
    (template : string) : Result string :=
  match field, template with
  | Some _, EmptyString => Raise ValueError
  | Some name, String c t =>
      if Ascii.eqb c "}" then
        text <- format_field kw name ;;
        rest <- format_from kw None t ;;
        Ok (text ++ rest)
      else format_from kw (Some (name ++ String c "")) t
  | None, EmptyString => Ok ""
  | None, String c t =>
      if Ascii.eqb c "{" then
        match t with
        | String "{" t' => rest <- format_from kw None t' ;; Ok (String "{" rest)
        | _ => format_from kw (Some "") t
        end
      else if Ascii.eqb c "}" then
        match t with
        | String "}" t' => rest <- format_from kw None t' ;; Ok (String "}" rest)
        | _ => Raise ValueError
        end
      else rest <- format_from kw None t ;; Ok (String c rest)
  end.

Definition str_format (template : string) (kw : list (string * PyVal)) : Result string :=
  format_from kw None template.

(** ['\'{}\''.format(v)]. *)
Definition quoted (v : PyVal) : Result string :=
  text <- py_str v ;; Ok ("'" ++ text ++ "'").

(** ** The [json] module of the standard library

    [json.dumps] and [json.loads] with their default arguments, on the
    values of [PyVal]: integers of any size, strings of code points below
    256, no text for a float other than the one it carries. *)
Module json.

(** *** Encoding *)

Definition hex_char (n : N) : ascii :=
  ascii_of_N (if (n <? 10)%N then 48 + n else 87 + n)%N.

(** [ESCAPE_ASCII] and [ESCAPE_DCT]: everything outside the printable ASCII
    range, the quote and the backslash are escaped. *)
Definition escape_char (c : ascii) : string :=
  let n := N_of_ascii c in
  if Ascii.eqb c dquote then String "\" (String dquote "")
  else if Ascii.eqb c "\" then "\\"
  else if (n =? 10)%N then "\n"
  else if (n =? 13)%N then "\r"
  else if (n =? 9)%N then "\t"
  else if (n =? 8)%N then "\b"
  else if (n =? 12)%N then "\f"
  else if ((32 <=? n) && (n <=? 126))%N then String c ""
  else "\u00" ++ String (hex_char (n / 16)) (String (hex_char (n mod 16)) "").

Fixpoint escape (s : string) : string :=
  match s with
  | EmptyString => ""
  | String c s' => escape_char c ++ escape s'
  end.

Definition encode_basestring_ascii (s : string) : string :=
  String dquote (escape s ++ String dquote "").

(** The text of a dictionary key; other keys are a [TypeError]. *)
Definition key_text (k : PyVal) : Result string :=
  match k with
  | VStr s => Ok s
  | VFloat _ r => Ok r
  | VBool true => Ok "true"
  | VBool false => Ok "false"
  | VNone => Ok "null"
  | VInt z => Ok (str_of_Z z)
  | _ => Raise TypeError
  end.

(** [json.dumps(v)]: separators [", "] and [": "], ASCII output. *)
Fixpoint dumps (v : PyVal) : Result string :=
  match v with
  | VNone => Ok "null"
  | VBool true => Ok "true"
  | VBool false => Ok "false"
  | VInt z => Ok (str_of_Z z)
  | VFloat _ r => Ok r
  | VStr s => Ok (encode_basestring_ascii s)
  | VList l | VTuple l =>
      items <- (fix items (l : list PyVal) : Result string :=
                  match l with
                  | [] => Ok ""
                  | [x] => dumps x
                  | x :: l' =>
                      tx <- dumps x ;; tl <- items l' ;; Ok (tx ++ ", " ++ tl)
                  end) l ;;
      Ok ("[" ++ items ++ "]")
  | VDict d =>
      pairs <- (fix pairs (d : list (PyVal * PyVal)) : Result string :=
                  match d with
                  | [] => Ok ""
                  | (k, x) :: d' =>
                      tk <- key_text k ;;
                      tx <- dumps x ;;
                      let item := encode_basestring_ascii tk ++ ": " ++ tx in
                      match d' with
                      | [] => Ok item
                      | _ => tl <- pairs d' ;; Ok (item ++ ", " ++ tl)
                      end
                  end) d ;;
      Ok ("{" ++ pairs ++ "}")
  | VDecimal _ _ | VDatetime _ | VCallable _ _ => Raise TypeError
  end.

(** The two loops of [dumps], named. *)
Fixpoint dumps_items (l : list PyVal) : Result string :=
  match l with
  | [] => Ok ""
  | [x] => dumps x
  | x :: l' => tx <- dumps x ;; tl <- dumps_items l' ;; Ok (tx ++ ", " ++ tl)
  end.

Fixpoint dumps_pairs (d : list (PyVal * PyVal)) : Result string :=
  match d with
  | [] => Ok ""
  | (k, x) :: d' =>
      tk <- key_text k ;;
      tx <- dumps x ;;
      let item := encode_basestring_ascii tk ++ ": " ++ tx in
      match d' with
      | [] => Ok item
      | _ => tl <- dumps_pairs d' ;; Ok (item ++ ", " ++ tl)
      end
  end.

(** *** Decoding *)

Definition is_ws (c : ascii) : bool :=
  let n := N_of_ascii c in
  ((n =? 32) || (n =? 9) || (n =? 10) || (n =? 13))%N.

Fixpoint skip_ws (s : string) : string :=
  match s with
  | EmptyString => ""
  | String c s' => if is_ws c then skip_ws s' else s
  end.

Fixpoint strip_prefix (p s : string) : option string :=
  match p, s with
  | EmptyString, _ => Some s
  | String a p', String b s' => if Ascii.eqb a b then strip_prefix p' s' else None
  | String _ _, EmptyString => None
  end.

Definition hex_value (c : ascii) : option N :=
  let n := N_of_ascii c in
  if ((48 <=? n) && (n <=? 57))%N then Some (n - 48)%N
  else if ((97 <=? n) && (n <=? 102))%N then Some (n - 87)%N
  else if ((65 <=? n) && (n <=? 70))%N then Some (n - 55)%N
  else None.

Definition hex4 (a b c d : ascii) : option N :=
  match hex_value a, hex_value b, hex_value c, hex_value d with
  | Some x, Some y, Some z, Some w => Some (((x * 16 + y) * 16 + z) * 16 + w)%N
  | _, _, _, _ => None
  end.

(** [BACKSLASH]: the character a one-letter escape stands for. *)
Definition backslash (e : ascii) : option ascii :=
  if Ascii.eqb e dquote then Some dquote
  else if Ascii.eqb e "\" then Some "\"%char
  else if Ascii.eqb e "/" then Some "/"%char
  else if Ascii.eqb e "b" then Some "008"%char
  else if Ascii.eqb e "f" then Some "012"%char
  else if Ascii.eqb e "n" then Some "010"%char
  else if Ascii.eqb e "r" then Some "013"%char
  else if Ascii.eqb e "t" then Some "009"%char
  else None.

(** [scanstring], started after the opening quote: the decoded string and
    the text after the closing quote.  Control characters are refused
    (strict mode); an escaped code point above 255 leaves the model. *)
Fixpoint scanstring (s : string) : Result (string * string) :=
  match s with
  | EmptyString => Raise JSONDecodeError
  | String c r =>
      if Ascii.eqb c dquote then Ok ("", r)
      else if Ascii.eqb c "\" then
        match r with
        | EmptyString => Raise JSONDecodeError
        | String e r1 =>
            if Ascii.eqb e "u" then
              match r1 with
              | String h1 (String h2 (String h3 (String h4 r2))) =>
                  match hex4 h1 h2 h3 h4 with
                  | None => Raise JSONDecodeError
                  | Some n =>
                      if (n <? 256)%N then
                        p <- scanstring r2 ;;
                        Ok (String (ascii_of_N n) (fst p), snd p)
                      else Raise Unmodelled
                  end
              | _ => Raise JSONDecodeError
              end
            else
              match backslash e with
              | Some ch => p <- scanstring r1 ;; Ok (String ch (fst p), snd p)
              | None => Raise JSONDecodeError
              end
        end
      else if (N_of_ascii c <? 32)%N then Raise JSONDecodeError
      else p <- scanstring r ;; Ok (String c (fst p), snd p)
  end.

Definition digit_of_char (c : ascii) : option (uint -> uint) :=
  match N_of_ascii c with
  | 48%N => Some D0 | 49%N => Some D1 | 50%N => Some D2 | 51%N => Some D3
  | 52%N => Some D4 | 53%N => Some D5 | 54%N => Some D6 | 55%N => Some D7
  | 56%N => Some D8 | 57%N => Some D9
  | _ => None
  end.

(** The longest run of digits at the head of [s]. *)
Fixpoint scan_digits (s : string) : uint * string :=
  match s with
  | EmptyString => (Nil, "")
  | String c r =>
      match digit_of_char c with
      | Some d => let p := scan_digits r in (d (fst p), snd p)
      | None => (Nil, s)
      end
  end.

Definition starts_with_digit (s : string) : bool :=
  match s with
  | String c _ => is_digit c
  | EmptyString => false
  end.

(** The groups [(\.\d+)] and [([eE][-+]?\d+)] of [NUMBER_RE]. *)
Definition has_frac (s : string) : bool :=
  match s with
  | String c r => Ascii.eqb c "." && starts_with_digit r
  | EmptyString => false
  end.

Definition has_exp (s : string) : bool :=
  match s with
  | String c r =>
      (Ascii.eqb c "e" || Ascii.eqb c "E") &&
      (starts_with_digit r ||
       match r with
       | String sg r' => (Ascii.eqb sg "-" || Ascii.eqb sg "+") && starts_with_digit r'
       | EmptyString => false
       end)
  | EmptyString => false
  end.

(** The integer group of [NUMBER_RE], an optional minus sign and then a
    single zero or a run of digits starting with a nonzero one: sign,
    digits, rest. *)
Definition match_integer (s : string) : option (bool * uint * string) :=
  let (neg, s1) :=
    match s with
    | String c r => if Ascii.eqb c "-" then (true, r) else (false, s)
    | EmptyString => (false, s)
    end in
  match s1 with
  | EmptyString => None
  | String c r =>
      if Ascii.eqb c "0" then Some (neg, D0 Nil, r)
      else if is_digit c then let p := scan_digits s1 in Some (neg, fst p, snd p)
      else None
  end.

Definition is_some {A : Type} (o : option A) : bool :=
  match o with Some _ => true | None => false end.

(** A number, or one of the constants [NaN], [Infinity], [-Infinity]; a
    number with a fraction or an exponent is a float, whose [repr] is not
    modelled. *)
Definition scan_number (s : string) : Result (PyVal * string) :=
  match match_integer s with
  | Some (neg, d, r) =>
      if has_frac r || has_exp r then Raise Unmodelled
      else Ok (VInt (Z.of_int (if neg then Neg d else Pos d)), r)
  | None =>
      if is_some (strip_prefix "NaN" s) || is_some (strip_prefix "Infinity" s)
         || is_some (strip_prefix "-Infinity" s)
      then Raise Unmodelled
      else Raise JSONDecodeError
  end.

(** [dict(pairs)]. *)
Definition dict_of (pairs : list (PyVal * PyVal)) : list (PyVal * PyVal) :=
  fold_left (fun d kv => dict_set d (fst kv) (snd kv)) pairs [].

(** [scan_once] with [JSONArray] and [JSONObject]; every call takes one unit
    of [fuel], and [loads] gives more than the text can use. [array_items]
    starts at an element, [object_pairs] after the opening quote of a
    key. *)
Fixpoint scan_once (fuel : nat) (s : string) : Result (PyVal * string) :=
  match fuel with
  | O => Raise Unmodelled
  | S fuel' =>
      match s with
      | EmptyString => Raise JSONDecodeError
      | String c r =>
          if Ascii.eqb c dquote then
            p <- scanstring r ;; Ok (VStr (fst p), snd p)
          else if Ascii.eqb c "{" then
            match skip_ws r with
            | String c' r' =>
                if Ascii.eqb c' dquote then
                  p <- object_pairs fuel' r' ;; Ok (VDict (dict_of (fst p)), snd p)
                else if Ascii.eqb c' "}" then Ok (VDict [], r')
                else Raise JSONDecodeError
            | EmptyString => Raise JSONDecodeError
            end
          else if Ascii.eqb c "[" then
            match skip_ws r with
            | String c' r' =>
                if Ascii.eqb c' "]" then Ok (VList [], r')
                else p <- array_items fuel' (String c' r') ;; Ok (VList (fst p), snd p)
            | EmptyString => Raise JSONDecodeError
            end
          else
            match strip_prefix "null" s, strip_prefix "true" s, strip_prefix "false" s with
            | Some r', _, _ => Ok (VNone, r')
            | None, Some r', _ => Ok (VBool true, r')
            | None, None, Some r' => Ok (VBool false, r')
            | None, None, None => scan_number s
            end
      end
  end
with array_items (fuel : nat) (s : string) : Result (list PyVal * string) :=
  match fuel with
  | O => Raise Unmodelled
  | S fuel' =>
      p <- scan_once fuel' s ;;
      match skip_ws (snd p) with
      | String c r =>
          if Ascii.eqb c "]" then Ok ([fst p], r)
          else if Ascii.eqb c "," then
            q <- array_items fuel' (skip_ws r) ;; Ok (fst p :: fst q, snd q)
          else Raise JSONDecodeError
      | EmptyString => Raise JSONDecodeError
      end
  end
with object_pairs (fuel : nat) (s : string) : Result (list (PyVal * PyVal) * string) :=
  match fuel with
  | O => Raise Unmodelled
  | S fuel' =>
      k <- scanstring s ;;
      match skip_ws (snd k) with
      | String c r =>
          if Ascii.eqb c ":" then
            p <- scan_once fuel' (skip_ws r) ;;
            match skip_ws (snd p) with
            | String c' r' =>
                if Ascii.eqb c' "}" then Ok ([(VStr (fst k), fst p)], r')
                else if Ascii.eqb c' "," then
                  match skip_ws r' with
                  | String c'' r'' =>
                      if Ascii.eqb c'' dquote then
                        q <- object_pairs fuel' r'' ;;
                        Ok ((VStr (fst k), fst p) :: fst q, snd q)
                      else Raise JSONDecodeError
                  | EmptyString => Raise JSONDecodeError
                  end
                else Raise JSONDecodeError
            | EmptyString => Raise JSONDecodeError
            end
          else Raise JSONDecodeError
      | EmptyString => Raise JSONDecodeError
      end
  end.

(** [json.loads(s)]: one value between optional white space. *)
Definition loads (s : string) : Result PyVal :=
  p <- scan_once (S (String.length s)) (skip_ws s) ;;
  match skip_ws (snd p) with
  | EmptyString => Ok (fst p)
  | String _ _ => Raise JSONDecodeError
  end.

End json.

(** ** The field classes *)

(** The concrete classes of the module.  [Field] and [NumberField] carry no
    [internal_type] and no [creation_string] and only serve as bases. *)
Inductive FieldKind : Type :=
| PkField | BooleanField | CharField | EmailField | JsonField
| IntegerField | DecimalField | DateField | ForeignKey | ManyToMany.

(** [cls.__name__]. *)
Definition class_name (c : FieldKind) : string :=
  match c with
  | PkField => "PkField"
  | BooleanField => "BooleanField"
  | CharField => "CharField"
  | EmailField => "EmailField"
  | JsonField => "JsonField"
  | IntegerField => "IntegerField"
  | DecimalField => "DecimalField"
  | DateField => "DateField"
  | ForeignKey => "ForeignKey"
  | ManyToMany => "ManyToMany"
  end.

Definition DATE_FIELDS : list string := ["DateField"].

Definition KWARGS_TYPES : list (string * list PyType) :=
  [ ("db_column", [TStr]);
    ("default", [TObject]);
    ("null", [TBool]);
    ("max_length", [TInt]);
    ("foreign_key", [TStr]);
    ("auto_now", [TBool]);
    ("reverse_field", [TStr]);
    ("choices", [TDict; TTuple]);
    ("unique", [TBool]);
    ("strftime", [TStr]);
    ("max_digits", [TInt]);
    ("decimal_places", [TInt]) ].

Fixpoint assoc {A : Type} (d : list (string * A)) (k : string) : option A :=
  match d with
  | [] => None
  | (k', v) :: d' => if String.eqb k' k then Some v else assoc d' k
  end.

Definition required_kwargs (c : FieldKind) : list string :=
  match c with
  | CharField | EmailField | JsonField => ["max_length"]
  | ForeignKey | ManyToMany => ["foreign_key"]
  | _ => []
  end.

Definition internal_type (c : FieldKind) : list PyType :=
  match c with
  | PkField => [TInt]
  | BooleanField => [TBool]
  | CharField | EmailField => [TStr]
  | JsonField => [TDict; TList; TStr]
  | IntegerField => [TInt]
  | DecimalField => [TDecimal; TFloat; TInt]
  | DateField => [TDatetime]
  | ForeignKey => [TInt]
  | ManyToMany => [TList; TInt]
  end.

Definition creation_string (c : FieldKind) : string :=
  match c with
  | PkField => "serial primary key"
  | BooleanField => "boolean"
  | CharField | EmailField | JsonField => "varchar({max_length})"
  | IntegerField => "integer"
  | DecimalField => "decimal({max_digits},{decimal_places})"
  | DateField => "timestamp"
  | ForeignKey => "integer references {foreign_key}"
  | ManyToMany =>
      String newline
        ("        {own_model} INTEGER REFERENCES {own_model} NOT NULL," ++
         String newline
           ("        {foreign_key} INTEGER REFERENCES {foreign_key} NOT NULL" ++
            String newline "    "))
  end.

(** A descriptor: its class and its instance dictionary [__dict__]. *)
Record Field : Type := mkField {
  cls : FieldKind;
  dict : list (string * PyVal)
}.

Definition hasattr (self : Field) (name : string) : bool :=
  match dict_get (dict self) name with Some _ => true | None => false end.

Definition getattr (self : Field) (name : string) : Result PyVal :=
  match dict_get (dict self) name with
  | Some v => Ok v
  | None => Raise (AttributeError name)
  end.

Definition setattr (self : Field) (name : string) (v : PyVal) : Field :=
  mkField (cls self) (dict_put (dict self) name v).

(** [kwargs.get(k, default)]. *)
Definition kwargs_get (kwargs : list (string * PyVal)) (k : string) (default : PyVal)
  : PyVal :=
  match dict_get kwargs k with Some v => v | None => default end.

(** *** [Field] *)

Definition set_field_name (self : Field) (db_column : string) : Result Field :=
  if str_contains "__" db_column then Raise (FieldError MsgColumnContains)
  else if startswith db_column "_" then Raise (FieldError MsgColumnStart)
  else if endswith db_column "_" then Raise (FieldError MsgColumnEnd)
  else Ok (setattr self "db_column" (VStr db_column)).

Definition check_required (c : FieldKind) (kwargs : list (string * PyVal)) (kw : string)
  : Result unit :=
  if negb (truthy (kwargs_get kwargs kw VNone))
  then Raise (FieldError (MsgRequires (class_name c) kw))
  else Ok tt.

Definition check_type (kv : string * PyVal) : Result unit :=
  let (k, v) := kv in
  let null_choices := is_None v && String.eqb k "choices" in
  match assoc KWARGS_TYPES k with
  | None => Raise (KeyError k)
  | Some ts =>
      if negb (isinstance v ts) && negb null_choices
      then Raise (FieldError (MsgWrongValue k))
      else Ok tt
  end.

Definition validate_kwargs (self : Field) (kwargs : list (string * PyVal)) : Result Field :=
  for_each (check_required (cls self) kwargs) (required_kwargs (cls self)) ;;;
  for_each check_type kwargs ;;;
  if truthy (kwargs_get kwargs "db_column" (VStr "")) then
    match kwargs_get kwargs "db_column" (VStr "") with
    | VStr db_column => set_field_name self db_column
    | _ => Raise TypeError
    end
  else Ok self.

(** One [k, v] of the comprehension over the pairs of [choices]. *)
Definition unpack_pair (item : PyVal) : Result (PyVal * PyVal) :=
  match item with
  | VTuple [k; v] | VList [k; v] => Ok (k, v)
  | VStr (String a (String b EmptyString)) => Ok (VStr (String a ""), VStr (String b ""))
  | VDict [(k, _); (v, _)] => Ok (k, v)
  | VTuple _ | VList _ | VStr _ | VDict _ => Raise ValueError
  | _ => Raise TypeError
  end.

(** [{k: v for k, v in pairs}]. *)
Fixpoint dict_of_pairs (acc : list (PyVal * PyVal)) (pairs : list PyVal)
  : Result (list (PyVal * PyVal)) :=
  match pairs with
  | [] => Ok acc
  | item :: pairs' =>
      kv <- unpack_pair item ;;
      if hashable (fst kv) then dict_of_pairs (dict_set acc (fst kv) (snd kv)) pairs'
      else Raise TypeError
  end.

(** The body of the loop of [__init__] for one keyword. *)
Definition init_attr (self : Field) (kv : string * PyVal) : Result Field :=
  let (kw, v) := kv in
  let self := setattr self kw v in
  if String.eqb kw "choices" then
    match v with
    | VDict _ => Ok (setattr self "choices" v)
    | VNone => Ok self
    | VTuple pairs | VList pairs =>
        d <- dict_of_pairs [] pairs ;; Ok (setattr self "choices" (VDict d))
    | VStr EmptyString => Ok (setattr self "choices" (VDict []))
    | VStr (String _ _) => Raise ValueError
    | _ => Raise TypeError
    end
  else Ok self.

Fixpoint init_attrs (self : Field) (kwargs : list (string * PyVal)) : Result Field :=
  match kwargs with
  | [] => Ok self
  | kv :: kwargs' => self' <- init_attr self kv ;; init_attrs self' kwargs'
  end.

(** [Field.__init__] on a fresh instance of class [c]. *)
Definition Field_init (c : FieldKind) (kwargs : list (string * PyVal)) : Result Field :=
  self <- validate_kwargs (mkField c []) kwargs ;;
  init_attrs (setattr self "field_type" (VStr (class_name c))) kwargs.

(** The parameters of each class's [__init__] with their defaults, in the
    order in which they are handed to [Field.__init__]. *)
Definition signature (c : FieldKind) : list (string * PyVal) :=
  match c with
  | PkField =>
      [("db_column", VStr "id"); ("unique", VBool false); ("null", VBool false)]
  | BooleanField =>
      [("db_column", VStr ""); ("default", VNone); ("max_length", VInt 0);
       ("null", VBool false); ("unique", VBool false)]
  | CharField | EmailField | JsonField =>
      [("db_column", VStr ""); ("default", VNone); ("max_length", VInt 0);
       ("null", VBool false); ("choices", VNone); ("unique", VBool false)]
  | IntegerField =>
      [("db_column", VStr ""); ("default", VNone); ("null", VBool false);
       ("choices", VNone); ("unique", VBool false)]
  | DecimalField =>
      [("db_column", VStr ""); ("default", VNone); ("null", VBool false);
       ("choices", VNone); ("unique", VBool false); ("max_digits", VInt 10);
       ("decimal_places", VInt 2)]
  | DateField =>
      [("db_column", VStr ""); ("default", VNone); ("auto_now", VBool false);
       ("null", VBool false); ("choices", VNone); ("unique", VBool false);
       ("strftime", VStr "date %Y-%m-%d")]
  | ForeignKey =>
      [("db_column", VStr ""); ("default", VNone); ("foreign_key", VStr "");
       ("null", VBool false); ("unique", VBool false)]
  | ManyToMany =>
      [("db_column", VStr ""); ("foreign_key", VNone); ("default", VNone);
       ("unique", VBool false)]
  end.

(** The call accepts the keywords of the signature only. *)
Definition accepted (c : FieldKind) (given : list (string * PyVal)) : bool :=
  forallb (fun kv => match dict_get (signature c) (fst kv) with
                     | Some _ => true
                     | None => false
                     end) given.

(** The keyword arguments [__init__] passes on: the given value or the
    default, parameter by parameter. *)
Definition bind_arguments (c : FieldKind) (given : list (string * PyVal))
  : list (string * PyVal) :=
  map (fun p => (fst p, kwargs_get given (fst p) (snd p))) (signature c).

(** The construction of a descriptor: the class [c] called with the
    keywords [given]. *)
Definition new (c : FieldKind) (given : list (string * PyVal)) : Result Field :=
  if accepted c given then Field_init c (bind_arguments c given)
  else Raise TypeError.

(** [self.choices.keys()]. *)
Definition keys (choices : PyVal) : Result (list PyVal) :=
  match choices with
  | VDict d => Ok (map fst d)
  | _ => Raise (AttributeError "keys")
  end.

Definition Field_validate (self : Field) (value : PyVal) : Result unit :=
  (if is_None value then
     null <- getattr self "null" ;;
     if negb (truthy null) then Raise (FieldError MsgNullInNotNull) else Ok tt
   else Ok tt) ;;;
  (match dict_get (dict self) "choices" with
   | Some choices =>
       if negb (is_None choices) then
         ks <- keys choices ;;
         found <- py_in_keys value ks ;;
         if negb found then Raise (FieldError (MsgNotInChoices value)) else Ok tt
       else Ok tt
   | None => Ok tt
   end) ;;;
  if negb (isinstance value (internal_type (cls self)))
  then Raise (FieldError (MsgWrongDatatype value (class_name (cls self))))
  else Ok tt.

(** *** [EmailField] *)

(** [\w] on code points below 256. *)
Definition word_char (c : ascii) : bool :=
  let n := N_of_ascii c in
  (((48 <=? n) && (n <=? 57)) || ((65 <=? n) && (n <=? 90)) || (n =? 95)
   || ((97 <=? n) && (n <=? 122)) || (n =? 170) || ((178 <=? n) && (n <=? 179))
   || (n =? 181) || ((185 <=? n) && (n <=? 186)) || ((188 <=? n) && (n <=? 190))
   || ((192 <=? n) && (n <=? 214)) || ((216 <=? n) && (n <=? 246))
   || (248 <=? n))%N.

Definition local_char (c : ascii) : bool :=
  word_char c || Ascii.eqb c "." || Ascii.eqb c "+" || Ascii.eqb c "-".

Definition host_char (c : ascii) : bool := word_char c || Ascii.eqb c "-".

Definition domain_char (c : ascii) : bool :=
  word_char c || Ascii.eqb c "-" || Ascii.eqb c ".".

(** [s] cut at the first occurrence of [c]. *)
Fixpoint split_at (c : ascii) (s : string) : option (string * string) :=
  match s with
  | EmptyString => None
  | String a s' =>
      if Ascii.eqb a c then Some ("", s')
      else match split_at c s' with
           | Some (l, r) => Some (String a l, r)
           | None => None
           end
  end.

(** [s] without one final newline, which [$] lets pass. *)
Fixpoint chomp (s : string) : string :=
  match s with
  | EmptyString => ""
  | String a s' =>
      match s' with
      | EmptyString => if Ascii.eqb a newline then "" else s
      | String _ _ => String a (chomp s')
      end
  end.

Definition nonempty (s : string) : bool := negb (String.eqb s "").

(** [re.match(email_regex, value)] succeeds.  No class of the expression
    holds the at sign, and the class before the dot does not hold the dot,
    so the value is cut at its first at sign and at the first dot after
    it. *)
Definition email_match (value : string) : bool :=
  match split_at "@" value with
  | None => false
  | Some (local, rest) =>
      match local with
      | EmptyString => false
      | String a local' =>
          word_char a && nonempty local' && all_chars local_char local' &&
          match split_at "." rest with
          | None => false
          | Some (host, domain) =>
              nonempty host && all_chars host_char host &&
              nonempty (chomp domain) && all_chars domain_char (chomp domain)
          end
      end
  end.

Definition EmailField_validate (self : Field) (value : PyVal) : Result unit :=
  Field_validate self value ;;;
  match value with
  | VStr s => if negb (email_match s) then Raise (FieldError (MsgNotEmail value)) else Ok tt
  | _ => Raise TypeError
  end.

(** *** [ManyToMany] *)

Definition ManyToMany_validate (self : Field) (value : PyVal) : Result unit :=
  match value with
  | VList l => for_each (Field_validate self) l
  | _ => Field_validate self value
  end.

(** [self.validate(value)] by the class of [self]. *)
Definition validate (self : Field) (value : PyVal) : Result unit :=
  match cls self with
  | EmailField => EmailField_validate self value
  | ManyToMany => ManyToMany_validate self value
  | _ => Field_validate self value
  end.

(** *** [sanitize_data] *)

Definition Field_sanitize_data (self : Field) (value : PyVal) : Result PyVal :=
  if is_None value then Ok (VStr "NULL")
  else validate self value ;;; Ok value.

Definition BooleanField_sanitize_data (self : Field) (value : PyVal) : Result PyVal :=
  match value with
  | VNone => Ok (VStr "NULL")
  | VBool true => Ok (VStr "true")
  | VBool false => Ok (VStr "false")
  | _ => Ok VNone
  end.

(** The test [len(value) > self.max_length] and the error it raises. *)
Definition check_max_length (self : Field) (value : PyVal) : Result unit :=
  n <- py_len value ;;
  max_length <- getattr self "max_length" ;;
  too_long <- int_gt n max_length ;;
  if too_long then Raise (FieldError (MsgTooLong max_length)) else Ok tt.

Definition CharField_sanitize_data (self : Field) (value : PyVal) : Result PyVal :=
  value <- Field_sanitize_data self value ;;
  check_max_length self value ;;;
  text <- quoted value ;;
  Ok (VStr text).

(** [value != 'NULL']. *)
Definition is_not_NULL (value : PyVal) : bool :=
  match value with
  | VStr s => negb (String.eqb s "NULL")
  | _ => true
  end.

(** The block of [JsonField.sanitize_data] between the validation and the
    length test: a string is parsed, a failure to parse is reported as a
    [FieldError], and the value is encoded again. *)
Definition json_text (value : PyVal) : Result PyVal :=
  if is_not_NULL value then
    value <- match value with
             | VStr s =>
                 match json.loads s with
                 | Raise JSONDecodeError => Raise (FieldError MsgNotJson)
                 | r => r
                 end
             | _ => Ok value
             end ;;
    text <- json.dumps value ;;
    Ok (VStr text)
  else Ok value.

Definition JsonField_sanitize_data (self : Field) (value : PyVal) : Result PyVal :=
  validate self value ;;;
  value <- json_text value ;;
  check_max_length self value ;;;
  text <- quoted value ;;
  Ok (VStr text).

Definition NumberField_sanitize_data (self : Field) (value : PyVal) : Result PyVal :=
  value <- Field_sanitize_data self value ;;
  text <- py_str value ;;
  Ok (VStr text).

Definition DateField_sanitize_data (self : Field) (value : PyVal) : Result PyVal :=
  value <- Field_sanitize_data self value ;;
  text <- quoted value ;;
  Ok (VStr text).

Definition ForeignKey_sanitize_data (self : Field) (value : PyVal) : Result PyVal :=
  value <- Field_sanitize_data self value ;;
  text <- py_str value ;;
  Ok (VStr text).

(** [self.sanitize_data(value)] by the class of [self]. *)
Definition sanitize_data (self : Field) (value : PyVal) : Result PyVal :=
  match cls self with
  | PkField | ManyToMany => Field_sanitize_data self value
  | BooleanField => BooleanField_sanitize_data self value
  | CharField | EmailField => CharField_sanitize_data self value
  | JsonField => JsonField_sanitize_data self value
  | IntegerField | DecimalField => NumberField_sanitize_data self value
  | DateField => DateField_sanitize_data self value
  | ForeignKey => ForeignKey_sanitize_data self value
  end.

(** *** [recompose] *)

Definition JsonField_recompose (value : PyVal) : Result PyVal :=
  match value with
  | VStr s => json.loads s
  | _ => Raise TypeError
  end.

Definition recompose (c : FieldKind) (value : PyVal) : Result PyVal :=
  match c with
  | JsonField => JsonField_recompose value
  | _ => Ok value
  end.

(** *** [creation_query] *)

(** The clause the [elif] of [creation_query] adds. *)
Definition auto_now_clause (self : Field) (date_field : bool) : Result string :=
  if date_field then
    auto_now <- getattr self "auto_now" ;;
    Ok (if truthy auto_now then " DEFAULT now()" else "")
  else Ok "".

(** The clause for a default that is not [None]. *)
Definition default_clause (self : Field) (default : PyVal) : Result string :=
  default_value <- (if callable default then call default else Ok default) ;;
  literal <- (if isinstance default_value [TStr] then quoted default_value
              else if isinstance default_value [TBool] then py_str default_value
              else sanitized <- sanitize_data self default_value ;; quoted sanitized) ;;
  Ok (" DEFAULT " ++ literal).

Definition Field_creation_query (self : Field) : Result string :=
  field_type <- getattr self "field_type" ;;
  let date_field := existsb (key_eq field_type) (map VStr DATE_FIELDS) in
  null <- getattr self "null" ;;
  let nullness := if truthy null then " NULL" else " NOT NULL" in
  clause <- match dict_get (dict self) "default" with
            | Some default =>
                if negb (is_None default) then default_clause self default
                else auto_now_clause self date_field
            | None => auto_now_clause self date_field
            end ;;
  unique <- getattr self "unique" ;;
  str_format ("{db_column} " ++ creation_string (cls self) ++ nullness ++ clause
              ++ (if truthy unique then " UNIQUE" else ""))
             (dict self).

Definition ManyToMany_creation_query (self : Field) : Result string :=
  str_format (creation_string ManyToMany) (dict self).

Definition creation_query (self : Field) : Result string :=
  match cls self with
  | ManyToMany => ManyToMany_creation_query self
  | _ => Field_creation_query self
  end.

(** ** The text of the messages *)

Definition in_dquotes (s : string) : string := String dquote (s ++ String dquote "").

(** The argument [FieldError] is raised with. *)
Definition message (m : FieldErrorMsg) : Result string :=
  match m with
  | MsgRequires class_name kw => Ok (in_dquotes class_name ++ " field requires " ++ kw)
  | MsgWrongValue k => Ok ("Wrong value for " ++ k)
  | MsgColumnContains => Ok ("db_column can not contain " ++ in_dquotes "__")
  | MsgColumnStart => Ok ("db_column can not start with " ++ in_dquotes "_")
  | MsgColumnEnd => Ok ("db_column can not end with " ++ in_dquotes "_")
  | MsgNullInNotNull => Ok "null value in NOT NULL field"
  | MsgNotInChoices value =>
      text <- py_str value ;; Ok (in_dquotes text ++ " not in model choices")
  | MsgWrongDatatype value class_name =>
      text <- py_str value ;; Ok (text ++ " is a wrong datatype for field " ++ class_name)
  | MsgTooLong max_length =>
      text <- py_str max_length ;;
      Ok ("The string entered is bigger than the " ++ in_dquotes "max_length"
          ++ " defined (" ++ text ++ ")")
  | MsgNotJson => Ok "The data entered can not be converted to json"
  | MsgNotEmail value =>
      text <- py_str value ;; Ok (in_dquotes text ++ " not a valid email address")
  end.

(** ** Descriptors of the scenarios *)

(** The character field [db_column="name", max_length=5, null=False]. *)
Definition name_field : Result Field :=
  new CharField [("db_column", VStr "name"); ("max_length", VInt 5); ("null", VBool false)].

(** ** Vocabulary of the statements *)

Definition is_brace (c : ascii) : bool := Ascii.eqb c "{" || Ascii.eqb c "}".

(** A text without braces, which [str.format] copies as it is. *)
Definition plain (s : string) : bool := negb (any_char is_brace s).

(** The words [creation_query] writes for [null] and [unique]. *)
Definition null_text (null : PyVal) : string :=
  if truthy null then " NULL" else " NOT NULL".

Definition unique_text (unique : PyVal) : string :=
  if truthy unique then " UNIQUE" else "".


(** The keys of a dictionary are pairwise different. *)
Fixpoint distinct_keys (d : list (PyVal * PyVal)) : bool :=
  match d with
  | [] => true
  | (k, _) :: d' => forallb (fun kv => negb (key_eq k (fst kv))) d' && distinct_keys d'
  end.

Definition is_str (v : PyVal) : bool :=
  match v with VStr _ => true | _ => false end.

(** The values JSON has a text for and gives back as they are: [None],
    booleans, integers, strings, lists of such values and dictionaries of
    such values under string keys. *)
Fixpoint json_native (v : PyVal) : bool :=
  match v with
  | VNone | VBool _ | VInt _ | VStr _ => true
  | VList l =>
      (fix all (l : list PyVal) : bool :=
         match l with [] => true | x :: l' => json_native x && all l' end) l
  | VDict d =>
      distinct_keys d &&
      (fix all (d : list (PyVal * PyVal)) : bool :=
         match d with
         | [] => true
         | (k, x) :: d' => is_str k && json_native x && all d'
         end) d
  | _ => false
  end.

(** The text after a value inside a JSON text: nothing, or a comma or a
    closing bracket. *)
Definition delimited (s : string) : bool :=
  match s with
  | EmptyString => true
  | String c _ => Ascii.eqb c "," || Ascii.eqb c "]" || Ascii.eqb c "}"
  end.

(** The first character of a number. *)
Definition number_start (c : ascii) : bool := is_digit c || Ascii.eqb c "-".



(** The first character of the text of a value: no white space and no
    closing bracket. *)
Definition value_start (c : ascii) : bool :=
  negb (json.is_ws c) && negb (Ascii.eqb c "]").

(** What it means that [loads] reads [v] back from the text of [dumps]: the
    text exists, starts a value, and the scanner, given more fuel than the
    text is long, returns [v] and the text that follows. *)
Definition reads_back (v : PyVal) : Prop :=
  exists t,
    json.dumps v = Ok t
    /\ (exists c t', t = String c t' /\ value_start c = true)
    /\ forall fuel rest,
         (String.length t < fuel)%nat -> delimited rest = true ->
         json.scan_once fuel (t ++ rest) = Ok (v, rest).


(** The type of a column as [creation_query] writes it, from the keywords
    of the construction. *)
Definition type_text (c : FieldKind) (given : list (string * PyVal)) : Result string :=
  match c with
  | PkField => Ok "serial primary key"
  | BooleanField => Ok "boolean"
  | CharField | EmailField | JsonField =>
      n <- py_str (kwargs_get given "max_length" (VInt 0)) ;;
      Ok ("varchar(" ++ n ++ ")")
  | IntegerField => Ok "integer"
  | DecimalField =>
      m <- py_str (kwargs_get given "max_digits" (VInt 10)) ;;
      p <- py_str (kwargs_get given "decimal_places" (VInt 2)) ;;
      Ok ("decimal(" ++ m ++ "," ++ p ++ ")")
  | DateField => Ok "timestamp"
  | ForeignKey =>
      f <- py_str (kwargs_get given "foreign_key" (VStr "")) ;;
      Ok ("integer references " ++ f)
  | ManyToMany => Raise (KeyError "own_model")
  end.


(** A name [str.format] looks up among the keywords: no braces, no
    attribute, index, conversion or specification, not a number. *)
Definition simple_name (name : string) : bool :=
  negb (any_char is_brace name)
  && negb (any_char field_syntax_char name)
  && negb (all_chars is_digit name).


(** The value a default stands for: a callable default is called. *)
Definition default_value (default : PyVal) : Result PyVal :=
  if callable default then call default else Ok default.


(** The strings the expression of [EmailField.validate] describes, read off
    the expression: a word character, one or more characters of the first
    class, an at sign, one or more characters of the second class, a dot,
    one or more characters of the third class, and the end of the string,
    before which one newline may stand. *)
Definition email_shape (value : string) : Prop :=
  exists a local host domain tail,
    value = String a local ++ "@" ++ host ++ "." ++ domain ++ tail
    /\ word_char a = true
    /\ local <> "" /\ all_chars local_char local = true
    /\ host <> "" /\ all_chars host_char host = true
    /\ domain <> "" /\ all_chars domain_char domain = true
    /\ (tail = "" \/ tail = String newline "").


(** A pair of choices as it is written in a tuple of choices. *)
Definition pair_tuple (kv : PyVal * PyVal) : PyVal := VTuple [fst kv; snd kv].

(** ** Properties *)

(** *** Validation of [None] *)

Section ValidateNone.

Variable self : Field.

Lemma isinstance_None_internal_type :
  isinstance VNone (internal_type (cls self)) = false.
Proof. destruct (cls self); reflexivity. Qed.

Lemma Field_validate_None_fails : is_ok (Field_validate self VNone) = false.
Proof.
  unfold Field_validate.
  rewrite isinstance_None_internal_type. simpl.
  destruct (getattr self "null") as [null|e]; simpl; [|reflexivity].
  destruct (truthy null); simpl; [|reflexivity].
  destruct (dict_get (dict self) "choices") as [choices|]; simpl; [|reflexivity].
  destruct (is_None choices); simpl; [reflexivity|].
  destruct (keys choices) as [ks|e]; simpl; [|reflexivity].
  match goal with |- context [existsb ?f ks] => destruct (existsb f ks) end;
    reflexivity.
Qed.

Lemma validate_None_fails : is_ok (validate self VNone) = false.
Proof.
  pose proof Field_validate_None_fails as H.
  unfold validate, EmailField_validate, ManyToMany_validate.
  destruct (cls self); try exact H.
  destruct (Field_validate self VNone); [discriminate H|reflexivity].
Qed.

(** The half of the rule the code keeps: a descriptor that is not
    nullable refuses [None] with the message of the NOT NULL test. *)
Lemma validate_None_not_nullable (null : PyVal) :
  dict_get (dict self) "null" = Some null ->
  truthy null = false ->
  validate self VNone = Raise (FieldError MsgNullInNotNull).
Proof.
  intros Hget Hnull.
  assert (Field_validate self VNone = Raise (FieldError MsgNullInNotNull)) as H.
  { unfold Field_validate, getattr. rewrite Hget. simpl. rewrite Hnull. reflexivity. }
  unfold validate, EmailField_validate, ManyToMany_validate.
  destruct (cls self); try exact H.
  rewrite H. reflexivity.
Qed.

(** A nullable descriptor without choices refuses [None] at the type
    test. *)
Lemma validate_None_nullable (null : PyVal) :
  dict_get (dict self) "null" = Some null ->
  truthy null = true ->
  dict_get (dict self) "choices" = None ->
  validate self VNone
  = Raise (FieldError (MsgWrongDatatype VNone (class_name (cls self)))).
Proof.
  intros Hget Hnull Hch.
  assert (Field_validate self VNone
          = Raise (FieldError (MsgWrongDatatype VNone (class_name (cls self))))) as H.
  { unfold Field_validate, getattr. rewrite Hget, Hch. simpl. rewrite Hnull. simpl.
    rewrite isinstance_None_internal_type. reflexivity. }
  unfold validate, EmailField_validate, ManyToMany_validate.
  destruct (cls self); try exact H.
  rewrite H. reflexivity.
Qed.

End ValidateNone.

(** C1.  [validate(None)] on a nullable descriptor: the integer descriptor
    declared with [null=True] refuses [None] as a value of the wrong type,
    and no descriptor of any class accepts [None], nullable or not. *)
Theorem validate_None_nullable_refused :
  (d <- new IntegerField [("null", VBool true)] ;; validate d VNone)
  = Raise (FieldError (MsgWrongDatatype VNone "IntegerField"))
  /\ forall self : Field, is_ok (validate self VNone) = false.
Proof.
  split; [reflexivity | exact validate_None_fails].
Qed.

(** *** The character scenario *)

(** C2, as stated, fails on its third part: [sanitize(None)] on the
    descriptor [db_column="name", max_length=5, null=False] returns a
    literal and raises no nullability error. *)
Lemma name_field_sanitize_None_returns :
  (d <- name_field ;; sanitize_data d VNone) = Ok (VStr "'NULL'")
  /\ (d <- name_field ;; sanitize_data d VNone) <> Raise (FieldError MsgNullInNotNull).
Proof.
  split; [reflexivity | discriminate].
Qed.

(** C2, amended.  On the descriptor [db_column="name", max_length=5,
    null=False], [sanitize("hello")] is the quoted literal,
    [sanitize("helloo")] fails on the length, and [sanitize(None)] raises no
    nullability error: the base step answers the NULL token for [None]
    before any validation. *)
Theorem name_field_scenario :
  exists d : Field,
    name_field = Ok d
    /\ sanitize_data d (VStr "hello") = Ok (VStr "'hello'")
    /\ sanitize_data d (VStr "helloo") = Raise (FieldError (MsgTooLong (VInt 5)))
    /\ Field_sanitize_data d VNone = Ok (VStr "NULL")
    /\ sanitize_data d VNone <> Raise (FieldError MsgNullInNotNull).
Proof.
  eexists. split; [reflexivity|].
  repeat split; try reflexivity. discriminate.
Qed.

(** *** Boolean values that are not [True], [False] or [None] *)

(** C10.  On a boolean descriptor, [sanitize] of a value other than [True],
    [False] and [None] raises nothing and returns [None]. *)
Theorem BooleanField_sanitize_other (self : Field) (value : PyVal) :
  cls self = BooleanField ->
  value <> VNone -> value <> VBool true -> value <> VBool false ->
  sanitize_data self value = Ok VNone.
Proof.
  intros Hcls Hn Ht Hf. unfold sanitize_data. rewrite Hcls.
  destruct value as [ | [|] | | | | | | | | | ]; try reflexivity; congruence.
Qed.

Lemma BooleanField_sanitize_other_witness :
  sanitize_data (mkField BooleanField []) (VInt 1) = Ok VNone
  /\ sanitize_data (mkField BooleanField []) (VStr "x") = Ok VNone.
Proof.
  split; apply BooleanField_sanitize_other; (reflexivity || discriminate).
Defined.

(** *** Construction *)

Lemma for_each_ok {A : Type} (body : A -> Result unit) (xs : list A) :
  for_each body xs = Ok tt <-> Forall (fun x => body x = Ok tt) xs.
Proof.
  induction xs as [|x xs IH]; simpl.
  - split; auto.
  - split.
    + intros H. destruct (body x) as [[]|e] eqn:Hx; simpl in H; [|discriminate].
      constructor; [exact Hx | now apply IH].
    + intros H. inversion H as [|? ? Hx Hxs]; subst.
      rewrite Hx. simpl. now apply IH.
Qed.

Lemma for_each_raise {A : Type} (body : A -> Result unit) (x : A) (xs : list A) (e : PyExc) :
  body x = Raise e -> for_each body (x :: xs) = Raise e.
Proof. intros H. simpl. rewrite H. reflexivity. Qed.

Lemma ok_unit (r : Result unit) : is_ok r = true -> r = Ok tt.
Proof. destruct r as [[]|e]; [reflexivity | discriminate]. Qed.

Lemma dict_get_dict_put (d : list (string * PyVal)) (k k' : string) (v : PyVal) :
  dict_get (dict_put d k v) k' = if String.eqb k k' then Some v else dict_get d k'.
Proof.
  induction d as [|[k0 v0] d IH]; simpl.
  - reflexivity.
  - destruct (String.eqb k0 k) eqn:E; simpl.
    + apply String.eqb_eq in E. subst k0.
      destruct (String.eqb k k'); reflexivity.
    + rewrite IH. destruct (String.eqb k k') eqn:E'; [|reflexivity].
      apply String.eqb_eq in E'. subst k'. rewrite E. reflexivity.
Qed.

Lemma dict_get_setattr (self : Field) (k k' : string) (v : PyVal) :
  dict_get (dict (setattr self k v)) k'
  = if String.eqb k k' then Some v else dict_get (dict self) k'.
Proof. apply dict_get_dict_put. Qed.

Lemma init_attr_get (self self' : Field) (kw : string) (v : PyVal) :
  init_attr self (kw, v) = Ok self' ->
  cls self' = cls self /\
  forall k, k <> "choices" ->
    dict_get (dict self') k = if String.eqb kw k then Some v else dict_get (dict self) k.
Proof.
  unfold init_attr. intros H.
  destruct (String.eqb kw "choices") eqn:E.
  - apply String.eqb_eq in E. subst kw.
    assert (cls self' = cls self /\
            forall k, k <> "choices" -> dict_get (dict self') k = dict_get (dict self) k)
      as [Hc Hg].
    { destruct v as [ | | | | | s | | l | l | d | ];
        try discriminate H;
        try (injection H as <-; split; [reflexivity|]; intros k Hk;
             rewrite ?dict_get_setattr;
             destruct (String.eqb "choices" k) eqn:E;
             [apply String.eqb_eq in E; congruence | reflexivity]).
      - destruct s; [|discriminate H].
        injection H as <-; split; [reflexivity|]; intros k Hk.
        rewrite ?dict_get_setattr.
        destruct (String.eqb "choices" k) eqn:E;
          [apply String.eqb_eq in E; congruence | reflexivity].
      - destruct (dict_of_pairs [] l) as [d|e]; simpl in H; [|discriminate H].
        injection H as <-; split; [reflexivity|]; intros k Hk.
        rewrite ?dict_get_setattr.
        destruct (String.eqb "choices" k) eqn:E;
          [apply String.eqb_eq in E; congruence | reflexivity].
      - destruct (dict_of_pairs [] l) as [d|e]; simpl in H; [|discriminate H].
        injection H as <-; split; [reflexivity|]; intros k Hk.
        rewrite ?dict_get_setattr.
        destruct (String.eqb "choices" k) eqn:E;
          [apply String.eqb_eq in E; congruence | reflexivity]. }
    split; [exact Hc|]. intros k Hk. rewrite (Hg k Hk).
    destruct (String.eqb "choices" k) eqn:E; [|reflexivity].
    apply String.eqb_eq in E. congruence.
  - injection H as <-. split; [reflexivity|]. intros k _. apply dict_get_setattr.
Qed.

Lemma dict_get_not_in (kwargs : list (string * PyVal)) (k : string) :
  ~ In k (map fst kwargs) -> dict_get kwargs k = None.
Proof.
  induction kwargs as [|[k0 v0] kwargs IH]; simpl; intros H; [reflexivity|].
  destruct (String.eqb k0 k) eqn:E.
  - apply String.eqb_eq in E. tauto.
  - apply IH. tauto.
Qed.

Lemma init_attrs_get (kwargs : list (string * PyVal)) :
  NoDup (map fst kwargs) ->
  forall self self', init_attrs self kwargs = Ok self' ->
  cls self' = cls self /\
  forall k, k <> "choices" ->
    dict_get (dict self') k
    = match dict_get kwargs k with Some v => Some v | None => dict_get (dict self) k end.
Proof.
  induction kwargs as [|[kw v] kwargs IH]; intros Hnd self self' H.
  - injection H as <-. split; [reflexivity|]. reflexivity.
  - inversion Hnd as [|? ? Hnotin Hnd']; subst.
    change (init_attrs self ((kw, v) :: kwargs))
      with (self1 <- init_attr self (kw, v) ;; init_attrs self1 kwargs) in H.
    destruct (init_attr self (kw, v)) as [self1|e] eqn:H1; simpl in H; [|discriminate H].
    destruct (init_attr_get _ _ _ _ H1) as [Hc1 Hg1].
    destruct (IH Hnd' _ _ H) as [Hc Hg].
    split; [congruence|]. intros k Hk.
    rewrite (Hg k Hk), (Hg1 k Hk). simpl.
    destruct (String.eqb kw k) eqn:E.
    + apply String.eqb_eq in E. subst k.
      rewrite (dict_get_not_in _ _ Hnotin). reflexivity.
    + reflexivity.
Qed.

Lemma dict_get_bind_arguments (sig given : list (string * PyVal)) (k : string) :
  dict_get (map (fun p => (fst p, kwargs_get given (fst p) (snd p))) sig) k
  = match dict_get sig k with
    | Some default => Some (kwargs_get given k default)
    | None => None
    end.
Proof.
  induction sig as [|[k0 v0] sig IH]; simpl; [reflexivity|].
  destruct (String.eqb k0 k) eqn:E.
  - apply String.eqb_eq in E. subst k0. reflexivity.
  - exact IH.
Qed.

Lemma signature_NoDup (c : FieldKind) (given : list (string * PyVal)) :
  NoDup (map fst (bind_arguments c given)).
Proof.
  unfold bind_arguments. rewrite map_map. simpl.
  destruct c; simpl;
    repeat (constructor; [simpl; intuition congruence|]); constructor.
Qed.

Lemma validate_kwargs_inv (self self' : Field) (kwargs : list (string * PyVal)) :
  validate_kwargs self kwargs = Ok self' ->
  Forall (fun kw => truthy (kwargs_get kwargs kw VNone) = true) (required_kwargs (cls self))
  /\ Forall (fun kv => check_type kv = Ok tt) kwargs
  /\ ((truthy (kwargs_get kwargs "db_column" (VStr "")) = false /\ self' = self)
      \/ exists s,
           kwargs_get kwargs "db_column" (VStr "") = VStr s
           /\ str_contains "__" s = false
           /\ startswith s "_" = false
           /\ endswith s "_" = false
           /\ self' = setattr self "db_column" (VStr s)).
Proof.
  unfold validate_kwargs. intros H.
  destruct (for_each (check_required (cls self) kwargs) (required_kwargs (cls self)))
    as [[]|e] eqn:Hreq; simpl in H; [|discriminate H].
  destruct (for_each check_type kwargs) as [[]|e] eqn:Hty; simpl in H; [|discriminate H].
  apply for_each_ok in Hreq. apply for_each_ok in Hty.
  split; [|split; [exact Hty|]].
  - eapply Forall_impl; [|exact Hreq]. intros kw Hkw. unfold check_required in Hkw.
    destruct (truthy (kwargs_get kwargs kw VNone)); [reflexivity | discriminate Hkw].
  - destruct (truthy (kwargs_get kwargs "db_column" (VStr ""))) eqn:Htr.
    + right. destruct (kwargs_get kwargs "db_column" (VStr "")) as [ | | | | | s | | | | | ];
        try discriminate H.
      exists s. unfold set_field_name in H.
      destruct (str_contains "__" s); [discriminate H|].
      destruct (startswith s "_"); [discriminate H|].
      destruct (endswith s "_"); [discriminate H|].
      injection H as <-. repeat split.
    + left. injection H as <-. split; reflexivity.
Qed.

Lemma kwargs_get_bind_arguments (c : FieldKind) (given : list (string * PyVal))
    (k : string) (default other : PyVal) :
  dict_get (signature c) k = Some default ->
  kwargs_get (bind_arguments c given) k other = kwargs_get given k default.
Proof.
  intros H. unfold kwargs_get at 1, bind_arguments.
  rewrite dict_get_bind_arguments, H. reflexivity.
Qed.

(** What a successful construction says about the keywords and about the
    attributes of the descriptor. *)
Lemma new_inv (c : FieldKind) (given : list (string * PyVal)) (d : Field) :
  new c given = Ok d ->
  accepted c given = true
  /\ Forall (fun kw => truthy (kwargs_get (bind_arguments c given) kw VNone) = true)
            (required_kwargs c)
  /\ Forall (fun kv => check_type kv = Ok tt) (bind_arguments c given)
  /\ (exists s, kwargs_get (bind_arguments c given) "db_column" (VStr "") = VStr s
                /\ str_contains "__" s = false
                /\ startswith s "_" = false
                /\ endswith s "_" = false)
  /\ cls d = c
  /\ dict_get (dict d) "field_type" = Some (VStr (class_name c))
  /\ forall k default,
       dict_get (signature c) k = Some default -> k <> "choices" ->
       dict_get (dict d) k = Some (kwargs_get given k default).
Proof.
  unfold new. destruct (accepted c given); [|discriminate]. unfold Field_init.
  intros H.
  destruct (validate_kwargs (mkField c []) (bind_arguments c given)) as [self|e] eqn:Hv;
    simpl in H; [|discriminate H].
  destruct (validate_kwargs_inv _ _ _ Hv) as (Hreq & Hty & Hdb).
  destruct (init_attrs_get _ (signature_NoDup c given) _ _ H) as [Hc Hg].
  assert (cls self = c) as Hcs.
  { destruct Hdb as [[_ ->]|(s & _ & _ & _ & _ & ->)]; reflexivity. }
  split; [reflexivity|]. split; [exact Hreq|]. split; [exact Hty|].
  split; [|split; [|split]].
  - destruct Hdb as [[Hf _]|(s & Hs & H1 & H2 & H3 & _)].
    + assert (exists default, dict_get (signature c) "db_column" = Some default) as [dflt Hsig].
      { destruct c; eexists; reflexivity. }
      assert (check_type ("db_column", kwargs_get (bind_arguments c given) "db_column" (VStr ""))
              = Ok tt) as Hck.
      { rewrite Forall_forall in Hty. apply Hty.
        rewrite (kwargs_get_bind_arguments _ _ _ _ _ Hsig).
        unfold bind_arguments. apply in_map_iff. exists ("db_column", dflt).
        split; [reflexivity|].
        destruct c; simpl in Hsig; injection Hsig as <-; simpl; auto. }
      destruct (kwargs_get (bind_arguments c given) "db_column" (VStr ""))
        as [ | | | | | s | | | | | ]; try discriminate Hck.
      exists s. simpl in Hf. destruct s; [|discriminate Hf].
      repeat split.
    + exists s. repeat split; assumption.
  - rewrite Hc. simpl. exact Hcs.
  - rewrite (Hg "field_type") by discriminate.
    unfold bind_arguments. rewrite dict_get_bind_arguments.
    replace (dict_get (signature c) "field_type") with (@None PyVal)
      by (destruct c; reflexivity).
    rewrite dict_get_setattr. reflexivity.
  - intros k default Hsig Hk. rewrite (Hg k Hk).
    unfold bind_arguments. rewrite dict_get_bind_arguments, Hsig. reflexivity.
Qed.

(** *** The tests on strings mean what their names say *)

Lemma prefix_spec (p s : string) :
  String.prefix p s = true <-> exists t, s = p ++ t.
Proof.
  revert s. induction p as [|a p IH]; intros s; simpl.
  - split; [intros _; exists s; reflexivity | intros _; destruct s; reflexivity].
  - destruct s as [|b s].
    + split; [discriminate | intros [t Ht]; discriminate Ht].
    + simpl. destruct (Ascii.ascii_dec a b) as [->|Hab].
      * rewrite IH. split; intros [t Ht]; exists t; [now rewrite Ht | now injection Ht].
      * split; [discriminate | intros [t Ht]; injection Ht as Ht' _; congruence].
Qed.

Lemma str_contains_spec (needle s : string) :
  str_contains needle s = true <-> exists a b, s = a ++ needle ++ b.
Proof.
  induction s as [|c s IH]; cbn [str_contains]; rewrite orb_true_iff, prefix_spec.
  - split.
    + intros [[t Ht]|H]; [|discriminate H]. exists "", t. exact Ht.
    + intros (a & b & H). left. destruct a; [exists b; exact H | discriminate H].
  - rewrite IH. split.
    + intros [[t Ht]|(a & b & H)].
      * exists "", t. exact Ht.
      * exists (String c a), b. simpl. now rewrite H.
    + intros (a & b & H). destruct a as [|c' a]; simpl in H.
      * left. exists b. exact H.
      * right. injection H as _ H. exists a, b. exact H.
Qed.

Lemma endswith_spec (s p : string) :
  endswith s p = true <-> exists a, s = a ++ p.
Proof.
  induction s as [|c s IH]; cbn [endswith]; rewrite orb_true_iff, String.eqb_eq.
  - split.
    + intros [H|H]; [|discriminate H]. exists "". exact H.
    + intros [a H]. left. destruct a; [exact H | discriminate H].
  - rewrite IH. split.
    + intros [H|[a H]]; [exists ""; exact H | exists (String c a); simpl; now rewrite H].
    + intros [a H]. destruct a as [|c' a]; simpl in H.
      * left. exact H.
      * right. injection H as _ H. exists a. exact H.
Qed.

(** *** Required keywords *)

Lemma required_default_falsy (c : FieldKind) (kw : string) :
  In kw (required_kwargs c) ->
  required_kwargs c = [kw]
  /\ exists default, dict_get (signature c) kw = Some default /\ truthy default = false.
Proof.
  destruct c; simpl; intros H; try contradiction;
    destruct H as [<-|[]]; (split; [reflexivity|]); eexists; split; reflexivity.
Qed.

(** C6.  For every class and every keyword [kw] the class requires: a
    construction in which [kw] is absent or falsy fails with the
    [FieldError] whose message names the class and [kw]; a construction
    that returns was given a truthy [kw]. *)
Theorem required_keyword (c : FieldKind) (given : list (string * PyVal)) (kw : string) :
  In kw (required_kwargs c) ->
  (accepted c given = true ->
   truthy (kwargs_get given kw VNone) = false ->
   new c given = Raise (FieldError (MsgRequires (class_name c) kw)))
  /\ (forall d, new c given = Ok d ->
        exists v, dict_get given kw = Some v /\ truthy v = true)
  /\ message (MsgRequires (class_name c) kw)
     = Ok (in_dquotes (class_name c) ++ " field requires " ++ kw).
Proof.
  intros Hin. destruct (required_default_falsy c kw Hin) as (Hreq & default & Hsig & Hdef).
  split; [|split; [|reflexivity]].
  - intros Hacc Hfalsy. unfold new. rewrite Hacc.
    unfold Field_init, validate_kwargs. simpl cls. rewrite Hreq.
    erewrite for_each_raise; [reflexivity|].
    unfold check_required. rewrite (kwargs_get_bind_arguments _ _ _ _ _ Hsig).
    unfold kwargs_get in *. destruct (dict_get given kw) as [v|].
    + rewrite Hfalsy. reflexivity.
    + rewrite Hdef. reflexivity.
  - intros d Hnew. destruct (new_inv _ _ _ Hnew) as (_ & Hr & _).
    rewrite Hreq in Hr. inversion Hr as [|? ? Htr _]; subst.
    rewrite (kwargs_get_bind_arguments _ _ _ _ _ Hsig) in Htr.
    unfold kwargs_get in Htr. destruct (dict_get given kw) as [v|].
    + exists v. split; [reflexivity | exact Htr].
    + congruence.
Qed.

Lemma required_keyword_witness :
  new CharField [] = Raise (FieldError (MsgRequires "CharField" "max_length"))
  /\ new ForeignKey [("foreign_key", VStr "")]
     = Raise (FieldError (MsgRequires "ForeignKey" "foreign_key"))
  /\ exists v, dict_get [("max_length", VInt 5)] "max_length" = Some v /\ truthy v = true.
Proof.
  split; [|split].
  - apply (proj1 (required_keyword CharField [] "max_length" (or_introl eq_refl)));
      reflexivity.
  - apply (proj1 (required_keyword ForeignKey [("foreign_key", VStr "")] "foreign_key"
                    (or_introl eq_refl)));
      reflexivity.
  - eapply (proj1 (proj2 (required_keyword CharField [("max_length", VInt 5)] "max_length"
                            (or_introl eq_refl)))).
    reflexivity.
Defined.

(** *** The column name *)

Lemma for_each_FieldError {A : Type} (f : A -> Result unit) (xs : list A) :
  Forall (fun x => f x = Ok tt \/ exists m, f x = Raise (FieldError m)) xs ->
  for_each f xs = Ok tt \/ exists m, for_each f xs = Raise (FieldError m).
Proof.
  induction 1 as [|x xs Hx _ IH]; simpl.
  - left. reflexivity.
  - destruct Hx as [->|[m ->]]; simpl; [exact IH | right; exists m; reflexivity].
Qed.

Lemma check_required_cases (c : FieldKind) (kwargs : list (string * PyVal)) (kw : string) :
  check_required c kwargs kw = Ok tt
  \/ exists m, check_required c kwargs kw = Raise (FieldError m).
Proof.
  unfold check_required. destruct (truthy (kwargs_get kwargs kw VNone)); simpl;
    [left; reflexivity | right; eexists; reflexivity].
Qed.

Lemma check_type_cases (c : FieldKind) (given : list (string * PyVal)) :
  Forall (fun kv => check_type kv = Ok tt \/ exists m, check_type kv = Raise (FieldError m))
         (bind_arguments c given).
Proof.
  unfold bind_arguments. apply Forall_map.
  assert (Forall (fun p : string * PyVal => assoc KWARGS_TYPES (fst p) <> None) (signature c))
    as H.
  { destruct c; simpl; repeat constructor; discriminate. }
  eapply Forall_impl; [|exact H]. intros [k v] Hk. cbn [fst snd] in *.
  unfold check_type.
  destruct (assoc KWARGS_TYPES k) as [ts|]; [|congruence].
  destruct (negb (isinstance (kwargs_get given k v) ts)
            && negb (is_None (kwargs_get given k v) && String.eqb k "choices"));
    [right; eexists; reflexivity | left; reflexivity].
Qed.

(** C7.  A descriptor that was constructed has a column name without
    ["__"] that neither starts nor ends with ["_"], and a construction
    with a column name that breaks one of the three rules fails with a
    [FieldError]. *)
Theorem db_column_invariant (c : FieldKind) (given : list (string * PyVal)) :
  (forall d, new c given = Ok d ->
     exists s, dict_get (dict d) "db_column" = Some (VStr s)
               /\ str_contains "__" s = false
               /\ startswith s "_" = false
               /\ endswith s "_" = false)
  /\ (forall s, accepted c given = true ->
        dict_get given "db_column" = Some (VStr s) ->
        str_contains "__" s = true \/ startswith s "_" = true \/ endswith s "_" = true ->
        exists m, new c given = Raise (FieldError m)).
Proof.
  assert (exists default, dict_get (signature c) "db_column" = Some default) as [dflt Hsig].
  { destruct c; eexists; reflexivity. }
  split.
  - intros d Hnew. destruct (new_inv _ _ _ Hnew) as (_ & _ & _ & (s & Hs & H1 & H2 & H3) & _ & _ & Hg).
    exists s. rewrite (Hg _ _ Hsig) by discriminate.
    rewrite (kwargs_get_bind_arguments _ _ _ _ _ Hsig) in Hs. rewrite Hs.
    repeat split; assumption.
  - intros s Hacc Hgiven Hbad. unfold new. rewrite Hacc.
    unfold Field_init, validate_kwargs. simpl cls.
    destruct (for_each_FieldError (check_required c (bind_arguments c given))
                (required_kwargs c)) as [->|[m ->]];
      [apply Forall_forall; intros; apply check_required_cases | | eexists; reflexivity].
    destruct (for_each_FieldError check_type (bind_arguments c given)
                (check_type_cases c given)) as [->|[m ->]];
      [|eexists; reflexivity].
    simpl. rewrite (kwargs_get_bind_arguments _ _ _ _ _ Hsig).
    unfold kwargs_get. rewrite Hgiven.
    assert (s <> "") as Hne.
    { intros ->. simpl in Hbad. intuition discriminate. }
    simpl. destruct (String.eqb_spec s ""); [contradiction|]. simpl.
    unfold set_field_name.
    destruct (str_contains "__" s); [eexists; reflexivity|].
    destruct (startswith s "_"); [eexists; reflexivity|].
    destruct (endswith s "_"); [eexists; reflexivity|].
    intuition discriminate.
Qed.

Lemma db_column_invariant_witness :
  (exists s, dict_get [("db_column", VStr "name"); ("field_type", VStr "CharField");
                       ("default", VNone); ("max_length", VInt 5); ("null", VBool false);
                       ("choices", VNone); ("unique", VBool false)] "db_column"
             = Some (VStr s)
             /\ str_contains "__" s = false
             /\ startswith s "_" = false
             /\ endswith s "_" = false)
  /\ exists m, new IntegerField [("db_column", VStr "a__b")] = Raise (FieldError m).
Proof.
  split.
  - exact (proj1 (db_column_invariant CharField
                    [("db_column", VStr "name"); ("max_length", VInt 5);
                     ("null", VBool false)]) _ eq_refl).
  - exact (proj2 (db_column_invariant IntegerField [("db_column", VStr "a__b")])
             "a__b" eq_refl eq_refl (or_introl eq_refl)).
Defined.

(** *** Formatting *)

Lemma append_empty_r (s : string) : s ++ "" = s.
Proof. induction s as [|c s IH]; simpl; [reflexivity | now rewrite IH]. Qed.

Lemma append_assoc (a b c : string) : (a ++ b) ++ c = a ++ b ++ c.
Proof. induction a as [|x a IH]; simpl; [reflexivity | now rewrite IH]. Qed.

Lemma length_append (a b : string) :
  String.length (a ++ b) = (String.length a + String.length b)%nat.
Proof. induction a as [|x a IH]; simpl; [reflexivity | now rewrite IH]. Qed.

Lemma plain_cons (c : ascii) (s : string) :
  plain (String c s) = negb (is_brace c) && plain s.
Proof. unfold plain. simpl. apply negb_orb. Qed.

Lemma plain_app (a b : string) : plain (a ++ b) = plain a && plain b.
Proof.
  induction a as [|c a IH]; [reflexivity|].
  simpl. rewrite !plain_cons, IH. apply andb_assoc.
Qed.

Lemma format_plain_app (kw : list (string * PyVal)) (p t : string) :
  plain p = true ->
  format_from kw None (p ++ t) = (rest <- format_from kw None t ;; Ok (p ++ rest)).
Proof.
  induction p as [|c p IH]; intros Hp.
  - simpl. destruct (format_from kw None t); reflexivity.
  - rewrite plain_cons in Hp. apply andb_true_iff in Hp as [Hc Hp].
    unfold is_brace in Hc. apply negb_true_iff, orb_false_iff in Hc as [Ho Hcl].
    simpl. rewrite Ho, Hcl, (IH Hp).
    destruct (format_from kw None t); reflexivity.
Qed.

Lemma format_plain (kw : list (string * PyVal)) (p : string) :
  plain p = true -> format_from kw None p = Ok p.
Proof.
  intros Hp. pose proof (format_plain_app kw p "" Hp) as H.
  rewrite append_empty_r in H. rewrite H. simpl. now rewrite append_empty_r.
Qed.

Lemma format_db_column (kw : list (string * PyVal)) (col tail : string) :
  dict_get kw "db_column" = Some (VStr col) ->
  str_format ("{db_column} " ++ tail) kw
  = (rest <- format_from kw None tail ;; Ok (col ++ " " ++ rest)).
Proof.
  intros H. unfold str_format. simpl. unfold format_field. simpl. rewrite H. simpl.
  destruct (format_from kw None tail); reflexivity.
Qed.

(** *** The fragment of a constructed descriptor *)

(** For the classes that go through [Field.creation_query] with a
    [default] parameter, the fragment in terms of the keywords given. *)
Lemma creation_query_new (c : FieldKind) (given : list (string * PyVal)) (d : Field) :
  new c given = Ok d -> c <> PkField -> c <> ManyToMany ->
  exists col,
    kwargs_get given "db_column" (VStr "") = VStr col
    /\ creation_query d
       = (clause <- (if negb (is_None (kwargs_get given "default" VNone))
                     then default_clause d (kwargs_get given "default" VNone)
                     else auto_now_clause d (match c with DateField => true | _ => false end)) ;;
          rest <- format_from (dict d) None
                    (creation_string c
                     ++ null_text (kwargs_get given "null" (VBool false))
                     ++ clause
                     ++ unique_text (kwargs_get given "unique" (VBool false))) ;;
          Ok (col ++ " " ++ rest)).
Proof.
  intros Hnew Hpk Hmm.
  destruct (new_inv _ _ _ Hnew) as (_ & _ & _ & (col & Hcol & _) & Hcls & Hft & Hg).
  assert (dict_get (signature c) "db_column" = Some (VStr "")) as Hs1
    by (destruct c; try reflexivity; contradiction).
  assert (dict_get (signature c) "default" = Some VNone) as Hs2
    by (destruct c; try reflexivity; contradiction).
  assert (dict_get (signature c) "null" = Some (VBool false)) as Hs3
    by (destruct c; try reflexivity; contradiction).
  assert (dict_get (signature c) "unique" = Some (VBool false)) as Hs4
    by (destruct c; try reflexivity; contradiction).
  pose proof (Hg _ _ Hs1 ltac:(discriminate)) as G1.
  pose proof (Hg _ _ Hs2 ltac:(discriminate)) as G2.
  pose proof (Hg _ _ Hs3 ltac:(discriminate)) as G3.
  pose proof (Hg _ _ Hs4 ltac:(discriminate)) as G4.
  rewrite (kwargs_get_bind_arguments _ _ _ _ _ Hs1) in Hcol. rewrite Hcol in G1.
  exists col. split; [exact Hcol|].
  assert (creation_query d = Field_creation_query d) as ->.
  { unfold creation_query. rewrite Hcls. destruct c; try reflexivity; contradiction. }
  unfold Field_creation_query, getattr. rewrite Hft, G2, G3, G4. cbn [bind].
  assert (existsb (key_eq (VStr (class_name c))) (map VStr DATE_FIELDS)
          = match c with DateField => true | _ => false end) as ->
    by (destruct c; reflexivity).
  rewrite Hcls.
  match goal with
  | |- bind ?x _ = bind ?y _ => change y with x; destruct x as [clause|e]
  end; [|reflexivity].
  cbn [bind]. rewrite (format_db_column _ _ _ G1). reflexivity.
Qed.

(** *** A boolean default *)

(** C3, as stated, fails: the fragment of [BooleanField(default=True)] ends
    in [DEFAULT True], written by [str], and not in [DEFAULT true]. *)
Lemma BooleanField_default_True_capitalised :
  exists d s,
    new BooleanField [("default", VBool true)] = Ok d
    /\ creation_query d = Ok s
    /\ s = " boolean NOT NULL DEFAULT True"
    /\ endswith s "DEFAULT true" = false.
Proof.
  do 2 eexists. split; [reflexivity|]. split; [reflexivity|]. split; reflexivity.
Qed.

(** C3, amended.  The fragment of a boolean descriptor with the default
    [True] or [False], not unique, ends in the unquoted [DEFAULT True] or
    [DEFAULT False]: a boolean default is written by [str], capitalised and
    without quotes. *)
Theorem BooleanField_default_literal (given : list (string * PyVal)) (d : Field) (b : bool) :
  new BooleanField given = Ok d ->
  kwargs_get given "default" VNone = VBool b ->
  truthy (kwargs_get given "unique" (VBool false)) = false ->
  exists col s,
    kwargs_get given "db_column" (VStr "") = VStr col
    /\ creation_query d = Ok s
    /\ s = col ++ " boolean" ++ null_text (kwargs_get given "null" (VBool false))
             ++ " DEFAULT " ++ (if b then "True" else "False")
    /\ endswith s ("DEFAULT " ++ (if b then "True" else "False")) = true.
Proof.
  intros Hnew Hdef Huniq.
  destruct (creation_query_new _ _ _ Hnew) as (col & Hcol & Hq); try discriminate.
  exists col. eexists. split; [exact Hcol|].
  rewrite Hdef in Hq. unfold unique_text in Hq. rewrite Huniq in Hq.
  assert (default_clause d (VBool b) = Ok (" DEFAULT " ++ (if b then "True" else "False")))
    as Hclause by (destruct b; reflexivity).
  cbn [negb is_None] in Hq. rewrite Hclause in Hq. cbn [bind] in Hq.
  rewrite format_plain in Hq
    by (unfold null_text; destruct b, (truthy (kwargs_get given "null" (VBool false)));
        reflexivity).
  cbn [bind] in Hq. split; [exact Hq|]. split.
  - unfold null_text. destruct b, (truthy (kwargs_get given "null" (VBool false)));
      reflexivity.
  - apply endswith_spec.
    exists (col ++ " boolean" ++ null_text (kwargs_get given "null" (VBool false)) ++ " ").
    unfold null_text. destruct b, (truthy (kwargs_get given "null" (VBool false)));
      rewrite !append_assoc; reflexivity.
Qed.

Lemma BooleanField_default_literal_witness :
  exists d col s,
    new BooleanField [("db_column", VStr "active"); ("default", VBool true)] = Ok d
    /\ VStr "active" = VStr col
    /\ creation_query d = Ok s
    /\ s = col ++ " boolean" ++ " NOT NULL" ++ " DEFAULT " ++ "True"
    /\ endswith s "DEFAULT True" = true.
Proof.
  eexists.
  destruct (BooleanField_default_literal
              [("db_column", VStr "active"); ("default", VBool true)] _ true
              eq_refl eq_refl eq_refl) as (col & s & H).
  exists col, s. split; [reflexivity | exact H].
Defined.

(** *** Date fields: [auto_now] and an explicit default *)

(** C4, as stated, fails on its second part: with the explicit default
    ["now()"] the fragment contains [now()]. *)
Lemma DateField_default_may_contain_now :
  exists d s,
    new DateField [("auto_now", VBool true); ("default", VStr "now()")] = Ok d
    /\ creation_query d = Ok s
    /\ str_contains "now()" s = true.
Proof.
  do 2 eexists. split; [reflexivity|]. split; reflexivity.
Qed.

(** C4, amended.  For every date descriptor: with [auto_now] set and no
    default, the fragment carries the clause [DEFAULT now()]; with an
    explicit default, the only DEFAULT clause is the one computed from that
    default, and [auto_now] adds nothing: for a default that is a string
    without braces the fragment is the column, the type, the nullness,
    [DEFAULT '<default>'] and the uniqueness, whatever [auto_now] is. *)
Theorem DateField_default (given : list (string * PyVal)) (d : Field) :
  new DateField given = Ok d ->
  let null := kwargs_get given "null" (VBool false) in
  let unique := kwargs_get given "unique" (VBool false) in
  let default := kwargs_get given "default" VNone in
  let auto_now := kwargs_get given "auto_now" (VBool false) in
  exists col,
    kwargs_get given "db_column" (VStr "") = VStr col
    /\ (default = VNone -> truthy auto_now = true ->
        creation_query d
        = Ok (col ++ " timestamp" ++ null_text null ++ " DEFAULT now()" ++ unique_text unique)
        /\ exists s, creation_query d = Ok s /\ str_contains "DEFAULT now()" s = true)
    /\ (default <> VNone ->
        creation_query d
        = (clause <- default_clause d default ;;
           rest <- format_from (dict d) None
                     ("timestamp" ++ null_text null ++ clause ++ unique_text unique) ;;
           Ok (col ++ " " ++ rest)))
    /\ (forall s, default = VStr s -> plain s = true ->
        creation_query d
        = Ok (col ++ " timestamp" ++ null_text null ++ " DEFAULT '" ++ s ++ "'"
                  ++ unique_text unique)).
Proof.
  intros Hnew null unique default auto_now.
  destruct (creation_query_new _ _ _ Hnew) as (col & Hcol & Hq); try discriminate.
  destruct (new_inv _ _ _ Hnew) as (_ & _ & _ & _ & _ & _ & Hg).
  pose proof (Hg "auto_now" (VBool false) eq_refl ltac:(discriminate)) as Hauto.
  fold null unique default in Hq. fold auto_now in Hauto.
  cbn [creation_string] in Hq.
  assert (plain (null_text null) = true) as Hpn
    by (unfold null_text; destruct (truthy null); reflexivity).
  assert (plain (unique_text unique) = true) as Hpu
    by (unfold unique_text; destruct (truthy unique); reflexivity).
  exists col. split; [exact Hcol|]. split; [|split].
  - intros Hdef Htrue.
    assert (creation_query d
            = Ok (col ++ " timestamp" ++ null_text null ++ " DEFAULT now()"
                      ++ unique_text unique)) as Hres.
    { rewrite Hq, Hdef. cbn [negb is_None]. unfold auto_now_clause, getattr.
      rewrite Hauto. cbn [bind]. rewrite Htrue. cbn [bind].
      rewrite format_plain by (rewrite !plain_app, Hpn, Hpu; reflexivity).
      reflexivity. }
    split; [exact Hres|]. eexists. split; [exact Hres|].
    apply str_contains_spec.
    exists (col ++ " timestamp" ++ null_text null ++ " "), (unique_text unique).
    rewrite !append_assoc. reflexivity.
  - intros Hdef. rewrite Hq.
    destruct default; try reflexivity. contradiction.
  - intros s Hdef Hplain. rewrite Hq, Hdef. cbn [negb is_None].
    unfold default_clause. cbn [callable isinstance existsb instance_of orb quoted py_str bind].
    rewrite format_plain by (rewrite !plain_app, Hpn, Hpu, Hplain; reflexivity).
    cbn [bind]. rewrite !append_assoc. reflexivity.
Qed.

Lemma DateField_default_witness :
  exists d,
    new DateField [("db_column", VStr "created"); ("auto_now", VBool true)] = Ok d
    /\ creation_query d = Ok "created timestamp NOT NULL DEFAULT now()"
    /\ exists d',
         new DateField [("db_column", VStr "created"); ("auto_now", VBool true);
                        ("default", VStr "2017-01-01")] = Ok d'
         /\ creation_query d' = Ok "created timestamp NOT NULL DEFAULT '2017-01-01'".
Proof.
  eexists. split; [reflexivity|]. split.
  - destruct (DateField_default
                [("db_column", VStr "created"); ("auto_now", VBool true)] _ eq_refl)
      as (col & Hcol & HA & _).
    injection Hcol as <-. exact (proj1 (HA eq_refl eq_refl)).
  - eexists. split; [reflexivity|].
    destruct (DateField_default
                [("db_column", VStr "created"); ("auto_now", VBool true);
                 ("default", VStr "2017-01-01")] _ eq_refl)
      as (col & Hcol & _ & _ & HC).
    injection Hcol as <-. exact (HC "2017-01-01" eq_refl eq_refl).
Defined.

(** *** Many-to-many: validation of a list *)

Lemma init_attrs_choices (kwargs : list (string * PyVal)) :
  ~ In "choices" (map fst kwargs) ->
  forall self self', init_attrs self kwargs = Ok self' ->
  dict_get (dict self') "choices" = dict_get (dict self) "choices".
Proof.
  induction kwargs as [|[kw v] kwargs IH]; intros Hnot self self' H.
  - injection H as <-. reflexivity.
  - change (init_attrs self ((kw, v) :: kwargs))
      with (self1 <- init_attr self (kw, v) ;; init_attrs self1 kwargs) in H.
    simpl in Hnot.
    assert (String.eqb kw "choices" = false) as E
      by (apply String.eqb_neq; intros ->; tauto).
    unfold init_attr in H. rewrite E in H. cbn [bind] in H.
    rewrite (IH (fun Hin => Hnot (or_intror Hin)) _ _ H), dict_get_setattr, E.
    reflexivity.
Qed.

(** A many-to-many descriptor is constructed without [choices]. *)
Lemma new_ManyToMany_no_choices (given : list (string * PyVal)) (d : Field) :
  new ManyToMany given = Ok d ->
  cls d = ManyToMany /\ dict_get (dict d) "choices" = None.
Proof.
  intros Hnew. destruct (new_inv _ _ _ Hnew) as (_ & _ & _ & _ & Hcls & _).
  split; [exact Hcls|].
  unfold new in Hnew. destruct (accepted ManyToMany given); [|discriminate Hnew].
  unfold Field_init in Hnew.
  destruct (validate_kwargs (mkField ManyToMany []) (bind_arguments ManyToMany given))
    as [self|e] eqn:Hv; cbn [bind] in Hnew; [|discriminate Hnew].
  assert (~ In "choices" (map fst (bind_arguments ManyToMany given))) as Hnot
    by (simpl; intuition congruence).
  rewrite (init_attrs_choices _ Hnot _ _ Hnew).
  rewrite dict_get_setattr. simpl.
  destruct (validate_kwargs_inv _ _ _ Hv) as (_ & _ & [[_ ->]|(s & _ & _ & _ & _ & ->)]);
    reflexivity.
Qed.

Lemma Field_validate_list (self : Field) (l : list PyVal) :
  cls self = ManyToMany ->
  dict_get (dict self) "choices" = None ->
  Field_validate self (VList l) = Ok tt.
Proof.
  intros Hcls Hch. unfold Field_validate. rewrite Hch, Hcls. reflexivity.
Qed.

Lemma ManyToMany_validate_not_list (self : Field) (v : PyVal) :
  cls self = ManyToMany ->
  isinstance v [TList] = false ->
  validate self v = Field_validate self v.
Proof.
  intros Hcls Hv. unfold validate. rewrite Hcls.
  destruct v; try reflexivity. discriminate Hv.
Qed.

(** C8, as stated, fails from left to right: the list [[["x"]]] is accepted
    although [validate] refuses its only element [["x"]]. *)
Lemma ManyToMany_nested_list_accepted :
  exists d,
    new ManyToMany [("foreign_key", VStr "users")] = Ok d
    /\ validate d (VList [VList [VStr "x"]]) = Ok tt
    /\ validate d (VList [VStr "x"])
       = Raise (FieldError (MsgWrongDatatype (VStr "x") "ManyToMany")).
Proof.
  eexists. split; [reflexivity|]. split; reflexivity.
Qed.

(** C8, amended.  On a many-to-many descriptor (which has no choices),
    [validate] of a list succeeds exactly when the base validation
    [Field.validate] succeeds on every element; a value that is not a list
    is validated as a single value, so for a list none of whose elements is
    itself a list this is [validate] of every element, and for any list
    [validate] of every element is enough. *)
Theorem ManyToMany_validate_elementwise (self : Field) (l : list PyVal) :
  cls self = ManyToMany ->
  dict_get (dict self) "choices" = None ->
  (validate self (VList l) = Ok tt <-> Forall (fun v => Field_validate self v = Ok tt) l)
  /\ (Forall (fun v => isinstance v [TList] = false) l ->
      (validate self (VList l) = Ok tt <-> Forall (fun v => validate self v = Ok tt) l))
  /\ (Forall (fun v => validate self v = Ok tt) l -> validate self (VList l) = Ok tt)
  /\ (forall v, isinstance v [TList] = false -> validate self v = Field_validate self v).
Proof.
  intros Hcls Hch.
  assert (validate self (VList l) = Ok tt
          <-> Forall (fun v => Field_validate self v = Ok tt) l) as Hbase.
  { unfold validate. rewrite Hcls. apply for_each_ok. }
  split; [exact Hbase|]. split; [|split].
  - intros Hflat. rewrite Hbase. rewrite !Forall_forall in *.
    split; intros H v Hv.
    + rewrite (ManyToMany_validate_not_list _ _ Hcls (Hflat v Hv)). now apply H.
    + rewrite <- (ManyToMany_validate_not_list _ _ Hcls (Hflat v Hv)). now apply H.
  - intros H. apply Hbase. eapply Forall_impl; [|exact H].
    intros v Hv. destruct (isinstance v [TList]) eqn:E.
    + destruct v; try discriminate E. now apply Field_validate_list.
    + now rewrite <- (ManyToMany_validate_not_list _ _ Hcls E).
  - intros v Hv. now apply ManyToMany_validate_not_list.
Qed.

Lemma ManyToMany_validate_elementwise_witness :
  let self := mkField ManyToMany [("foreign_key", VStr "users")] in
  (validate self (VList [VInt 1; VInt 2; VInt 3]) = Ok tt
   <-> Forall (fun v => validate self v = Ok tt) [VInt 1; VInt 2; VInt 3])
  /\ validate self (VList [VInt 1; VInt 2; VInt 3]) = Ok tt.
Proof.
  intros self.
  pose proof (ManyToMany_validate_elementwise self [VInt 1; VInt 2; VInt 3]
                eq_refl eq_refl) as (_ & Hflat & Hall & _).
  split.
  - apply Hflat. repeat constructor.
  - apply Hall. repeat constructor.
Defined.

(** *** The length bound *)

Lemma Qle_bool_inject_Z (a b : Z) : Qle_bool (inject_Z a) (inject_Z b) = (a <=? b).
Proof. unfold Qle_bool. simpl. now rewrite !Z.mul_1_r. Qed.

Lemma int_gt_VInt (n m : Z) : int_gt n (VInt m) = Ok (m <? n).
Proof.
  unfold int_gt. simpl. rewrite Qle_bool_inject_Z. f_equal.
  destruct (Z.leb_spec n m), (Z.ltb_spec m n); try reflexivity; lia.
Qed.

Lemma check_max_length_str (self : Field) (s : string) (L : Z) :
  dict_get (dict self) "max_length" = Some (VInt L) ->
  check_max_length self (VStr s)
  = if L <? Z.of_nat (String.length s)
    then Raise (FieldError (MsgTooLong (VInt L)))
    else Ok tt.
Proof.
  intros H. unfold check_max_length, getattr. rewrite H. cbn [py_len bind].
  rewrite int_gt_VInt. cbn [bind]. reflexivity.
Qed.

Lemma Field_validate_isinstance (self : Field) (value : PyVal) :
  Field_validate self value = Ok tt ->
  isinstance value (internal_type (cls self)) = true.
Proof.
  unfold Field_validate. intros H.
  destruct (isinstance value (internal_type (cls self))); [reflexivity|].
  simpl in H.
  repeat match type of H with
         | bind ?x _ = _ => destruct x; simpl in H; try discriminate H
         end.
Qed.

Lemma validate_isinstance (self : Field) (value : PyVal) :
  cls self <> ManyToMany ->
  validate self value = Ok tt ->
  isinstance value (internal_type (cls self)) = true.
Proof.
  intros Hc H. apply Field_validate_isinstance.
  unfold validate, EmailField_validate in H.
  destruct (cls self); try exact H; try contradiction.
  destruct (Field_validate self value) as [[]|e]; [reflexivity | discriminate H].
Qed.

(** C5.  On a character descriptor (the e-mail one included) and on a JSON
    descriptor with [max_length = L], for a value that passes [validate]:
    [sanitize] returns the quoted text when the length of the text (for
    JSON, of the text the value is encoded to) is at most [L], and fails
    with the length error when it is [L + 1] (and whenever it exceeds
    [L]). *)
Theorem max_length_bound (self : Field) (value : PyVal) (L : Z) :
  dict_get (dict self) "max_length" = Some (VInt L) ->
  validate self value = Ok tt ->
  (cls self = CharField \/ cls self = EmailField ->
   exists s, value = VStr s
     /\ (Z.of_nat (String.length s) <= L ->
         sanitize_data self value = Ok (VStr ("'" ++ s ++ "'")))
     /\ (Z.of_nat (String.length s) = L + 1 ->
         sanitize_data self value = Raise (FieldError (MsgTooLong (VInt L))))
     /\ (L < Z.of_nat (String.length s) ->
         sanitize_data self value = Raise (FieldError (MsgTooLong (VInt L)))))
  /\ (cls self = JsonField ->
      forall t, json_text value = Ok (VStr t) ->
        (Z.of_nat (String.length t) <= L ->
         sanitize_data self value = Ok (VStr ("'" ++ t ++ "'")))
        /\ (Z.of_nat (String.length t) = L + 1 ->
            sanitize_data self value = Raise (FieldError (MsgTooLong (VInt L))))
        /\ (L < Z.of_nat (String.length t) ->
            sanitize_data self value = Raise (FieldError (MsgTooLong (VInt L))))).
Proof.
  intros Hmax Hval. split.
  - intros Hcls.
    assert (isinstance value [TStr] = true) as Hstr.
    { assert (cls self <> ManyToMany) as Hn by (destruct Hcls as [-> | ->]; discriminate).
      pose proof (validate_isinstance _ _ Hn Hval) as Hi.
      destruct Hcls as [Hc|Hc]; rewrite Hc in Hi; exact Hi. }
    destruct value; try discriminate Hstr. exists s. split; [reflexivity|].
    assert (sanitize_data self (VStr s)
            = (check_max_length self (VStr s) ;;; Ok (VStr ("'" ++ s ++ "'")))) as Hs.
    { unfold sanitize_data.
      assert (CharField_sanitize_data self (VStr s)
              = (check_max_length self (VStr s) ;;; Ok (VStr ("'" ++ s ++ "'")))) as H.
      { unfold CharField_sanitize_data, Field_sanitize_data. simpl is_None. cbv iota.
        rewrite Hval. reflexivity. }
      destruct Hcls as [-> | ->]; exact H. }
    rewrite Hs, (check_max_length_str _ _ _ Hmax).
    repeat split; intros Hlen.
    + destruct (Z.ltb_spec L (Z.of_nat (String.length s))); [lia | reflexivity].
    + destruct (Z.ltb_spec L (Z.of_nat (String.length s))); [reflexivity | lia].
    + destruct (Z.ltb_spec L (Z.of_nat (String.length s))); [reflexivity | lia].
  - intros Hcls t Ht.
    assert (sanitize_data self value
            = (check_max_length self (VStr t) ;;; Ok (VStr ("'" ++ t ++ "'")))) as Hs.
    { unfold sanitize_data. rewrite Hcls. unfold JsonField_sanitize_data.
      rewrite Hval, Ht. reflexivity. }
    rewrite Hs, (check_max_length_str _ _ _ Hmax).
    repeat split; intros Hlen.
    + destruct (Z.ltb_spec L (Z.of_nat (String.length t))); [lia | reflexivity].
    + destruct (Z.ltb_spec L (Z.of_nat (String.length t))); [reflexivity | lia].
    + destruct (Z.ltb_spec L (Z.of_nat (String.length t))); [reflexivity | lia].
Qed.

Lemma max_length_bound_witness :
  (exists s, VStr "hello" = VStr s
     /\ (Z.of_nat (String.length s) <= 5 ->
         sanitize_data (mkField CharField [("max_length", VInt 5)]) (VStr "hello")
         = Ok (VStr ("'" ++ s ++ "'")))
     /\ (Z.of_nat (String.length s) = 5 + 1 ->
         sanitize_data (mkField CharField [("max_length", VInt 5)]) (VStr "hello")
         = Raise (FieldError (MsgTooLong (VInt 5))))
     /\ (5 < Z.of_nat (String.length s) ->
         sanitize_data (mkField CharField [("max_length", VInt 5)]) (VStr "hello")
         = Raise (FieldError (MsgTooLong (VInt 5)))))
  /\ sanitize_data (mkField JsonField [("max_length", VInt 6)]) (VList [VInt 1; VInt 2])
     = Ok (VStr "'[1, 2]'")
  /\ sanitize_data (mkField JsonField [("max_length", VInt 5)]) (VList [VInt 1; VInt 2])
     = Raise (FieldError (MsgTooLong (VInt 5))).
Proof.
  split; [|split].
  - exact (proj1 (max_length_bound (mkField CharField [("max_length", VInt 5)])
                    (VStr "hello") 5 eq_refl eq_refl) (or_introl eq_refl)).
  - apply (proj2 (max_length_bound (mkField JsonField [("max_length", VInt 6)])
                    (VList [VInt 1; VInt 2]) 6 eq_refl eq_refl) eq_refl "[1, 2]" eq_refl).
    simpl. lia.
  - apply (proj2 (max_length_bound (mkField JsonField [("max_length", VInt 5)])
                    (VList [VInt 1; VInt 2]) 5 eq_refl eq_refl) eq_refl "[1, 2]" eq_refl).
    reflexivity.
Defined.

(** *** JSON: what [loads] reads back from the text of [dumps] *)

Ltac each_char c :=
  destruct c as [[|] [|] [|] [|] [|] [|] [|] [|]].

Lemma skip_ws_head (c : ascii) (s : string) :
  json.is_ws c = false -> json.skip_ws (String c s) = String c s.
Proof. intros H. simpl. rewrite H. reflexivity. Qed.

Lemma scanstring_escape_char (c : ascii) (tail : string) :
  json.scanstring (json.escape_char c ++ tail)
  = (p <- json.scanstring tail ;; Ok (String c (fst p), snd p)).
Proof. each_char c; reflexivity. Qed.

Lemma scanstring_escape (s rest : string) :
  json.scanstring (json.escape s ++ String dquote rest) = Ok (s, rest).
Proof.
  induction s as [|c s IH].
  - reflexivity.
  - cbn [json.escape]. rewrite append_assoc, scanstring_escape_char, IH. reflexivity.
Qed.

Lemma digit_of_char_not_digit (c : ascii) :
  is_digit c = false -> json.digit_of_char c = None.
Proof. each_char c; intros H; try reflexivity; discriminate H. Qed.

Lemma scan_digits_not_digit (rest : string) :
  json.starts_with_digit rest = false -> json.scan_digits rest = (Nil, rest).
Proof.
  destruct rest as [|c rest]; [reflexivity|]. simpl. intros H.
  rewrite (digit_of_char_not_digit _ H). reflexivity.
Qed.

Lemma scan_digits_uint (d : uint) (rest : string) :
  json.starts_with_digit rest = false ->
  json.scan_digits (NilEmpty.string_of_uint d ++ rest) = (d, rest).
Proof.
  intros H. induction d; simpl;
    [apply scan_digits_not_digit; exact H | rewrite IHd; reflexivity ..].
Qed.

Lemma to_uint_nzhead (p : positive) : nzhead (Pos.to_uint p) = Pos.to_uint p.
Proof.
  pose proof (DecimalPos.Unsigned.to_of (Pos.to_uint p)) as H.
  rewrite DecimalPos.Unsigned.of_to in H. simpl in H.
  unfold unorm in H. destruct (nzhead (Pos.to_uint p)) eqn:E;
    try (symmetry; exact H).
  exfalso. apply (DecimalPos.Unsigned.to_uint_nonzero p). exact H.
Qed.

Lemma to_uint_head (p : positive) :
  Pos.to_uint p <> Nil /\ forall d, Pos.to_uint p <> D0 d.
Proof.
  split; [apply DecimalPos.Unsigned.to_uint_nonnil|].
  intros d H. apply (nzhead_nonzero (Pos.to_uint p) d).
  rewrite to_uint_nzhead. exact H.
Qed.

Lemma match_integer_digits (d : uint) (rest : string) :
  d <> Nil -> (forall d', d <> D0 d') ->
  json.starts_with_digit rest = false ->
  json.match_integer (NilEmpty.string_of_uint d ++ rest) = Some (false, d, rest)
  /\ json.match_integer (String "-" (NilEmpty.string_of_uint d ++ rest))
     = Some (true, d, rest).
Proof.
  intros Hnil Hzero Hrest. pose proof (scan_digits_uint d rest Hrest) as Hs.
  destruct d; try congruence; try (exfalso; apply (Hzero d); reflexivity);
    unfold json.match_integer; cbn [NilEmpty.string_of_uint append] in *;
    cbn [Ascii.eqb Bool.eqb is_digit nat_of_ascii]; simpl Ascii.eqb; simpl is_digit;
    cbv iota; rewrite Hs; split; reflexivity.
Qed.

Lemma delimited_rest (rest : string) :
  delimited rest = true ->
  json.starts_with_digit rest = false
  /\ json.has_frac rest = false
  /\ json.has_exp rest = false.
Proof.
  destruct rest as [|c rest]; [intros _; repeat split|].
  unfold delimited. rewrite !orb_true_iff, !Ascii.eqb_eq.
  intros [[-> | ->] | ->]; repeat split.
Qed.

Lemma string_of_uint_nonnil (d : uint) :
  d <> Nil -> NilZero.string_of_uint d = NilEmpty.string_of_uint d.
Proof. destruct d; [congruence | reflexivity ..]. Qed.

Lemma scan_number_str_of_Z (z : Z) (rest : string) :
  delimited rest = true ->
  json.scan_number (str_of_Z z ++ rest) = Ok (VInt z, rest).
Proof.
  intros Hd. destruct (delimited_rest _ Hd) as (Hdig & Hfrac & Hexp).
  unfold json.scan_number, str_of_Z. destruct z as [|p|p].
  - simpl. rewrite Hfrac, Hexp. reflexivity.
  - destruct (to_uint_head p) as [Hnil Hzero].
    cbn [Z.to_int NilZero.string_of_int]. rewrite (string_of_uint_nonnil _ Hnil).
    rewrite (proj1 (match_integer_digits _ _ Hnil Hzero Hdig)), Hfrac, Hexp.
    cbn [orb]. do 3 f_equal. exact (DecimalZ.of_to (Z.pos p)).
  - destruct (to_uint_head p) as [Hnil Hzero].
    cbn [Z.to_int NilZero.string_of_int]. rewrite (string_of_uint_nonnil _ Hnil).
    cbn [append].
    rewrite (proj2 (match_integer_digits _ _ Hnil Hzero Hdig)), Hfrac, Hexp.
    cbn [orb]. do 3 f_equal. exact (DecimalZ.of_to (Z.neg p)).
Qed.

Lemma str_of_Z_head (z : Z) :
  exists c s, str_of_Z z = String c s /\ number_start c = true.
Proof.
  unfold str_of_Z. destruct z as [|p|p].
  - exists "0"%char, "". split; reflexivity.
  - destruct (to_uint_head p) as [Hnil _].
    cbn [Z.to_int NilZero.string_of_int]. rewrite (string_of_uint_nonnil _ Hnil).
    destruct (Pos.to_uint p); try congruence; eexists; eexists; split; reflexivity.
  - cbn [Z.to_int NilZero.string_of_int]. eexists; eexists; split; reflexivity.
Qed.

Lemma scan_once_number (fuel : nat) (c : ascii) (s : string) :
  number_start c = true ->
  json.scan_once (S fuel) (String c s) = json.scan_number (String c s).
Proof. unfold number_start. each_char c; intros H; try discriminate H; reflexivity. Qed.

Lemma number_start_value_start (c : ascii) :
  number_start c = true -> value_start c = true.
Proof. unfold number_start. each_char c; intros H; try discriminate H; reflexivity. Qed.

Lemma json_native_list (l : list PyVal) :
  json_native (VList l) = forallb json_native l.
Proof. induction l as [|x l IH]; simpl in *; [reflexivity | now rewrite IH]. Qed.

Lemma json_native_dict (d : list (PyVal * PyVal)) :
  json_native (VDict d)
  = distinct_keys d && forallb (fun kv => is_str (fst kv) && json_native (snd kv)) d.
Proof.
  cbn [json_native]. f_equal.
  induction d as [|[k x] d IH]; simpl; [reflexivity | now rewrite IH].
Qed.

Lemma dumps_list (l : list PyVal) :
  json.dumps (VList l) = (items <- json.dumps_items l ;; Ok ("[" ++ items ++ "]")).
Proof. reflexivity. Qed.

Lemma dumps_dict (d : list (PyVal * PyVal)) :
  json.dumps (VDict d) = (pairs <- json.dumps_pairs d ;; Ok ("{" ++ pairs ++ "}")).
Proof. reflexivity. Qed.

Lemma dict_set_fresh (d : list (PyVal * PyVal)) (k v : PyVal) :
  forallb (fun kv => negb (key_eq (fst kv) k)) d = true ->
  dict_set d k v = (d ++ [(k, v)])%list.
Proof.
  induction d as [|[k' v'] d IH]; simpl; [reflexivity|].
  rewrite andb_true_iff, negb_true_iff. intros [-> H]. now rewrite IH.
Qed.

Lemma dict_of_distinct_acc (d acc : list (PyVal * PyVal)) :
  forallb (fun kv' => forallb (fun kv => negb (key_eq (fst kv') (fst kv))) d) acc = true ->
  distinct_keys d = true ->
  fold_left (fun d kv => dict_set d (fst kv) (snd kv)) d acc = (acc ++ d)%list.
Proof.
  revert acc. induction d as [|[k v] d IH]; intros acc Hacc Hd; simpl.
  - now rewrite List.app_nil_r.
  - simpl in Hd. apply andb_true_iff in Hd as [Hk Hd].
    rewrite dict_set_fresh.
    + rewrite IH; [now rewrite <- List.app_assoc | | exact Hd].
      rewrite forallb_app. apply andb_true_iff. split.
      * rewrite forallb_forall in *. intros kv' Hin.
        pose proof (Hacc kv' Hin) as H. simpl in H.
        apply andb_true_iff in H as [_ H]. exact H.
      * simpl. rewrite Hk. reflexivity.
    + rewrite forallb_forall in *. intros kv' Hin.
      pose proof (Hacc kv' Hin) as H. simpl in H.
      apply andb_true_iff in H as [H _]. exact H.
Qed.

Lemma dict_of_distinct (d : list (PyVal * PyVal)) :
  distinct_keys d = true -> json.dict_of d = d.
Proof. intros H. unfold json.dict_of. now rewrite dict_of_distinct_acc. Qed.

Lemma reads_back_constants :
  reads_back VNone /\ reads_back (VBool true) /\ reads_back (VBool false).
Proof.
  repeat split;
    (eexists; split; [reflexivity|]; split;
     [do 2 eexists; split; reflexivity|];
     intros [|fuel] rest Hf _; [simpl in Hf; lia | reflexivity]).
Qed.

Lemma reads_back_int (z : Z) : reads_back (VInt z).
Proof.
  exists (str_of_Z z). split; [reflexivity|].
  destruct (str_of_Z_head z) as (c & s & Hs & Hc). split.
  - exists c, s. split; [exact Hs | now apply number_start_value_start].
  - intros [|fuel] rest Hf Hd; [lia|].
    rewrite <- (scan_number_str_of_Z z rest Hd). rewrite Hs. cbn [append].
    now apply scan_once_number.
Qed.

Lemma reads_back_str (s : string) : reads_back (VStr s).
Proof.
  exists (json.encode_basestring_ascii s). split; [reflexivity|]. split.
  - do 2 eexists. split; reflexivity.
  - intros [|fuel] rest Hf _; [lia|].
    unfold json.encode_basestring_ascii. cbn [append]. rewrite append_assoc.
    cbn [append json.scan_once]. replace (Ascii.eqb dquote dquote) with true by reflexivity.
    rewrite scanstring_escape. reflexivity.
Qed.

Lemma items_read_back (l : list PyVal) :
  Forall (fun x => json_native x = true -> reads_back x) l ->
  forallb json_native l = true -> l <> [] ->
  exists it,
    json.dumps_items l = Ok it
    /\ (exists c it', it = String c it' /\ value_start c = true)
    /\ forall fuel rest,
         (String.length it + 1 < fuel)%nat ->
         json.array_items fuel (it ++ String "]" rest) = Ok (l, rest).
Proof.
  induction 1 as [|x l Hx Hl IH]; intros Hnat Hne; [congruence|].
  simpl in Hnat. apply andb_true_iff in Hnat as [Hnx Hnl].
  destruct (Hx Hnx) as (tx & Hdx & (c & tx' & Htx & Hc) & Hread).
  destruct l as [|y l].
  - exists tx. split; [exact Hdx|]. split; [exists c, tx'; auto|].
    intros [|fuel] rest Hf; [lia|].
    cbn [json.array_items]. rewrite Hread by (try reflexivity; lia).
    reflexivity.
  - destruct (IH Hnl ltac:(discriminate)) as (tl & Hdl & (cl & tl' & Htl & Hcl) & Hitems).
    exists (tx ++ ", " ++ tl). split; [|split].
    + change (json.dumps_items (x :: y :: l))
        with (tx <- json.dumps x ;; tl <- json.dumps_items (y :: l) ;;
              Ok (tx ++ ", " ++ tl)).
      rewrite Hdx, Hdl. reflexivity.
    + exists c, (tx' ++ ", " ++ tl). rewrite Htx. split; [reflexivity | exact Hc].
    + intros [|fuel] rest Hf; [lia|].
      rewrite !length_append in Hf. cbn [String.length] in Hf.
      rewrite !append_assoc. cbn [append json.array_items].
      rewrite Hread by (try reflexivity; lia).
      cbn [bind snd fst]. 
      assert (json.skip_ws (String " " (tl ++ String "]" rest)) = tl ++ String "]" rest) as Hws.
      { rewrite Htl. cbn [append]. apply andb_true_iff in Hcl as [Hcl _].
        apply negb_true_iff in Hcl. simpl. rewrite Hcl. reflexivity. }
      simpl json.skip_ws at 1. simpl Ascii.eqb. cbv iota.
      rewrite Hws, Hitems by lia. reflexivity.
Qed.

Lemma dumps_pairs_last (k x : PyVal) :
  json.dumps_pairs [(k, x)]
  = (tk <- json.key_text k ;; tx <- json.dumps x ;;
     Ok (json.encode_basestring_ascii tk ++ ": " ++ tx)).
Proof. reflexivity. Qed.

Lemma dumps_pairs_cons (k x : PyVal) (kv : PyVal * PyVal) (d : list (PyVal * PyVal)) :
  json.dumps_pairs ((k, x) :: kv :: d)
  = (tk <- json.key_text k ;; tx <- json.dumps x ;;
     tl <- json.dumps_pairs (kv :: d) ;;
     Ok ((json.encode_basestring_ascii tk ++ ": " ++ tx) ++ ", " ++ tl)).
Proof. reflexivity. Qed.

Lemma pairs_read_back (d : list (PyVal * PyVal)) :
  Forall (fun kv => (json_native (fst kv) = true -> reads_back (fst kv))
                    /\ (json_native (snd kv) = true -> reads_back (snd kv))) d ->
  forallb (fun kv => is_str (fst kv) && json_native (snd kv)) d = true -> d <> [] ->
  exists pt,
    json.dumps_pairs d = Ok (String dquote pt)
    /\ forall fuel rest,
         (String.length pt + 2 < fuel)%nat ->
         json.object_pairs fuel (pt ++ String "}" rest) = Ok (d, rest).
Proof.
  induction 1 as [|[k x] d [_ Hx] Hd IH]; intros Hnat Hne; [congruence|].
  cbn [forallb fst snd] in Hnat. apply andb_true_iff in Hnat as [Hkx Hnd].
  apply andb_true_iff in Hkx as [Hk Hnx].
  destruct k as [ | | | | | s | | | | | ]; try discriminate Hk.
  cbn [snd] in Hx.
  destruct (Hx Hnx) as (tx & Hdx & (c & tx' & Htx & Hc) & Hread).
  assert (forall tail, json.skip_ws (String " " (tx ++ tail)) = tx ++ tail) as Hws.
  { intros tail. rewrite Htx. cbn [append]. apply andb_true_iff in Hc as [Hc _].
    apply negb_true_iff in Hc. simpl. rewrite Hc. reflexivity. }
  destruct d as [|kv d].
  - exists ((json.escape s ++ String dquote "") ++ ": " ++ tx). split.
    + rewrite dumps_pairs_last. cbn [json.key_text bind]. rewrite Hdx. reflexivity.
    + intros [|fuel] rest Hf; [lia|].
      rewrite !length_append in Hf. cbn [String.length] in Hf.
      rewrite !append_assoc. cbn [append json.object_pairs].
      rewrite scanstring_escape. cbn [bind snd fst].
      simpl json.skip_ws at 1. simpl Ascii.eqb. cbv iota.
      rewrite Hws, Hread by (try reflexivity; lia).
      reflexivity.
  - destruct (IH Hnd ltac:(discriminate)) as (tl & Hdl & Hpairs).
    exists (((json.escape s ++ String dquote "") ++ ": " ++ tx) ++ ", " ++ String dquote tl).
    split.
    + rewrite dumps_pairs_cons. cbn [json.key_text bind]. rewrite Hdx, Hdl. reflexivity.
    + intros [|fuel] rest Hf; [lia|].
      rewrite !length_append in Hf. cbn [String.length] in Hf.
      rewrite !append_assoc. cbn [append json.object_pairs].
      rewrite scanstring_escape. cbn [bind snd fst].
      simpl json.skip_ws at 1. simpl Ascii.eqb. cbv iota.
      rewrite Hws, Hread by (try reflexivity; lia).
      cbn [bind snd fst]. unfold dquote.
      cbn -[json.object_pairs]. rewrite Hpairs by lia. reflexivity.
Qed.

(** Every JSON-native value is read back from its text. *)
Lemma json_reads_back (v : PyVal) : json_native v = true -> reads_back v.
Proof.
  induction v using PyVal_ind; intros Hnat; try discriminate Hnat.
  - apply reads_back_constants.
  - destruct b; apply reads_back_constants.
  - apply reads_back_int.
  - apply reads_back_str.
  - rewrite json_native_list in Hnat. destruct l as [|x l].
    + exists "[]". split; [reflexivity|]. split; [do 2 eexists; split; reflexivity|].
      intros [|fuel] rest Hf _; [simpl in Hf; lia | reflexivity].
    + destruct (items_read_back (x :: l) H Hnat ltac:(discriminate))
        as (it & Hit & (c & it' & Hc & Hstart) & Hitems).
      exists ("[" ++ it ++ "]"). split; [|split].
      * rewrite dumps_list, Hit. reflexivity.
      * do 2 eexists. split; reflexivity.
      * intros [|fuel] rest Hf _; [lia|].
        cbn [append String.length] in Hf. rewrite length_append in Hf.
        cbn [String.length] in Hf.
        cbn [append]. rewrite append_assoc. cbn [append json.scan_once].
        simpl Ascii.eqb. cbv iota.
        assert (json.skip_ws (it ++ String "]" rest) = String c (it' ++ String "]" rest)) as Hws.
        { rewrite Hc. cbn [append]. apply andb_true_iff in Hstart as [Hs _].
          apply negb_true_iff in Hs. simpl. rewrite Hs. reflexivity. }
        rewrite Hws. apply andb_true_iff in Hstart as [_ Hs].
        apply negb_true_iff in Hs. rewrite Hs.
        replace (String c (it' ++ String "]" rest)) with (it ++ String "]" rest)
          by (rewrite Hc; reflexivity).
        rewrite Hitems by lia. reflexivity.
  - rewrite json_native_dict in Hnat. apply andb_true_iff in Hnat as [Hdist Hnat].
    destruct d as [|kv d].
    + exists "{}". split; [reflexivity|]. split; [do 2 eexists; split; reflexivity|].
      intros [|fuel] rest Hf _; [simpl in Hf; lia | reflexivity].
    + destruct (pairs_read_back (kv :: d) H Hnat ltac:(discriminate))
        as (pt & Hpt & Hpairs).
      exists ("{" ++ String dquote pt ++ "}"). split; [|split].
      * rewrite dumps_dict, Hpt. reflexivity.
      * do 2 eexists. split; reflexivity.
      * intros [|fuel] rest Hf _; [lia|].
        cbn [append String.length] in Hf. rewrite length_append in Hf.
        cbn [String.length] in Hf.
        cbn [append]. rewrite append_assoc. cbn [append json.scan_once].
        simpl Ascii.eqb. cbv iota. simpl json.skip_ws. simpl Ascii.eqb. cbv iota.
        replace (Ascii.eqb dquote dquote) with true by reflexivity.
        rewrite Hpairs by lia. cbn [bind fst snd].
        rewrite (dict_of_distinct _ Hdist). reflexivity.
Qed.

(** [json.loads(json.dumps(v)) == v] on the JSON-native values. *)
Lemma loads_dumps (v : PyVal) :
  json_native v = true ->
  exists t, json.dumps v = Ok t /\ json.loads t = Ok v.
Proof.
  intros Hnat.
  destruct (json_reads_back v Hnat) as (t & Hd & (c & t' & Ht & Hstart) & Hread).
  exists t. split; [exact Hd|]. unfold json.loads.
  assert (json.skip_ws t = t) as ->.
  { rewrite Ht. apply skip_ws_head. apply andb_true_iff in Hstart as [Hs _].
    now apply negb_true_iff in Hs. }
  pose proof (Hread (S (String.length t)) "" ltac:(lia) eq_refl) as H.
  rewrite append_empty_r in H. rewrite H. reflexivity.
Qed.

(** *** JSON fields: recomposing the encoded text *)

(** C9, as stated, fails on values the JSON field accepts: a string that
    holds a JSON text is parsed before it is encoded, so the text comes
    back as the list it describes and not as the string; and a dictionary
    with the integer key [1] comes back with the string key ["1"]. *)
Lemma recompose_not_inverse :
  (validate (mkField JsonField [("max_length", VInt 20)]) (VStr "[1, 2]") = Ok tt
   /\ json_text (VStr "[1, 2]") = Ok (VStr "[1, 2]")
   /\ recompose JsonField (VStr "[1, 2]") = Ok (VList [VInt 1; VInt 2])
   /\ VList [VInt 1; VInt 2] <> VStr "[1, 2]")
  /\ (validate (mkField JsonField [("max_length", VInt 20)]) (VDict [(VInt 1, VStr "a")])
      = Ok tt
      /\ exists t,
           json_text (VDict [(VInt 1, VStr "a")]) = Ok (VStr t)
           /\ recompose JsonField (VStr t) = Ok (VDict [(VStr "1", VStr "a")])
           /\ VDict [(VStr "1", VStr "a")] <> VDict [(VInt 1, VStr "a")]).
Proof.
  split.
  - repeat split; try reflexivity. discriminate.
  - split; [reflexivity|]. eexists. repeat split; try reflexivity. discriminate.
Qed.

(** C9, amended.  For every list or dictionary [v] that is JSON-native
    (built from [None], booleans, integers, strings, lists and dictionaries
    with pairwise different string keys), the text the JSON field encodes
    [v] to exists and [recompose] of that text is [v]. *)
Theorem recompose_json_text (v : PyVal) :
  json_native v = true ->
  isinstance v [TDict; TList] = true ->
  exists t, json_text v = Ok (VStr t) /\ recompose JsonField (VStr t) = Ok v.
Proof.
  intros Hnat Hty. destruct (loads_dumps v Hnat) as (t & Hd & Hl).
  exists t. split; [|exact Hl].
  unfold json_text. destruct v; try discriminate Hty; cbn [is_not_NULL bind];
    rewrite Hd; reflexivity.
Qed.

Lemma recompose_json_text_witness :
  exists t,
    json_text (VDict [(VStr "a", VList [VInt 1; VNone]); (VStr "b", VStr "x")])
    = Ok (VStr t)
    /\ recompose JsonField (VStr t)
       = Ok (VDict [(VStr "a", VList [VInt 1; VNone]); (VStr "b", VStr "x")]).
Proof.
  apply recompose_json_text; reflexivity.
Defined.

(** ** Further properties of the module *)

(** *** [str.format]: a template in two parts *)

Lemma format_from_open (kw : list (string * PyVal)) (t : string) :
  format_from kw None (String "{" t)
  = match t with
    | EmptyString => Raise ValueError
    | String c t' =>
        if Ascii.eqb c "{" then rest <- format_from kw None t' ;; Ok (String "{" rest)
        else format_from kw (Some "") t
    end.
Proof. destruct t as [|c t]; [reflexivity|]. each_char c; reflexivity. Qed.

Lemma format_from_close (kw : list (string * PyVal)) (t : string) :
  format_from kw None (String "}" t)
  = match t with
    | EmptyString => Raise ValueError
    | String c t' =>
        if Ascii.eqb c "}" then rest <- format_from kw None t' ;; Ok (String "}" rest)
        else Raise ValueError
    end.
Proof. destruct t as [|c t]; [reflexivity|]. each_char c; reflexivity. Qed.

Lemma format_from_other (kw : list (string * PyVal)) (c : ascii) (t : string) :
  Ascii.eqb c "{" = false -> Ascii.eqb c "}" = false ->
  format_from kw None (String c t) = (rest <- format_from kw None t ;; Ok (String c rest)).
Proof. intros H1 H2. cbn [format_from]. rewrite H1, H2. reflexivity. Qed.

Lemma format_from_field (kw : list (string * PyVal)) (name : string) (c : ascii) (t : string) :
  format_from kw (Some name) (String c t)
  = if Ascii.eqb c "}" then
      text <- format_field kw name ;; rest <- format_from kw None t ;; Ok (text ++ rest)
    else format_from kw (Some (name ++ String c "")) t.
Proof. reflexivity. Qed.

Lemma format_from_app_bounded (kw : list (string * PyVal)) (n : nat) :
  forall (a b : string) (field : option string) (x : string),
    (String.length a <= n)%nat ->
    format_from kw field a = Ok x ->
    format_from kw field (a ++ b) = (y <- format_from kw None b ;; Ok (x ++ y)).
Proof.
  induction n as [|n IH]; intros a b field x Hlen Ha.
  - destruct a; [|simpl in Hlen; lia]. destruct field; [discriminate Ha|].
    injection Ha as <-. simpl. destruct (format_from kw None b); reflexivity.
  - destruct a as [|c a].
    + destruct field; [discriminate Ha|].
      injection Ha as <-. simpl. destruct (format_from kw None b); reflexivity.
    + simpl in Hlen. cbn [append]. destruct field as [name|].
      * rewrite format_from_field. rewrite format_from_field in Ha.
        destruct (Ascii.eqb c "}").
        -- destruct (format_field kw name) as [text|e]; [|discriminate Ha].
           cbn [bind] in *.
           destruct (format_from kw None a) as [rest|e] eqn:Hrest; [|discriminate Ha].
           injection Ha as <-.
           rewrite (IH a b None rest ltac:(lia) Hrest).
           destruct (format_from kw None b); cbn [bind]; [|reflexivity].
           now rewrite append_assoc.
        -- apply IH; [lia | exact Ha].
      * destruct (Ascii.eqb c "{") eqn:Ho; [|destruct (Ascii.eqb c "}") eqn:Hc].
        -- apply Ascii.eqb_eq in Ho. subst c.
           rewrite format_from_open. rewrite format_from_open in Ha.
           destruct a as [|c2 a]; [discriminate Ha|]. cbn [append].
           destruct (Ascii.eqb c2 "{").
           ++ destruct (format_from kw None a) as [rest|e] eqn:Hrest; [|discriminate Ha].
              injection Ha as <-. simpl in Hlen.
              rewrite (IH a b None rest ltac:(lia) Hrest).
              destruct (format_from kw None b); reflexivity.
           ++ change (String c2 (a ++ b)) with (String c2 a ++ b).
              apply IH; [simpl in Hlen |- *; lia | exact Ha].
        -- apply Ascii.eqb_eq in Hc. subst c.
           rewrite format_from_close. rewrite format_from_close in Ha.
           destruct a as [|c2 a]; [discriminate Ha|]. cbn [append].
           destruct (Ascii.eqb c2 "}"); [|discriminate Ha].
           destruct (format_from kw None a) as [rest|e] eqn:Hrest; [|discriminate Ha].
           injection Ha as <-. simpl in Hlen.
           rewrite (IH a b None rest ltac:(lia) Hrest).
           destruct (format_from kw None b); reflexivity.
        -- rewrite (format_from_other kw c (a ++ b) Ho Hc).
           rewrite (format_from_other kw c a Ho Hc) in Ha.
           destruct (format_from kw None a) as [rest|e] eqn:Hrest; [|discriminate Ha].
           injection Ha as <-.
           rewrite (IH a b None rest ltac:(lia) Hrest).
           destruct (format_from kw None b); reflexivity.
Qed.

(** A template whose first part formats on its own formats as the two parts
    one after the other: no replacement field and no doubled brace spans
    the cut. *)
Lemma str_format_app (kw : list (string * PyVal)) (a b x : string) :
  str_format a kw = Ok x ->
  str_format (a ++ b) kw = (y <- str_format b kw ;; Ok (x ++ y)).
Proof.
  intros H. unfold str_format in *.
  exact (format_from_app_bounded kw (String.length a) a b None x (le_n _) H).
Qed.


(** *** The attributes of a constructed descriptor *)

(** X1.  A descriptor that was constructed carries its class name in
    [field_type] and, for every parameter of its class other than
    [choices], the value given for it or else the default of the
    parameter. *)
Theorem new_attributes (c : FieldKind) (given : list (string * PyVal)) (d : Field) :
  new c given = Ok d ->
  cls d = c
  /\ getattr d "field_type" = Ok (VStr (class_name c))
  /\ forall k default,
       dict_get (signature c) k = Some default -> k <> "choices" ->
       getattr d k = Ok (match dict_get given k with Some v => v | None => default end).
Proof.
  intros Hnew. destruct (new_inv _ _ _ Hnew) as (_ & _ & _ & _ & Hcls & Hft & Hg).
  split; [exact Hcls|]. split.
  - unfold getattr. rewrite Hft. reflexivity.
  - intros k default Hsig Hk. unfold getattr. rewrite (Hg _ _ Hsig Hk). reflexivity.
Qed.

Lemma new_attributes_witness :
  exists d,
    new ForeignKey [("foreign_key", VStr "users"); ("null", VBool true)] = Ok d
    /\ getattr d "foreign_key" = Ok (VStr "users")
    /\ getattr d "unique" = Ok (VBool false).
Proof.
  eexists. split; [reflexivity|].
  destruct (new_attributes ForeignKey [("foreign_key", VStr "users"); ("null", VBool true)]
              _ eq_refl) as (_ & _ & H).
  split.
  - exact (H "foreign_key" (VStr "") eq_refl ltac:(discriminate)).
  - exact (H "unique" (VBool false) eq_refl ltac:(discriminate)).
Defined.

Lemma In_bind_arguments (c : FieldKind) (given : list (string * PyVal))
    (k : string) (default : PyVal) :
  dict_get (signature c) k = Some default ->
  In (k, kwargs_get given k default) (bind_arguments c given).
Proof.
  intros H. unfold bind_arguments. apply in_map_iff. exists (k, default).
  split; [reflexivity|].
  induction (signature c) as [|[k0 v0] sig IH]; [discriminate H|].
  simpl in H. destruct (String.eqb k0 k) eqn:E.
  - apply String.eqb_eq in E. subst k0. injection H as ->. left. reflexivity.
  - right. exact (IH H).
Qed.

(** The value a constructed descriptor was given for the parameter [k] (or
    the default of [k]) passed the type test of [validate_kwargs]. *)
Lemma new_keyword_type (c : FieldKind) (given : list (string * PyVal)) (d : Field)
    (k : string) (default : PyVal) (ts : list PyType) :
  new c given = Ok d ->
  dict_get (signature c) k = Some default ->
  assoc KWARGS_TYPES k = Some ts ->
  isinstance (kwargs_get given k default) ts = true
  \/ (k = "choices" /\ kwargs_get given k default = VNone).
Proof.
  intros Hnew Hsig Hts. destruct (new_inv _ _ _ Hnew) as (_ & _ & Hty & _).
  rewrite Forall_forall in Hty.
  pose proof (Hty _ (In_bind_arguments c given k default Hsig)) as H.
  unfold check_type in H. rewrite Hts in H.
  destruct (isinstance (kwargs_get given k default) ts); [left; reflexivity|].
  right. cbn [negb andb] in H.
  destruct (is_None (kwargs_get given k default)) eqn:En;
    [|discriminate H].
  destruct (String.eqb k "choices") eqn:Ek; [|discriminate H].
  apply String.eqb_eq in Ek. split; [exact Ek|].
  destruct (kwargs_get given k default); try discriminate En. reflexivity.
Qed.

Lemma dict_get_In (d : list (string * PyVal)) (k : string) (v : PyVal) :
  dict_get d k = Some v -> In (k, v) d.
Proof.
  induction d as [|[k0 v0] d IH]; [discriminate|]. simpl.
  destruct (String.eqb_spec k0 k) as [->|_].
  - intros [= ->]. now left.
  - intros H. right. exact (IH H).
Qed.

Lemma signature_in_table (c : FieldKind) (k : string) (default : PyVal) :
  dict_get (signature c) k = Some default -> assoc KWARGS_TYPES k <> None.
Proof.
  intros H. apply dict_get_In in H.
  assert (Forall (fun p : string * PyVal => assoc KWARGS_TYPES (fst p) <> None) (signature c))
    as HF by (destruct c; simpl; repeat constructor; discriminate).
  rewrite Forall_forall in HF. exact (HF _ H).
Qed.

(** X2.  The attributes of a constructed descriptor have the types of
    [KWARGS_TYPES]: for every parameter of the class the table has an entry,
    and the attribute is an instance of the type the entry names, the one
    exception being [choices], which may be [None] and, given as a tuple, is
    kept as a dictionary. *)
Theorem new_attribute_types (c : FieldKind) (given : list (string * PyVal)) (d : Field) :
  new c given = Ok d ->
  forall k default,
    dict_get (signature c) k = Some default ->
    exists ts v,
      assoc KWARGS_TYPES k = Some ts
      /\ (k <> "choices" -> getattr d k = Ok v /\ isinstance v ts = true)
      /\ (k = "choices" -> kwargs_get given k default = VNone
                           \/ isinstance (kwargs_get given k default) ts = true).
Proof.
  intros Hnew k default Hsig.
  destruct (new_inv _ _ _ Hnew) as (_ & _ & _ & _ & _ & _ & Hg).
  assert (exists ts, assoc KWARGS_TYPES k = Some ts) as [ts Hts].
  { destruct (assoc KWARGS_TYPES k) as [ts|] eqn:E; [exists ts; reflexivity|].
    exfalso. exact (signature_in_table c k default Hsig E). }
  exists ts, (kwargs_get given k default). split; [exact Hts|].
  pose proof (new_keyword_type c given d k default ts Hnew Hsig Hts) as Hty.
  split.
  - intros Hk. split.
    + unfold getattr. rewrite (Hg _ _ Hsig Hk). reflexivity.
    + destruct Hty as [H|[H _]]; [exact H | contradiction].
  - intros _. destruct Hty as [H|[_ H]]; [right; exact H | left; exact H].
Qed.

Lemma new_attribute_types_witness :
  exists d ts v,
    new CharField [("max_length", VInt 5)] = Ok d
    /\ assoc KWARGS_TYPES "null" = Some ts
    /\ getattr d "null" = Ok v
    /\ isinstance v ts = true.
Proof.
  eexists.
  destruct (new_attribute_types CharField [("max_length", VInt 5)] _ eq_refl
              "null" (VBool false) eq_refl) as (ts & v & Hts & H & _).
  exists ts, v. split; [reflexivity|]. split; [exact Hts|].
  exact (H ltac:(discriminate)).
Defined.

Lemma for_each_raise_inv {A : Type} (body : A -> Result unit) (xs : list A) (e : PyExc) :
  for_each body xs = Raise e -> exists x, In x xs /\ body x = Raise e.
Proof.
  induction xs as [|x xs IH]; [discriminate|].
  cbn [for_each]. destruct (body x) as [[]|e0] eqn:Hx; cbn [bind].
  - intros H. destruct (IH H) as (y & Hin & Hy). exists y. split; [now right | exact Hy].
  - intros [= <-]. exists x. split; [now left | exact Hx].
Qed.

Lemma check_type_raise (kv : string * PyVal) (e : PyExc) :
  check_type kv = Raise e ->
  e = FieldError (MsgWrongValue (fst kv)) \/ e = KeyError (fst kv).
Proof.
  destruct kv as [k v]. unfold check_type. cbn [fst].
  destruct (assoc KWARGS_TYPES k) as [ts|]; [|intros [= <-]; now right].
  destruct (negb (isinstance v ts) && negb (is_None v && String.eqb k "choices"));
    [intros [= <-]; now left | discriminate].
Qed.

(** X3.  A construction in which some keyword has a value that is not of
    the type [KWARGS_TYPES] names for it (and is not [choices=None]) fails
    with a [FieldError], which is the one of a missing required keyword or
    the one of a wrong value. *)
Theorem new_wrong_type (c : FieldKind) (given : list (string * PyVal))
    (k : string) (v : PyVal) (default : PyVal) (ts : list PyType) :
  accepted c given = true ->
  dict_get (signature c) k = Some default ->
  dict_get given k = Some v ->
  assoc KWARGS_TYPES k = Some ts ->
  isinstance v ts = false ->
  (k = "choices" -> v <> VNone) ->
  (exists kw, new c given = Raise (FieldError (MsgRequires (class_name c) kw)))
  \/ (exists k', new c given = Raise (FieldError (MsgWrongValue k'))).
Proof.
  intros Hacc Hsig Hgiven Hts Hinst Hch.
  assert (check_type (k, kwargs_get given k default) = Raise (FieldError (MsgWrongValue k)))
    as Hbad.
  { unfold check_type, kwargs_get. rewrite Hgiven, Hts, Hinst. cbn [negb andb].
    destruct (is_None v) eqn:En; [|reflexivity].
    destruct (String.eqb k "choices") eqn:Ek; [|reflexivity].
    exfalso. apply String.eqb_eq in Ek. apply (Hch Ek).
    destruct v; try discriminate En. reflexivity. }
  unfold new. rewrite Hacc. unfold Field_init, validate_kwargs. simpl cls.
  destruct (for_each (check_required c (bind_arguments c given)) (required_kwargs c))
    as [[]|e1] eqn:Hreq; cbn [bind].
  - right.
    destruct (for_each check_type (bind_arguments c given)) as [[]|e2] eqn:Hty; cbn [bind].
    + exfalso. apply for_each_ok in Hty. rewrite Forall_forall in Hty.
      pose proof (Hty _ (In_bind_arguments c given k default Hsig)) as H. congruence.
    + destruct (for_each_raise_inv _ _ _ Hty) as (kv & Hin & Hkv).
      pose proof (check_type_cases c given) as Hcases. rewrite Forall_forall in Hcases.
      destruct (Hcases kv Hin) as [H|[m H]]; [congruence|].
      destruct (check_type_raise _ _ Hkv) as [-> | ->]; [eexists; reflexivity | congruence].
  - left. destruct (for_each_raise_inv _ _ _ Hreq) as (kw & _ & Hkw).
    unfold check_required in Hkw.
    destruct (negb (truthy (kwargs_get (bind_arguments c given) kw VNone)));
      [|discriminate Hkw].
    injection Hkw as <-. eexists. reflexivity.
Qed.

Lemma new_wrong_type_witness :
  (exists kw, new IntegerField [("null", VInt 1)]
              = Raise (FieldError (MsgRequires (class_name IntegerField) kw)))
  \/ (exists k', new IntegerField [("null", VInt 1)] = Raise (FieldError (MsgWrongValue k'))).
Proof.
  apply (new_wrong_type IntegerField [("null", VInt 1)] "null" (VInt 1) (VBool false) [TBool]);
    (reflexivity || discriminate).
Defined.

(** *** The choices of a constructed descriptor *)

Lemma init_attr_choices_value (self self' : Field) (v : PyVal) :
  init_attr self ("choices", v) = Ok self' ->
  match v with
  | VNone => dict_get (dict self') "choices" = Some VNone
  | VDict m => dict_get (dict self') "choices" = Some (VDict m)
  | VTuple pairs | VList pairs =>
      exists m, dict_of_pairs [] pairs = Ok m
                /\ dict_get (dict self') "choices" = Some (VDict m)
  | VStr s => s = "" /\ dict_get (dict self') "choices" = Some (VDict [])
  | _ => False
  end.
Proof.
  unfold init_attr. replace (String.eqb "choices" "choices") with true by reflexivity.
  destruct v as [ | | | | | s | | l | l | m | ]; try discriminate.
  - intros [= <-]. rewrite dict_get_setattr. reflexivity.
  - destruct s; [|discriminate]. intros [= <-]. split; [reflexivity|].
    rewrite dict_get_setattr. reflexivity.
  - destruct (dict_of_pairs [] l) as [m|e]; [|discriminate]. cbn [bind].
    intros [= <-]. exists m. split; [reflexivity|]. rewrite dict_get_setattr. reflexivity.
  - destruct (dict_of_pairs [] l) as [m|e]; [|discriminate]. cbn [bind].
    intros [= <-]. exists m. split; [reflexivity|]. rewrite dict_get_setattr. reflexivity.
  - intros [= <-]. rewrite dict_get_setattr. reflexivity.
Qed.

Lemma init_attrs_choices_value (kwargs : list (string * PyVal)) :
  NoDup (map fst kwargs) ->
  forall self self' v,
    init_attrs self kwargs = Ok self' ->
    dict_get kwargs "choices" = Some v ->
    exists self0 self1,
      init_attr self0 ("choices", v) = Ok self1
      /\ dict_get (dict self') "choices" = dict_get (dict self1) "choices".
Proof.
  induction kwargs as [|[kw v0] kwargs IH]; intros Hnd self self' v H Hget;
    [discriminate Hget|].
  inversion Hnd as [|? ? Hnotin Hnd']; subst.
  change (init_attrs self ((kw, v0) :: kwargs))
    with (self1 <- init_attr self (kw, v0) ;; init_attrs self1 kwargs) in H.
  destruct (init_attr self (kw, v0)) as [self1|e] eqn:H1; cbn [bind] in H;
    [|discriminate H].
  cbn [dict_get] in Hget. destruct (String.eqb kw "choices") eqn:E.
  - apply String.eqb_eq in E. subst kw. injection Hget as <-.
    exists self, self1. split; [exact H1|].
    exact (init_attrs_choices _ Hnotin _ _ H).
  - exact (IH Hnd' _ _ _ H Hget).
Qed.

(** The attribute [choices] after the loop of [__init__]. *)
Lemma new_choices_value (c : FieldKind) (given : list (string * PyVal)) (d : Field) :
  new c given = Ok d ->
  dict_get (signature c) "choices" = Some VNone ->
  match kwargs_get given "choices" VNone with
  | VNone => getattr d "choices" = Ok VNone
  | VDict m => getattr d "choices" = Ok (VDict m)
  | VTuple pairs =>
      exists m, dict_of_pairs [] pairs = Ok m /\ getattr d "choices" = Ok (VDict m)
  | _ => False
  end.
Proof.
  intros Hnew Hsig.
  pose proof (new_keyword_type c given d "choices" VNone [TDict; TTuple]
                Hnew Hsig eq_refl) as Hty.
  unfold new in Hnew. destruct (accepted c given); [|discriminate Hnew].
  unfold Field_init in Hnew.
  destruct (validate_kwargs (mkField c []) (bind_arguments c given)) as [self|e];
    cbn [bind] in Hnew; [|discriminate Hnew].
  assert (dict_get (bind_arguments c given) "choices"
          = Some (kwargs_get given "choices" VNone)) as Hget.
  { unfold bind_arguments. rewrite dict_get_bind_arguments, Hsig. reflexivity. }
  destruct (init_attrs_choices_value _ (signature_NoDup c given) _ _ _ Hnew Hget)
    as (self0 & self1 & H1 & Heq).
  pose proof (init_attr_choices_value _ _ _ H1) as Hv.
  unfold getattr. rewrite Heq.
  destruct (kwargs_get given "choices" VNone) as [ | | | | | s | | l | l | m | ];
    try (destruct Hty as [Hty|[_ Hty]]; discriminate Hty); try contradiction.
  - rewrite Hv. reflexivity.
  - destruct Hv as (m & Hm & ->). exists m. split; [exact Hm | reflexivity].
  - rewrite Hv. reflexivity.
Qed.

Lemma dict_of_pairs_tuples (m acc : list (PyVal * PyVal)) :
  forallb (fun kv => hashable (fst kv)) m = true ->
  forallb (fun kv' => forallb (fun kv => negb (key_eq (fst kv') (fst kv))) m) acc = true ->
  distinct_keys m = true ->
  dict_of_pairs acc (map pair_tuple m) = Ok (acc ++ m)%list.
Proof.
  revert acc. induction m as [|[k v] m IH]; intros acc Hh Hacc Hd.
  - simpl. now rewrite List.app_nil_r.
  - cbn [forallb fst] in Hh. apply andb_true_iff in Hh as [Hk Hh].
    cbn [distinct_keys] in Hd. apply andb_true_iff in Hd as [Hfresh Hd].
    cbn [map dict_of_pairs pair_tuple unpack_pair fst snd bind]. rewrite Hk.
    rewrite dict_set_fresh.
    + rewrite IH; [now rewrite <- List.app_assoc | exact Hh | | exact Hd].
      rewrite forallb_app. apply andb_true_iff. split.
      * rewrite forallb_forall in *. intros kv' Hin.
        pose proof (Hacc kv' Hin) as H. cbn [forallb fst] in H.
        apply andb_true_iff in H as [_ H]. exact H.
      * cbn [forallb fst]. rewrite Hfresh. reflexivity.
    + rewrite forallb_forall in *. intros kv' Hin.
      pose proof (Hacc kv' Hin) as H. cbn [forallb fst] in H.
      apply andb_true_iff in H as [H _]. exact H.
Qed.

(** X4.  The choices of a constructed descriptor: [None] stays [None], a
    dictionary is kept, and a tuple of pairs becomes the dictionary that
    the pairs build; when the keys of the pairs are hashable and pairwise
    different, this is the dictionary of the pairs in their order. *)
Theorem new_choices (c : FieldKind) (given : list (string * PyVal)) (d : Field) :
  new c given = Ok d ->
  dict_get (signature c) "choices" = Some VNone ->
  (kwargs_get given "choices" VNone = VNone -> getattr d "choices" = Ok VNone)
  /\ (forall m, kwargs_get given "choices" VNone = VDict m ->
        getattr d "choices" = Ok (VDict m))
  /\ (forall pairs, kwargs_get given "choices" VNone = VTuple pairs ->
        exists m, dict_of_pairs [] pairs = Ok m /\ getattr d "choices" = Ok (VDict m))
  /\ (forall m, kwargs_get given "choices" VNone = VTuple (map pair_tuple m) ->
        forallb (fun kv => hashable (fst kv)) m = true ->
        distinct_keys m = true ->
        getattr d "choices" = Ok (VDict m)).
Proof.
  intros Hnew Hsig. pose proof (new_choices_value c given d Hnew Hsig) as H.
  repeat split.
  - intros E. rewrite E in H. exact H.
  - intros m E. rewrite E in H. exact H.
  - intros pairs E. rewrite E in H. exact H.
  - intros m E Hh Hd. rewrite E in H. destruct H as (m' & Hm' & Hg).
    rewrite (dict_of_pairs_tuples m [] Hh eq_refl Hd) in Hm'.
    injection Hm' as <-. exact Hg.
Qed.

Lemma new_choices_witness :
  exists d,
    new IntegerField [("choices", VTuple (map pair_tuple [(VInt 1, VStr "one");
                                                          (VInt 2, VStr "two")]))] = Ok d
    /\ getattr d "choices" = Ok (VDict [(VInt 1, VStr "one"); (VInt 2, VStr "two")]).
Proof.
  eexists. split; [reflexivity|].
  destruct (new_choices IntegerField
              [("choices", VTuple (map pair_tuple [(VInt 1, VStr "one");
                                                    (VInt 2, VStr "two")]))]
              _ eq_refl eq_refl) as (_ & _ & _ & H).
  exact (H [(VInt 1, VStr "one"); (VInt 2, VStr "two")] eq_refl eq_refl eq_refl).
Defined.

(** *** What [validate] accepts and how it refuses *)

Lemma Field_validate_steps (self : Field) (value : PyVal) :
  value <> VNone ->
  Field_validate self value
  = ((match dict_get (dict self) "choices" with
      | Some choices =>
          if negb (is_None choices) then
            ks <- keys choices ;;
            found <- py_in_keys value ks ;;
            if negb found then Raise (FieldError (MsgNotInChoices value)) else Ok tt
          else Ok tt
      | None => Ok tt
      end) ;;;
     if negb (isinstance value (internal_type (cls self)))
     then Raise (FieldError (MsgWrongDatatype value (class_name (cls self))))
     else Ok tt).
Proof.
  intros Hv. unfold Field_validate. destruct value; try reflexivity. congruence.
Qed.

Lemma Field_validate_with_choices (self : Field) (value : PyVal)
    (m : list (PyVal * PyVal)) :
  dict_get (dict self) "choices" = Some (VDict m) ->
  (Field_validate self value = Ok tt
   <-> hashable value = true
       /\ existsb (key_eq value) (map fst m) = true
       /\ isinstance value (internal_type (cls self)) = true).
Proof.
  intros Hm.
  assert (value = VNone -> isinstance value (internal_type (cls self)) = false) as HNone
    by (intros ->; apply isinstance_None_internal_type).
  split.
  - intros H. pose proof (Field_validate_isinstance _ _ H) as Hi.
    assert (value <> VNone) as Hv by (intros E; rewrite (HNone E) in Hi; discriminate).
    rewrite (Field_validate_steps _ _ Hv), Hm in H. cbn [is_None negb keys bind] in H.
    unfold py_in_keys in H. destruct (hashable value); [|discriminate H].
    cbn [bind] in H. destruct (existsb (key_eq value) (map fst m)); [|discriminate H].
    repeat split. exact Hi.
  - intros (Hh & Hin & Hi).
    assert (value <> VNone) as Hv by (intros E; rewrite (HNone E) in Hi; discriminate).
    rewrite (Field_validate_steps _ _ Hv), Hm. cbn [is_None negb keys bind].
    unfold py_in_keys. rewrite Hh. cbn [bind]. rewrite Hin, Hi. reflexivity.
Qed.

(** X5.  What the base validation accepts.  Without choices (absent or
    [None]) it accepts exactly the instances of the [internal_type] of the
    class; with a dictionary of choices it accepts exactly the hashable
    instances of the [internal_type] that equal one of the keys. *)
Theorem Field_validate_accepts (self : Field) (value : PyVal) :
  (dict_get (dict self) "choices" = None \/ dict_get (dict self) "choices" = Some VNone ->
   (Field_validate self value = Ok tt
    <-> isinstance value (internal_type (cls self)) = true))
  /\ (forall m, dict_get (dict self) "choices" = Some (VDict m) ->
      (Field_validate self value = Ok tt
       <-> hashable value = true
           /\ existsb (key_eq value) (map fst m) = true
           /\ isinstance value (internal_type (cls self)) = true)).
Proof.
  split.
  - intros Hch. split.
    + apply Field_validate_isinstance.
    + intros Hi.
      assert (value <> VNone) as Hv.
      { intros ->. rewrite isinstance_None_internal_type in Hi. discriminate Hi. }
      rewrite (Field_validate_steps _ _ Hv), Hi.
      destruct Hch as [-> | ->]; reflexivity.
  - intros m Hm. now apply Field_validate_with_choices.
Qed.

Lemma Field_validate_accepts_witness :
  (Field_validate (mkField IntegerField [("null", VBool false)]) (VInt 7) = Ok tt
   <-> isinstance (VInt 7) (internal_type IntegerField) = true)
  /\ (Field_validate (mkField CharField [("choices", VDict [(VStr "A", VStr "a")])]) (VStr "A")
      = Ok tt
      <-> hashable (VStr "A") = true
          /\ existsb (key_eq (VStr "A")) (map fst [(VStr "A", VStr "a")]) = true
          /\ isinstance (VStr "A") (internal_type CharField) = true).
Proof.
  split.
  - apply (proj1 (Field_validate_accepts (mkField IntegerField [("null", VBool false)])
                    (VInt 7))).
    left. reflexivity.
  - apply (proj2 (Field_validate_accepts
                    (mkField CharField [("choices", VDict [(VStr "A", VStr "a")])])
                    (VStr "A")) [(VStr "A", VStr "a")]).
    reflexivity.
Defined.

(** X6.  How the base validation refuses a value other than [None] when a
    dictionary of choices is set: a hashable value that equals no key is
    refused with the message of the choices, whatever its type; a value
    that cannot be hashed (a list, a dictionary) escapes as a [TypeError];
    a value among the keys but not of the [internal_type] is refused with
    the message of the wrong datatype. *)
Theorem Field_validate_refuses (self : Field) (value : PyVal) (m : list (PyVal * PyVal)) :
  value <> VNone ->
  dict_get (dict self) "choices" = Some (VDict m) ->
  (hashable value = true -> existsb (key_eq value) (map fst m) = false ->
   Field_validate self value = Raise (FieldError (MsgNotInChoices value)))
  /\ (hashable value = false -> Field_validate self value = Raise TypeError)
  /\ (hashable value = true -> existsb (key_eq value) (map fst m) = true ->
      isinstance value (internal_type (cls self)) = false ->
      Field_validate self value
      = Raise (FieldError (MsgWrongDatatype value (class_name (cls self))))).
Proof.
  intros Hv Hm. rewrite (Field_validate_steps _ _ Hv), Hm.
  cbn [is_None negb keys bind]. unfold py_in_keys. repeat split.
  - intros -> ->. reflexivity.
  - intros ->. reflexivity.
  - intros -> -> ->. reflexivity.
Qed.

Lemma Field_validate_refuses_witness :
  Field_validate (mkField CharField [("choices", VDict [(VStr "A", VStr "a")])]) (VInt 3)
  = Raise (FieldError (MsgNotInChoices (VInt 3)))
  /\ Field_validate (mkField JsonField [("choices", VDict [(VStr "A", VStr "a")])])
       (VList [VInt 1])
     = Raise TypeError.
Proof.
  split.
  - apply (proj1 (Field_validate_refuses
                    (mkField CharField [("choices", VDict [(VStr "A", VStr "a")])])
                    (VInt 3) [(VStr "A", VStr "a")] ltac:(discriminate) eq_refl));
      reflexivity.
  - apply (proj1 (proj2 (Field_validate_refuses
                    (mkField JsonField [("choices", VDict [(VStr "A", VStr "a")])])
                    (VList [VInt 1]) [(VStr "A", VStr "a")] ltac:(discriminate) eq_refl)));
      reflexivity.
Defined.

(** *** [sanitize_data] of [None] and of numbers *)

(** X7.  [sanitize_data(None)] never looks at the nullability.  The classes
    that keep or wrap the base method answer the token [NULL] (the date
    class and the character classes in quotes; the character classes after
    the length test, which the four characters of [NULL] fail when
    [max_length] is below 4), the boolean class answers [NULL], and the
    JSON class, which validates first, always raises. *)
Theorem sanitize_data_None (self : Field) :
  match cls self with
  | PkField | ManyToMany | BooleanField | IntegerField | DecimalField | ForeignKey =>
      sanitize_data self VNone = Ok (VStr "NULL")
  | DateField => sanitize_data self VNone = Ok (VStr "'NULL'")
  | CharField | EmailField =>
      forall L, dict_get (dict self) "max_length" = Some (VInt L) ->
        sanitize_data self VNone
        = if L <? 4 then Raise (FieldError (MsgTooLong (VInt L))) else Ok (VStr "'NULL'")
  | JsonField => is_ok (sanitize_data self VNone) = false
  end.
Proof.
  destruct (cls self) eqn:Hcls; unfold sanitize_data; rewrite Hcls; try reflexivity.
  - intros L HL. unfold CharField_sanitize_data, Field_sanitize_data.
    cbn [is_None bind]. rewrite (check_max_length_str _ _ _ HL).
    change (Z.of_nat (String.length "NULL")) with 4. destruct (L <? 4); reflexivity.
  - intros L HL. unfold CharField_sanitize_data, Field_sanitize_data.
    cbn [is_None bind]. rewrite (check_max_length_str _ _ _ HL).
    change (Z.of_nat (String.length "NULL")) with 4. destruct (L <? 4); reflexivity.
  - unfold JsonField_sanitize_data. pose proof (validate_None_fails self) as H.
    destruct (validate self VNone); [discriminate H | reflexivity].
Qed.

(** X8.  On an integer, a decimal or a foreign-key descriptor, an integer
    that passes [validate] is sanitized to its bare decimal text, from which
    the integer is read back; on a primary-key or many-to-many descriptor
    the value itself is returned, not a text. *)
Theorem sanitize_data_int (self : Field) (z : Z) :
  validate self (VInt z) = Ok tt ->
  match cls self with
  | IntegerField | DecimalField | ForeignKey =>
      sanitize_data self (VInt z) = Ok (VStr (str_of_Z z))
      /\ option_map Z.of_int (NilZero.int_of_string (str_of_Z z)) = Some z
  | PkField | ManyToMany => sanitize_data self (VInt z) = Ok (VInt z)
  | _ => True
  end.
Proof.
  intros Hval.
  assert (Field_sanitize_data self (VInt z) = Ok (VInt z)) as Hbase.
  { unfold Field_sanitize_data. cbn [is_None]. rewrite Hval. reflexivity. }
  assert (option_map Z.of_int (NilZero.int_of_string (str_of_Z z)) = Some z) as Hread.
  { unfold str_of_Z. rewrite NilZero.isi.
    - cbn [option_map]. f_equal. apply DecimalZ.of_to.
    - destruct z; simpl; try discriminate.
      intros [= H]. exact (DecimalPos.Unsigned.to_uint_nonnil _ H).
    - destruct z; simpl; try discriminate.
      intros [= H]. exact (DecimalPos.Unsigned.to_uint_nonnil _ H). }
  destruct (cls self) eqn:Hcls; try exact I; unfold sanitize_data; rewrite Hcls;
    try exact Hbase;
    (split; [|exact Hread]);
    unfold NumberField_sanitize_data, ForeignKey_sanitize_data; rewrite Hbase; reflexivity.
Qed.

Lemma sanitize_data_int_witness :
  sanitize_data (mkField IntegerField []) (VInt (-42)) = Ok (VStr (str_of_Z (-42)))
  /\ option_map Z.of_int (NilZero.int_of_string (str_of_Z (-42))) = Some (-42).
Proof.
  exact (sanitize_data_int (mkField IntegerField []) (-42) eq_refl).
Defined.

(** X9.  A boolean is an instance of [int]: an integer or foreign-key
    descriptor without choices accepts [True] and [False] and sanitizes
    them to the texts [True] and [False]. *)
Theorem sanitize_data_bool_as_int (self : Field) (b : bool) :
  cls self = IntegerField \/ cls self = ForeignKey ->
  dict_get (dict self) "choices" = None \/ dict_get (dict self) "choices" = Some VNone ->
  validate self (VBool b) = Ok tt
  /\ sanitize_data self (VBool b) = Ok (VStr (if b then "True" else "False")).
Proof.
  intros Hcls Hch.
  assert (validate self (VBool b) = Ok tt) as Hval.
  { assert (validate self (VBool b) = Field_validate self (VBool b)) as ->
      by (unfold validate; destruct Hcls as [-> | ->]; reflexivity).
    rewrite Field_validate_steps by discriminate.
    destruct Hcls as [-> | ->], Hch as [-> | ->]; reflexivity. }
  split; [exact Hval|].
  unfold sanitize_data.
  destruct Hcls as [Hc|Hc]; rewrite Hc;
    unfold NumberField_sanitize_data, ForeignKey_sanitize_data, Field_sanitize_data;
    cbn [is_None]; rewrite Hval; destruct b; reflexivity.
Qed.

Lemma sanitize_data_bool_as_int_witness :
  validate (mkField IntegerField []) (VBool true) = Ok tt
  /\ sanitize_data (mkField IntegerField []) (VBool true) = Ok (VStr "True").
Proof.
  apply (sanitize_data_bool_as_int (mkField IntegerField []) true);
    left; reflexivity.
Defined.

(** *** Many-to-many descriptors as they are constructed *)

Lemma new_absent (c : FieldKind) (given : list (string * PyVal)) (d : Field) (k : string) :
  new c given = Ok d ->
  dict_get (signature c) k = None ->
  k <> "field_type" -> k <> "choices" ->
  dict_get (dict d) k = None.
Proof.
  intros Hnew Hsig Hft Hch.
  assert (k <> "db_column") as Hdb by (intros ->; destruct c; discriminate Hsig).
  unfold new in Hnew. destruct (accepted c given); [|discriminate Hnew].
  unfold Field_init in Hnew.
  destruct (validate_kwargs (mkField c []) (bind_arguments c given)) as [self|e] eqn:Hv;
    cbn [bind] in Hnew; [|discriminate Hnew].
  destruct (init_attrs_get _ (signature_NoDup c given) _ _ Hnew) as [_ Hg].
  rewrite (Hg k Hch). unfold bind_arguments. rewrite dict_get_bind_arguments, Hsig.
  rewrite dict_get_setattr.
  destruct (String.eqb_spec "field_type" k) as [E|_]; [congruence|].
  destruct (validate_kwargs_inv _ _ _ Hv) as (_ & _ & [[_ ->]|(s & _ & _ & _ & _ & ->)]).
  - reflexivity.
  - rewrite dict_get_setattr.
    destruct (String.eqb_spec "db_column" k) as [E|_]; [congruence | reflexivity].
Qed.

Lemma format_from_name (kw : list (string * PyVal)) (name tail : string) :
  any_char is_brace name = false ->
  forall acc,
    format_from kw (Some acc) (name ++ String "}" tail)
    = (text <- format_field kw (acc ++ name) ;;
       rest <- format_from kw None tail ;; Ok (text ++ rest)).
Proof.
  induction name as [|c name IH]; intros Hb acc.
  - cbn [append]. rewrite format_from_field, append_empty_r. reflexivity.
  - cbn [any_char] in Hb. apply orb_false_iff in Hb as [Hc Hb].
    unfold is_brace in Hc. apply orb_false_iff in Hc as [_ Hc].
    cbn [append]. rewrite format_from_field, Hc, (IH Hb), append_assoc. reflexivity.
Qed.

(** The replacement field [{name}] of a keyword that is there. *)
Lemma format_from_keyword (kw : list (string * PyVal)) (name tail : string) (v : PyVal) :
  simple_name name = true ->
  dict_get kw name = Some v ->
  format_from kw None (String "{" (name ++ String "}" tail))
  = (text <- py_str v ;; rest <- format_from kw None tail ;; Ok (text ++ rest)).
Proof.
  unfold simple_name. rewrite !andb_true_iff, !negb_true_iff.
  intros [[Hb Hs] Hd] Hget.
  rewrite format_from_open. destruct name as [|c name]; [discriminate Hd|].
  cbn [append].
  assert (Ascii.eqb c "{" = false) as Ho.
  { cbn [any_char] in Hb. apply orb_false_iff in Hb as [Hc _].
    unfold is_brace in Hc. now apply orb_false_iff in Hc as [Hc _]. }
  rewrite Ho.
  change (String c (name ++ String "}" tail)) with (String c name ++ String "}" tail).
  rewrite (format_from_name _ _ _ Hb). cbn [append].
  unfold format_field. rewrite Hs, Hd, Hget. reflexivity.
Qed.

(** The replacement field [{name}] of a keyword that is missing. *)
Lemma format_from_missing (kw : list (string * PyVal)) (name tail : string) :
  simple_name name = true ->
  dict_get kw name = None ->
  format_from kw None (String "{" (name ++ String "}" tail)) = Raise (KeyError name).
Proof.
  unfold simple_name. rewrite !andb_true_iff, !negb_true_iff.
  intros [[Hb Hs] Hd] Hget.
  rewrite format_from_open. destruct name as [|c name]; [discriminate Hd|].
  cbn [append].
  assert (Ascii.eqb c "{" = false) as Ho.
  { cbn [any_char] in Hb. apply orb_false_iff in Hb as [Hc _].
    unfold is_brace in Hc. now apply orb_false_iff in Hc as [Hc _]. }
  rewrite Ho.
  change (String c (name ++ String "}" tail)) with (String c name ++ String "}" tail).
  rewrite (format_from_name _ _ _ Hb). cbn [append].
  unfold format_field. rewrite Hs, Hd, Hget. reflexivity.
Qed.

(** X10.  A many-to-many descriptor as its constructor leaves it has no
    [null] and no [own_model]: [validate(None)] escapes as an
    [AttributeError] and [creation_query] as a [KeyError]; once [own_model]
    is set to a string the fragment is the two references, to the own model
    and to the foreign key. *)
Theorem ManyToMany_as_constructed (given : list (string * PyVal)) (d : Field) :
  new ManyToMany given = Ok d ->
  validate d VNone = Raise (AttributeError "null")
  /\ creation_query d = Raise (KeyError "own_model")
  /\ exists fk,
       kwargs_get given "foreign_key" VNone = VStr fk
       /\ forall own,
            creation_query (setattr d "own_model" (VStr own))
            = Ok (String newline "        " ++ own ++ " INTEGER REFERENCES " ++ own
                  ++ " NOT NULL," ++ String newline "        " ++ fk
                  ++ " INTEGER REFERENCES " ++ fk ++ " NOT NULL"
                  ++ String newline "    ").
Proof.
  intros Hnew.
  destruct (new_inv _ _ _ Hnew) as (_ & _ & _ & _ & Hcls & _ & Hg).
  pose proof (new_absent _ _ _ "null" Hnew eq_refl ltac:(discriminate) ltac:(discriminate))
    as Hnull.
  pose proof (new_absent _ _ _ "own_model" Hnew eq_refl ltac:(discriminate)
                ltac:(discriminate)) as Hown.
  pose proof (Hg "foreign_key" VNone eq_refl ltac:(discriminate)) as Hfk.
  pose proof (new_keyword_type ManyToMany given d "foreign_key" VNone [TStr]
                Hnew eq_refl eq_refl) as [Hty|[Habs _]]; [|discriminate Habs].
  destruct (kwargs_get given "foreign_key" VNone) as [ | | | | | fk | | | | | ] eqn:Efk;
    try discriminate Hty.
  assert (creation_string ManyToMany
          = String newline "        "
            ++ String "{" ("own_model" ++ String "}"
                 (" INTEGER REFERENCES "
                  ++ String "{" ("own_model" ++ String "}"
                       ((" NOT NULL," ++ String newline "        ")
                        ++ String "{" ("foreign_key" ++ String "}"
                             (" INTEGER REFERENCES "
                              ++ String "{" ("foreign_key" ++ String "}"
                                   (" NOT NULL" ++ String newline "    ")))))))))
    as Htemplate by reflexivity.
  split; [|split].
  - unfold validate. rewrite Hcls. unfold ManyToMany_validate, Field_validate, getattr.
    rewrite Hnull. reflexivity.
  - unfold creation_query. rewrite Hcls.
    unfold ManyToMany_creation_query, str_format. rewrite Htemplate.
    rewrite format_plain_app by reflexivity.
    rewrite (format_from_missing _ "own_model" _ eq_refl Hown). reflexivity.
  - exists fk. split; [reflexivity|]. intros own.
    assert (dict_get (dict (setattr d "own_model" (VStr own))) "own_model"
            = Some (VStr own)) as Ho by (rewrite dict_get_setattr; reflexivity).
    assert (dict_get (dict (setattr d "own_model" (VStr own))) "foreign_key"
            = Some (VStr fk)) as Hf by (rewrite dict_get_setattr; exact Hfk).
    unfold creation_query. cbn [cls setattr]. rewrite Hcls.
    unfold ManyToMany_creation_query, str_format. rewrite Htemplate.
    fold (setattr d "own_model" (VStr own)).
    rewrite format_plain_app by reflexivity.
    rewrite (format_from_keyword _ "own_model" _ _ eq_refl Ho).
    rewrite format_plain_app by reflexivity.
    rewrite (format_from_keyword _ "own_model" _ _ eq_refl Ho).
    rewrite format_plain_app by reflexivity.
    rewrite (format_from_keyword _ "foreign_key" _ _ eq_refl Hf).
    rewrite format_plain_app by reflexivity.
    rewrite (format_from_keyword _ "foreign_key" _ _ eq_refl Hf).
    rewrite format_plain by reflexivity.
    cbn [bind py_str]. rewrite !append_assoc. reflexivity.
Qed.

Lemma ManyToMany_as_constructed_witness :
  exists d,
    new ManyToMany [("foreign_key", VStr "Organization")] = Ok d
    /\ validate d VNone = Raise (AttributeError "null")
    /\ creation_query d = Raise (KeyError "own_model").
Proof.
  eexists. split; [reflexivity|].
  destruct (ManyToMany_as_constructed [("foreign_key", VStr "Organization")] _ eq_refl)
    as (H1 & H2 & _).
  split; [exact H1 | exact H2].
Defined.

(** *** The fragment of a constructed descriptor, part by part *)

Lemma format_varchar (kw : list (string * PyVal)) (v : PyVal) (n : string) :
  dict_get kw "max_length" = Some v -> py_str v = Ok n ->
  str_format "varchar({max_length})" kw = Ok ("varchar(" ++ n ++ ")").
Proof.
  intros Hv Hn. unfold str_format.
  change "varchar({max_length})"
    with ("varchar(" ++ String "{" ("max_length" ++ String "}" ")")).
  rewrite format_plain_app by reflexivity.
  rewrite (format_from_keyword _ "max_length" _ _ eq_refl Hv), Hn. reflexivity.
Qed.

Lemma format_decimal (kw : list (string * PyVal)) (v w : PyVal) (m p : string) :
  dict_get kw "max_digits" = Some v -> py_str v = Ok m ->
  dict_get kw "decimal_places" = Some w -> py_str w = Ok p ->
  str_format "decimal({max_digits},{decimal_places})" kw
  = Ok ("decimal(" ++ m ++ "," ++ p ++ ")").
Proof.
  intros Hv Hm Hw Hp. unfold str_format.
  change "decimal({max_digits},{decimal_places})"
    with ("decimal(" ++ String "{" ("max_digits" ++ String "}"
            ("," ++ String "{" ("decimal_places" ++ String "}" ")")))).
  rewrite format_plain_app by reflexivity.
  rewrite (format_from_keyword _ "max_digits" _ _ eq_refl Hv), Hm.
  rewrite format_plain_app by reflexivity.
  rewrite (format_from_keyword _ "decimal_places" _ _ eq_refl Hw), Hp.
  reflexivity.
Qed.

Lemma format_references (kw : list (string * PyVal)) (v : PyVal) (f : string) :
  dict_get kw "foreign_key" = Some v -> py_str v = Ok f ->
  str_format "integer references {foreign_key}" kw = Ok ("integer references " ++ f).
Proof.
  intros Hv Hf. unfold str_format.
  change "integer references {foreign_key}"
    with ("integer references " ++ String "{" ("foreign_key" ++ String "}" "")).
  rewrite format_plain_app by reflexivity.
  rewrite (format_from_keyword _ "foreign_key" _ _ eq_refl Hv), Hf.
  cbn [format_from bind]. now rewrite append_empty_r.
Qed.

Lemma py_str_int (v : PyVal) : isinstance v [TInt] = true -> exists n, py_str v = Ok n.
Proof. destruct v as [ | [|] | | | | | | | | | ]; try discriminate; eexists; reflexivity. Qed.

Lemma py_str_str (v : PyVal) : isinstance v [TStr] = true -> exists s, v = VStr s.
Proof. destruct v; try discriminate. eexists; reflexivity. Qed.

(** The type of the column formats, and to the text [type_text] names. *)
Lemma type_text_format (c : FieldKind) (given : list (string * PyVal)) (d : Field) :
  new c given = Ok d -> c <> ManyToMany ->
  exists ty, type_text c given = Ok ty /\ str_format (creation_string c) (dict d) = Ok ty.
Proof.
  intros Hnew Hmm.
  destruct (new_inv _ _ _ Hnew) as (_ & _ & _ & _ & _ & _ & Hg).
  destruct c; try contradiction;
    try (eexists; split; [reflexivity | apply format_plain; reflexivity]).
  - pose proof (Hg "max_length" (VInt 0) eq_refl ltac:(discriminate)) as Hv.
    destruct (new_keyword_type _ _ _ "max_length" (VInt 0) [TInt] Hnew eq_refl eq_refl)
      as [Hty|[Habs _]]; [|discriminate Habs].
    destruct (py_str_int _ Hty) as [n Hn]. exists ("varchar(" ++ n ++ ")").
    split; [unfold type_text; rewrite Hn; reflexivity | exact (format_varchar _ _ _ Hv Hn)].
  - pose proof (Hg "max_length" (VInt 0) eq_refl ltac:(discriminate)) as Hv.
    destruct (new_keyword_type _ _ _ "max_length" (VInt 0) [TInt] Hnew eq_refl eq_refl)
      as [Hty|[Habs _]]; [|discriminate Habs].
    destruct (py_str_int _ Hty) as [n Hn]. exists ("varchar(" ++ n ++ ")").
    split; [unfold type_text; rewrite Hn; reflexivity | exact (format_varchar _ _ _ Hv Hn)].
  - pose proof (Hg "max_length" (VInt 0) eq_refl ltac:(discriminate)) as Hv.
    destruct (new_keyword_type _ _ _ "max_length" (VInt 0) [TInt] Hnew eq_refl eq_refl)
      as [Hty|[Habs _]]; [|discriminate Habs].
    destruct (py_str_int _ Hty) as [n Hn]. exists ("varchar(" ++ n ++ ")").
    split; [unfold type_text; rewrite Hn; reflexivity | exact (format_varchar _ _ _ Hv Hn)].
  - pose proof (Hg "max_digits" (VInt 10) eq_refl ltac:(discriminate)) as Hv.
    pose proof (Hg "decimal_places" (VInt 2) eq_refl ltac:(discriminate)) as Hw.
    destruct (new_keyword_type _ _ _ "max_digits" (VInt 10) [TInt] Hnew eq_refl eq_refl)
      as [Hty|[Habs _]]; [|discriminate Habs].
    destruct (new_keyword_type _ _ _ "decimal_places" (VInt 2) [TInt] Hnew eq_refl eq_refl)
      as [Hty'|[Habs _]]; [|discriminate Habs].
    destruct (py_str_int _ Hty) as [m Hm]. destruct (py_str_int _ Hty') as [p Hp].
    exists ("decimal(" ++ m ++ "," ++ p ++ ")").
    split; [unfold type_text; rewrite Hm, Hp; reflexivity
           | exact (format_decimal _ _ _ _ _ Hv Hm Hw Hp)].
  - pose proof (Hg "foreign_key" (VStr "") eq_refl ltac:(discriminate)) as Hv.
    destruct (new_keyword_type _ _ _ "foreign_key" (VStr "") [TStr] Hnew eq_refl eq_refl)
      as [Hty|[Habs _]]; [|discriminate Habs].
    destruct (py_str_str _ Hty) as [f Hf]. exists ("integer references " ++ f).
    split; [unfold type_text; rewrite Hf; reflexivity|].
    apply (format_references _ _ _ Hv). rewrite Hf. reflexivity.
Qed.

Lemma plain_null_text (null : PyVal) : plain (null_text null) = true.
Proof. unfold null_text. destruct (truthy null); reflexivity. Qed.

Lemma plain_unique_text (unique : PyVal) : plain (unique_text unique) = true.
Proof. unfold unique_text. destruct (truthy unique); reflexivity. Qed.

(** The fragment of a class with a [default] parameter: column, type and
    nullness, then the clause and the uniqueness. *)
Lemma creation_query_parts (c : FieldKind) (given : list (string * PyVal)) (d : Field) :
  new c given = Ok d -> c <> PkField -> c <> ManyToMany ->
  exists col ty,
    kwargs_get given "db_column" (VStr "") = VStr col
    /\ type_text c given = Ok ty
    /\ creation_query d
       = (clause <- (if negb (is_None (kwargs_get given "default" VNone))
                     then default_clause d (kwargs_get given "default" VNone)
                     else auto_now_clause d (match c with DateField => true | _ => false end)) ;;
          tail <- format_from (dict d) None
                    (clause ++ unique_text (kwargs_get given "unique" (VBool false))) ;;
          Ok (col ++ " " ++ ty ++ null_text (kwargs_get given "null" (VBool false)) ++ tail)).
Proof.
  intros Hnew Hpk Hmm.
  destruct (creation_query_new _ _ _ Hnew Hpk Hmm) as (col & Hcol & Hq).
  destruct (type_text_format _ _ _ Hnew Hmm) as (ty & Hty & Hfmt).
  exists col, ty. split; [exact Hcol|]. split; [exact Hty|].
  rewrite Hq.
  match goal with
  | |- bind ?x _ = bind ?y _ => change y with x; destruct x as [clause|e]
  end; [|reflexivity].
  cbn [bind]. unfold str_format in Hfmt.
  rewrite (format_from_app_bounded _ _ _ _ None ty (le_n _) Hfmt).
  rewrite format_plain_app by apply plain_null_text.
  destruct (format_from (dict d) None
              (clause ++ unique_text (kwargs_get given "unique" (VBool false))));
    reflexivity.
Qed.

Lemma FieldKind_eq_PkField (c : FieldKind) : c = PkField \/ c <> PkField.
Proof. destruct c; (now left) || (right; discriminate). Qed.

Lemma creation_query_pk (given : list (string * PyVal)) (d : Field) :
  new PkField given = Ok d ->
  exists col,
    dict_get (dict d) "db_column" = Some (VStr col)
    /\ creation_query d
       = Ok (col ++ " " ++ "serial primary key"
                 ++ null_text (kwargs_get given "null" (VBool false))
                 ++ unique_text (kwargs_get given "unique" (VBool false))).
Proof.
  intros Hnew.
  destruct (new_inv _ _ _ Hnew) as (_ & _ & _ & (col & Hcol & _) & Hcls & Hft & Hg).
  pose proof (Hg "db_column" (VStr "id") eq_refl ltac:(discriminate)) as G1.
  pose proof (Hg "null" (VBool false) eq_refl ltac:(discriminate)) as G3.
  pose proof (Hg "unique" (VBool false) eq_refl ltac:(discriminate)) as G4.
  pose proof (new_absent _ _ _ "default" Hnew eq_refl ltac:(discriminate)
                ltac:(discriminate)) as G2.
  rewrite (kwargs_get_bind_arguments PkField given "db_column" (VStr "id") _ eq_refl)
    in Hcol.
  rewrite Hcol in G1. exists col. split; [exact G1|].
  unfold creation_query. rewrite Hcls. unfold Field_creation_query, getattr.
  rewrite Hft, G2, G3, G4. cbn [bind]. rewrite Hcls.
  replace (existsb (key_eq (VStr (class_name PkField))) (map VStr DATE_FIELDS))
    with false by reflexivity.
  unfold auto_now_clause. cbn [bind creation_string].
  rewrite (format_db_column _ _ _ G1).
  rewrite format_plain.
  - reflexivity.
  - rewrite !plain_app. fold (null_text (kwargs_get given "null" (VBool false))).
    fold (unique_text (kwargs_get given "unique" (VBool false))).
    rewrite plain_null_text, plain_unique_text. reflexivity.
Qed.

(** X11.  The fragment of a descriptor constructed without a default (and,
    for a date, without [auto_now]), for every class but the many-to-many
    one: the column name, a space, the type of the class with its
    parameters filled in, [NULL] or [NOT NULL], and [UNIQUE] when the
    descriptor is unique. *)
Theorem creation_query_without_default (c : FieldKind) (given : list (string * PyVal))
    (d : Field) :
  new c given = Ok d ->
  c <> ManyToMany ->
  kwargs_get given "default" VNone = VNone ->
  (c = DateField -> truthy (kwargs_get given "auto_now" (VBool false)) = false) ->
  exists col ty,
    getattr d "db_column" = Ok (VStr col)
    /\ type_text c given = Ok ty
    /\ creation_query d
       = Ok (col ++ " " ++ ty
                 ++ null_text (kwargs_get given "null" (VBool false))
                 ++ unique_text (kwargs_get given "unique" (VBool false))).
Proof.
  intros Hnew Hmm Hdef Hauto.
  destruct (new_inv _ _ _ Hnew) as (_ & _ & _ & _ & _ & _ & Hg).
  destruct (FieldKind_eq_PkField c) as [->|Hpk].
  - destruct (creation_query_pk _ _ Hnew) as (col & Hcol & Hq).
    exists col, "serial primary key". unfold getattr. rewrite Hcol.
    split; [reflexivity|]. split; [reflexivity | exact Hq].
  - destruct (creation_query_parts _ _ _ Hnew Hpk Hmm) as (col & ty & Hcol & Hty & Hq).
    exists col, ty. split; [|split; [exact Hty|]].
    + assert (dict_get (signature c) "db_column" = Some (VStr "")) as Hs
        by (destruct c; try reflexivity; contradiction).
      unfold getattr. rewrite (Hg _ _ Hs) by discriminate. rewrite Hcol. reflexivity.
    + rewrite Hq, Hdef. cbn [is_None negb].
      assert (auto_now_clause d (match c with DateField => true | _ => false end) = Ok "")
        as ->.
      { destruct c; try reflexivity. unfold auto_now_clause, getattr.
        rewrite (Hg "auto_now" (VBool false) eq_refl) by discriminate.
        cbn [bind]. rewrite (Hauto eq_refl). reflexivity. }
      cbn [bind append]. rewrite format_plain by apply plain_unique_text. reflexivity.
Qed.

Lemma creation_query_without_default_witness :
  exists d,
    new ForeignKey [("foreign_key", VStr "users"); ("null", VBool true)] = Ok d
    /\ creation_query d = Ok " integer references users NULL"
    /\ exists d',
         new CharField [("db_column", VStr "name"); ("max_length", VInt 5);
                        ("unique", VBool true)] = Ok d'
         /\ creation_query d' = Ok "name varchar(5) NOT NULL UNIQUE".
Proof.
  eexists. split; [reflexivity|]. split.
  - destruct (creation_query_without_default ForeignKey
                [("foreign_key", VStr "users"); ("null", VBool true)] _
                eq_refl ltac:(discriminate) eq_refl ltac:(discriminate))
      as (col & ty & Hcol & Hty & Hq).
    injection Hcol as <-. injection Hty as <-. exact Hq.
  - eexists. split; [reflexivity|].
    destruct (creation_query_without_default CharField
                [("db_column", VStr "name"); ("max_length", VInt 5);
                 ("unique", VBool true)] _
                eq_refl ltac:(discriminate) eq_refl ltac:(discriminate))
      as (col & ty & Hcol & Hty & Hq).
    injection Hcol as <-. injection Hty as <-. exact Hq.
Defined.

Lemma default_clause_value (d : Field) (default : PyVal) :
  default_clause d default
  = (v <- default_value default ;;
     literal <- (if isinstance v [TStr] then quoted v
                 else if isinstance v [TBool] then py_str v
                 else sanitized <- sanitize_data d v ;; quoted sanitized) ;;
     Ok (" DEFAULT " ++ literal)).
Proof. reflexivity. Qed.

(** X12.  A default that is, or when called returns, a string is written
    between quotes as it is, for every class with a default and without any
    validation against the class; one that is or returns a boolean is
    written [True] or [False] without quotes. *)
Theorem creation_query_literal_default (c : FieldKind) (given : list (string * PyVal))
    (d : Field) :
  new c given = Ok d ->
  c <> PkField -> c <> ManyToMany ->
  kwargs_get given "default" VNone <> VNone ->
  exists col ty,
    getattr d "db_column" = Ok (VStr col)
    /\ type_text c given = Ok ty
    /\ (forall s, default_value (kwargs_get given "default" VNone) = Ok (VStr s) ->
          plain s = true ->
          creation_query d
          = Ok (col ++ " " ++ ty
                    ++ null_text (kwargs_get given "null" (VBool false))
                    ++ " DEFAULT '" ++ s ++ "'"
                    ++ unique_text (kwargs_get given "unique" (VBool false))))
    /\ (forall b, default_value (kwargs_get given "default" VNone) = Ok (VBool b) ->
          creation_query d
          = Ok (col ++ " " ++ ty
                    ++ null_text (kwargs_get given "null" (VBool false))
                    ++ " DEFAULT " ++ (if b then "True" else "False")
                    ++ unique_text (kwargs_get given "unique" (VBool false)))).
Proof.
  intros Hnew Hpk Hmm Hdef.
  destruct (new_inv _ _ _ Hnew) as (_ & _ & _ & _ & _ & _ & Hg).
  destruct (creation_query_parts _ _ _ Hnew Hpk Hmm) as (col & ty & Hcol & Hty & Hq).
  exists col, ty. split; [|split; [exact Hty|]].
  - assert (dict_get (signature c) "db_column" = Some (VStr "")) as Hs
      by (destruct c; try reflexivity; contradiction).
    unfold getattr. rewrite (Hg _ _ Hs) by discriminate. rewrite Hcol. reflexivity.
  - assert (is_None (kwargs_get given "default" VNone) = false) as HN
      by (destruct (kwargs_get given "default" VNone); try reflexivity; contradiction).
    rewrite Hq, HN. cbn [negb]. rewrite default_clause_value. split.
    + intros s Hs Hplain. rewrite Hs. cbn [bind isinstance existsb instance_of orb quoted py_str].
      rewrite format_plain
        by (rewrite !plain_app, Hplain, plain_unique_text; reflexivity).
      cbn [bind]. rewrite !append_assoc. reflexivity.
    + intros b Hb. rewrite Hb. destruct b;
        cbn [bind isinstance existsb instance_of orb py_str];
        (rewrite format_plain by (rewrite !plain_app, plain_unique_text; reflexivity));
        cbn [bind]; rewrite !append_assoc; reflexivity.
Qed.

Lemma creation_query_literal_default_witness :
  exists d,
    new IntegerField [("db_column", VStr "age"); ("default", VStr "abc")] = Ok d
    /\ creation_query d = Ok "age integer NOT NULL DEFAULT 'abc'".
Proof.
  eexists. split; [reflexivity|].
  destruct (creation_query_literal_default IntegerField
              [("db_column", VStr "age"); ("default", VStr "abc")] _
              eq_refl ltac:(discriminate) ltac:(discriminate) ltac:(discriminate))
    as (col & ty & Hcol & Hty & Hs & _).
  injection Hcol as <-. injection Hty as <-. exact (Hs "abc" eq_refl eq_refl).
Defined.

(** X13.  A default that is (or returns) neither a string nor a boolean is
    sanitized by the descriptor itself: an error of [sanitize_data], a
    validation error included, is the error of [creation_query]; a text it
    returns is put between quotes once more. *)
Theorem creation_query_sanitized_default (c : FieldKind) (given : list (string * PyVal))
    (d : Field) (v : PyVal) :
  new c given = Ok d ->
  c <> PkField -> c <> ManyToMany ->
  kwargs_get given "default" VNone <> VNone ->
  default_value (kwargs_get given "default" VNone) = Ok v ->
  isinstance v [TStr] = false -> isinstance v [TBool] = false ->
  (forall e, sanitize_data d v = Raise e -> creation_query d = Raise e)
  /\ exists col ty,
       getattr d "db_column" = Ok (VStr col)
       /\ type_text c given = Ok ty
       /\ forall t, sanitize_data d v = Ok (VStr t) -> plain t = true ->
            creation_query d
            = Ok (col ++ " " ++ ty
                      ++ null_text (kwargs_get given "null" (VBool false))
                      ++ " DEFAULT '" ++ t ++ "'"
                      ++ unique_text (kwargs_get given "unique" (VBool false))).
Proof.
  intros Hnew Hpk Hmm Hdef Hv Hstr Hbool.
  destruct (new_inv _ _ _ Hnew) as (_ & _ & _ & _ & _ & _ & Hg).
  destruct (creation_query_parts _ _ _ Hnew Hpk Hmm) as (col & ty & Hcol & Hty & Hq).
  assert (is_None (kwargs_get given "default" VNone) = false) as HN
    by (destruct (kwargs_get given "default" VNone); try reflexivity; contradiction).
  rewrite HN in Hq. cbn [negb] in Hq.
  rewrite default_clause_value, Hv in Hq. cbn [bind] in Hq. rewrite Hstr, Hbool in Hq.
  split.
  - intros e He. rewrite Hq, He. reflexivity.
  - exists col, ty. split; [|split; [exact Hty|]].
    + assert (dict_get (signature c) "db_column" = Some (VStr "")) as Hs
        by (destruct c; try reflexivity; contradiction).
      unfold getattr. rewrite (Hg _ _ Hs) by discriminate. rewrite Hcol. reflexivity.
    + intros t Ht Hplain. rewrite Hq, Ht. cbn [bind quoted py_str].
      rewrite format_plain
        by (rewrite !plain_app, Hplain, plain_unique_text; reflexivity).
      cbn [bind]. rewrite !append_assoc. reflexivity.
Qed.

Lemma creation_query_sanitized_default_witness :
  (exists d,
     new IntegerField [("default", VDatetime "2017-01-01 00:00:00")] = Ok d
     /\ creation_query d
        = Raise (FieldError (MsgWrongDatatype (VDatetime "2017-01-01 00:00:00")
                               "IntegerField")))
  /\ exists d,
       new DateField [("db_column", VStr "created");
                      ("default", VDatetime "2017-01-01 00:00:00")] = Ok d
       /\ creation_query d
          = Ok "created timestamp NOT NULL DEFAULT ''2017-01-01 00:00:00''".
Proof.
  split.
  - eexists. split; [reflexivity|].
    apply (proj1 (creation_query_sanitized_default IntegerField
                    [("default", VDatetime "2017-01-01 00:00:00")] _
                    (VDatetime "2017-01-01 00:00:00")
                    eq_refl ltac:(discriminate) ltac:(discriminate) ltac:(discriminate)
                    eq_refl eq_refl eq_refl)).
    reflexivity.
  - eexists. split; [reflexivity|].
    destruct (proj2 (creation_query_sanitized_default DateField
                       [("db_column", VStr "created");
                        ("default", VDatetime "2017-01-01 00:00:00")] _
                       (VDatetime "2017-01-01 00:00:00")
                       eq_refl ltac:(discriminate) ltac:(discriminate) ltac:(discriminate)
                       eq_refl eq_refl eq_refl))
      as (col & ty & Hcol & Hty & Ht).
    injection Hcol as <-. injection Hty as <-.
    exact (Ht "'2017-01-01 00:00:00'" eq_refl eq_refl).
Defined.

(** *** E-mail addresses *)

Lemma split_at_spec (c : ascii) (s l r : string) :
  split_at c s = Some (l, r) ->
  s = l ++ String c r /\ all_chars (fun a => negb (Ascii.eqb a c)) l = true.
Proof.
  revert l. induction s as [|a s IH]; intros l; [discriminate|]. simpl.
  destruct (Ascii.eqb_spec a c) as [->|Hne].
  - intros [= <- <-]. split; reflexivity.
  - destruct (split_at c s) as [[l' r']|]; [|discriminate].
    intros [= <- <-]. destruct (IH l' eq_refl) as [-> Hall]. split; [reflexivity|].
    simpl. rewrite Hall. destruct (Ascii.eqb_spec a c); [contradiction | reflexivity].
Qed.

Lemma split_at_app (c : ascii) (l r : string) :
  all_chars (fun a => negb (Ascii.eqb a c)) l = true ->
  split_at c (l ++ String c r) = Some (l, r).
Proof.
  induction l as [|a l IH]; simpl.
  - intros _. now rewrite Ascii.eqb_refl.
  - rewrite andb_true_iff, negb_true_iff. intros [-> H]. now rewrite (IH H).
Qed.

Lemma all_chars_impl (p q : ascii -> bool) (s : string) :
  (forall c, p c = true -> q c = true) -> all_chars p s = true -> all_chars q s = true.
Proof.
  intros Hpq. induction s as [|c s IH]; [reflexivity|]. simpl.
  rewrite !andb_true_iff. intros [Hc Hs]. split; [now apply Hpq | now apply IH].
Qed.

Lemma chomp_spec (s : string) :
  exists tail, s = chomp s ++ tail /\ (tail = "" \/ tail = String newline "").
Proof.
  induction s as [|a s IH]; [exists ""; split; [reflexivity | now left]|].
  destruct s as [|b s].
  - simpl. destruct (Ascii.eqb_spec a newline) as [->|_].
    + exists (String newline ""). split; [reflexivity | now right].
    + exists "". split; [reflexivity | now left].
  - destruct IH as (tail & Hs & Htail). exists tail. split; [|exact Htail].
    change (chomp (String a (String b s))) with (String a (chomp (String b s))).
    cbn [append]. now rewrite <- Hs.
Qed.

Lemma chomp_app (s tail : string) :
  s <> "" -> all_chars (fun a => negb (Ascii.eqb a newline)) s = true ->
  tail = "" \/ tail = String newline "" ->
  chomp (s ++ tail) = s.
Proof.
  intros Hne Hall Htail. induction s as [|a s IH]; [contradiction|].
  simpl in Hall. apply andb_true_iff in Hall as [Ha Hall]. apply negb_true_iff in Ha.
  destruct s as [|b s].
  - destruct Htail as [-> | ->]; simpl; rewrite ?Ha; reflexivity.
  - assert (chomp (String a (String b s) ++ tail)
            = String a (chomp (String b s ++ tail))) as -> by reflexivity.
    rewrite IH; [reflexivity | discriminate | exact Hall].
Qed.

Lemma nonempty_spec (s : string) : nonempty s = true <-> s <> "".
Proof.
  unfold nonempty. rewrite negb_true_iff. apply String.eqb_neq.
Qed.

Lemma local_char_not_at (c : ascii) :
  local_char c = true -> negb (Ascii.eqb c "@") = true.
Proof. destruct (Ascii.eqb_spec c "@") as [->|_]; [discriminate | reflexivity]. Qed.

Lemma word_char_not_at (c : ascii) :
  word_char c = true -> negb (Ascii.eqb c "@") = true.
Proof. destruct (Ascii.eqb_spec c "@") as [->|_]; [discriminate | reflexivity]. Qed.

Lemma host_char_not_dot (c : ascii) :
  host_char c = true -> negb (Ascii.eqb c ".") = true.
Proof. destruct (Ascii.eqb_spec c ".") as [->|_]; [discriminate | reflexivity]. Qed.

Lemma domain_char_not_newline (c : ascii) :
  domain_char c = true -> negb (Ascii.eqb c newline) = true.
Proof. destruct (Ascii.eqb_spec c newline) as [->|_]; [discriminate | reflexivity]. Qed.

(** The matcher accepts the strings of the shape of the expression and no
    others. *)
Lemma email_match_shape (value : string) : email_match value = true <-> email_shape value.
Proof.
  unfold email_match, email_shape. split.
  - destruct (split_at "@" value) as [[local0 rest]|] eqn:Hat; [|discriminate].
    destruct local0 as [|a local]; [discriminate|].
    destruct (split_at "." rest) as [[host domain0]|] eqn:Hdot;
      [|rewrite andb_false_r; discriminate].
    rewrite !andb_true_iff, !nonempty_spec.
    intros [[[Ha Hl] Hlc] [[[Hh Hhc] Hd] Hdc]].
    apply split_at_spec in Hat as [-> _]. apply split_at_spec in Hdot as [-> _].
    destruct (chomp_spec domain0) as (tail & Hdom & Htail).
    exists a, local, host, (chomp domain0), tail.
    rewrite <- Hdom. repeat split; assumption.
  - intros (a & local & host & domain & tail & -> & Ha & Hl & Hlc & Hh & Hhc & Hd & Hdc & Ht).
    change (String a local ++ "@" ++ host ++ "." ++ domain ++ tail)
      with (String a local ++ String "@" (host ++ String "." (domain ++ tail))).
    rewrite split_at_app.
    + rewrite split_at_app by (eapply all_chars_impl; [apply host_char_not_dot | exact Hhc]).
      rewrite (chomp_app domain tail Hd
                 (all_chars_impl _ _ _ domain_char_not_newline Hdc) Ht).
      rewrite Ha, Hlc, Hhc, Hdc.
      rewrite (proj2 (nonempty_spec local) Hl), (proj2 (nonempty_spec host) Hh),
        (proj2 (nonempty_spec domain) Hd).
      reflexivity.
    + simpl. rewrite (word_char_not_at _ Ha). simpl.
      eapply all_chars_impl; [apply local_char_not_at | exact Hlc].
Qed.

(** X14.  What the e-mail class accepts: the values the base validation
    accepts whose text is a word character, at least one more character
    among word characters, dot, plus and hyphen, an at sign, a host of word
    characters and hyphens, a dot, and a domain of word characters, hyphens
    and dots, with at most one newline behind; an address whose part before
    the at sign has a single character is refused. *)
Theorem EmailField_validate_accepts (self : Field) (value : PyVal) :
  cls self = EmailField ->
  (validate self value = Ok tt
   <-> Field_validate self value = Ok tt
       /\ exists s, value = VStr s /\ email_shape s)
  /\ (forall a rest,
        Field_validate self (VStr (String a (String "@" rest))) = Ok tt ->
        validate self (VStr (String a (String "@" rest)))
        = Raise (FieldError (MsgNotEmail (VStr (String a (String "@" rest)))))).
Proof.
  intros Hcls. unfold validate. rewrite Hcls. unfold EmailField_validate. split.
  - split.
    + destruct (Field_validate self value) as [[]|e]; [|discriminate]. cbn [bind].
      destruct value; try discriminate.
      destruct (email_match s) eqn:E; [|discriminate].
      intros _. split; [reflexivity|]. exists s. split; [reflexivity|].
      now apply email_match_shape.
    + intros [-> (s & -> & Hs)]. cbn [bind].
      apply email_match_shape in Hs. rewrite Hs. reflexivity.
  - intros a rest ->. cbn [bind].
    replace (email_match (String a (String "@" rest))) with false; [reflexivity|].
    unfold email_match. simpl.
    destruct (Ascii.eqb a "@"); [reflexivity|].
    rewrite andb_false_r. reflexivity.
Qed.

Lemma EmailField_validate_accepts_witness :
  (validate (mkField EmailField []) (VStr "jo@example.org") = Ok tt
   <-> Field_validate (mkField EmailField []) (VStr "jo@example.org") = Ok tt
       /\ exists s, VStr "jo@example.org" = VStr s /\ email_shape s)
  /\ validate (mkField EmailField []) (VStr "j@example.org")
     = Raise (FieldError (MsgNotEmail (VStr "j@example.org"))).
Proof.
  split.
  - exact (proj1 (EmailField_validate_accepts (mkField EmailField [])
                    (VStr "jo@example.org") eq_refl)).
  - exact (proj2 (EmailField_validate_accepts (mkField EmailField [])
                    (VStr "jo@example.org") eq_refl) "j"%char "example.org" eq_refl).
Defined.

(** *** JSON fields: a structure and its text *)

(** X15.  On a JSON descriptor without choices, a JSON-native list or
    dictionary and the text [json.dumps] writes for it are sanitized to the
    same result: the text is parsed back to the structure and encoded to
    itself. *)
Theorem JsonField_text_or_structure (self : Field) (v : PyVal) :
  cls self = JsonField ->
  dict_get (dict self) "choices" = None \/ dict_get (dict self) "choices" = Some VNone ->
  json_native v = true ->
  isinstance v [TDict; TList] = true ->
  exists t,
    json.dumps v = Ok t
    /\ json_text (VStr t) = Ok (VStr t)
    /\ sanitize_data self (VStr t) = sanitize_data self v.
Proof.
  intros Hcls Hch Hnat Hty. destruct (loads_dumps v Hnat) as (t & Hd & Hl).
  exists t. split; [exact Hd|].
  assert (is_not_NULL (VStr t) = true) as Hnn.
  { destruct v; try discriminate Hty.
    - rewrite dumps_list in Hd. destruct (json.dumps_items l); [|discriminate Hd].
      injection Hd as <-. reflexivity.
    - rewrite dumps_dict in Hd. destruct (json.dumps_pairs d); [|discriminate Hd].
      injection Hd as <-. reflexivity. }
  assert (json_text (VStr t) = Ok (VStr t)) as Htext.
  { unfold json_text. rewrite Hnn, Hl. cbn [bind]. rewrite Hd. reflexivity. }
  assert (json_text v = Ok (VStr t)) as Htext'.
  { unfold json_text. destruct v; try discriminate Hty; cbn [is_not_NULL bind];
      rewrite Hd; reflexivity. }
  split; [exact Htext|].
  assert (forall x, isinstance x [TDict; TList; TStr] = true -> x <> VNone ->
                    validate self x = Ok tt) as Hval.
  { intros x Hx Hn. unfold validate. rewrite Hcls.
    rewrite (Field_validate_steps _ _ Hn), Hcls. cbn [internal_type]. rewrite Hx.
    destruct Hch as [-> | ->]; reflexivity. }
  unfold sanitize_data. rewrite Hcls. unfold JsonField_sanitize_data.
  rewrite (Hval (VStr t) eq_refl ltac:(discriminate)).
  rewrite (Hval v) by (destruct v; try discriminate Hty; (reflexivity || discriminate)).
  rewrite Htext, Htext'. reflexivity.
Qed.

Lemma JsonField_text_or_structure_witness :
  exists t,
    json.dumps (VList [VInt 1; VStr "a"]) = Ok t
    /\ json_text (VStr t) = Ok (VStr t)
    /\ sanitize_data (mkField JsonField [("max_length", VInt 20)]) (VStr t)
       = sanitize_data (mkField JsonField [("max_length", VInt 20)])
           (VList [VInt 1; VStr "a"]).
Proof.
  apply JsonField_text_or_structure; (reflexivity || (left; reflexivity)).
Defined.

(** *** Choices from the construction to the validation *)

(** X16.  A descriptor constructed with choices, given as a dictionary or
    as a tuple of pairs with hashable, pairwise different keys, accepts
    exactly the hashable instances of its [internal_type] that equal one of
    the keys (the e-mail class tests the address on top of that). *)
Theorem validate_constructed_choices (c : FieldKind) (given : list (string * PyVal))
    (d : Field) (m : list (PyVal * PyVal)) (value : PyVal) :
  new c given = Ok d ->
  dict_get (signature c) "choices" = Some VNone ->
  c <> EmailField ->
  kwargs_get given "choices" VNone = VDict m
  \/ (kwargs_get given "choices" VNone = VTuple (map pair_tuple m)
      /\ forallb (fun kv => hashable (fst kv)) m = true
      /\ distinct_keys m = true) ->
  (validate d value = Ok tt
   <-> hashable value = true
       /\ existsb (key_eq value) (map fst m) = true
       /\ isinstance value (internal_type c) = true).
Proof.
  intros Hnew Hsig Hmail Hgiven.
  destruct (new_inv _ _ _ Hnew) as (_ & _ & _ & _ & Hcls & _).
  assert (dict_get (dict d) "choices" = Some (VDict m)) as Hm.
  { pose proof (new_choices_value c given d Hnew Hsig) as H. unfold getattr in H.
    destruct Hgiven as [E|(E & Hh & Hd)]; rewrite E in H.
    - destruct (dict_get (dict d) "choices"); [injection H as ->; reflexivity | discriminate H].
    - destruct H as (m' & Hm' & H).
      rewrite (dict_of_pairs_tuples m [] Hh eq_refl Hd) in Hm'. injection Hm' as <-.
      destruct (dict_get (dict d) "choices"); [injection H as ->; reflexivity | discriminate H]. }
  assert (validate d value = Field_validate d value) as ->.
  { unfold validate. rewrite Hcls. destruct c; try reflexivity; try contradiction.
    discriminate Hsig. }
  rewrite <- Hcls. now apply Field_validate_with_choices.
Qed.

Lemma validate_constructed_choices_witness :
  exists d,
    new CharField [("max_length", VInt 1);
                   ("choices", VTuple (map pair_tuple [(VStr "A", VStr "a");
                                                        (VStr "B", VStr "b")]))] = Ok d
    /\ validate d (VStr "A") = Ok tt
    /\ validate d (VStr "C") <> Ok tt.
Proof.
  eexists. split; [reflexivity|].
  pose proof (fun value =>
    validate_constructed_choices CharField
      [("max_length", VInt 1);
       ("choices", VTuple (map pair_tuple [(VStr "A", VStr "a"); (VStr "B", VStr "b")]))]
      _ [(VStr "A", VStr "a"); (VStr "B", VStr "b")] value
      eq_refl eq_refl ltac:(discriminate)
      (or_intror (conj eq_refl (conj eq_refl eq_refl)))) as H.
  split.
  - apply (H (VStr "A")). repeat split.
  - intros E. apply (H (VStr "C")) in E. destruct E as (_ & E & _). discriminate E.
Defined.

Lemma sanitize_data_None_witness :
  sanitize_data (mkField CharField [("max_length", VInt 3)]) VNone
  = Raise (FieldError (MsgTooLong (VInt 3)))
  /\ sanitize_data (mkField IntegerField [("null", VBool false)]) VNone = Ok (VStr "NULL").
Proof.
  split.
  - exact (sanitize_data_None (mkField CharField [("max_length", VInt 3)]) 3 eq_refl).
  - exact (sanitize_data_None (mkField IntegerField [("null", VBool false)])).
Defined.
